(** * smart-unicom/oss: the storage contract and its backends

    A shallow embedding of the Go packages [oss], [aliyun], [qiniu],
    [tencent], [huawei], [azureblob] and [filesystem].

    Go strings are byte sequences: they are modelled as [string] (a list of
    8-bit [ascii]).  A Go function returning [(T, error)] returns a pair
    whose second component is an [option error]; a Go panic is the [Panic]
    outcome.  The vendor SDK handle a client holds is a record of functions
    (the calls the adapter makes on it), and the operating system is an
    explicit state that is passed along. *)

From Stdlib Require Import String Ascii List Bool ZArith NArith Lia.
From stdpp Require Import base option strings pretty sorting gmap.

Open Scope string_scope.
Open Scope bool_scope.

(** ** Go's [strings] package (the functions the adapters and [net/url] call) *)

Module GoStrings.

Fixpoint drop (n : nat) (s : string) : string :=
  match n, s with
  | O, _ => s
  | S n', String _ t => drop n' t
  | S _, EmptyString => EmptyString
  end.

Fixpoint take (n : nat) (s : string) : string :=
  match n, s with
  | O, _ => EmptyString
  | S n', String c t => String c (take n' t)
  | S _, EmptyString => EmptyString
  end.

(** [strings.HasPrefix(s, prefix)] *)
Fixpoint HasPrefix (s prefix : string) {struct prefix} : bool :=
  match prefix, s with
  | EmptyString, _ => true
  | String p ps, String c cs => Ascii.eqb c p && HasPrefix cs ps
  | String _ _, EmptyString => false
  end.

(** [strings.TrimPrefix(s, prefix)]: [s] without the leading [prefix], or
    [s] itself when it does not start with [prefix]. *)
Definition TrimPrefix (s prefix : string) : string :=
  if HasPrefix s prefix then drop (String.length prefix) s else s.

(** [strings.HasSuffix(s, suffix)] *)
Definition HasSuffix (s suffix : string) : bool :=
  (String.length suffix <=? String.length s)%nat
  && String.eqb (drop (String.length s - String.length suffix) s) suffix.

(** [strings.Index(s, sep)]: [None] stands for Go's [-1]. *)
Fixpoint Index (s sep : string) : option nat :=
  if HasPrefix s sep then Some O
  else match s with
       | EmptyString => None
       | String _ t => option_map S (Index t sep)
       end.

(** [strings.LastIndex(s, sep)] *)
Fixpoint LastIndex (s sep : string) : option nat :=
  match s with
  | EmptyString => if HasPrefix s sep then Some O else None
  | String _ t =>
      match LastIndex t sep with
      | Some i => Some (S i)
      | None => if HasPrefix s sep then Some O else None
      end
  end.

(** [strings.Contains(s, sep)] *)
Definition Contains (s sep : string) : bool :=
  match Index s sep with Some _ => true | None => false end.

(** [strings.Count(s, sep)] for a non-empty [sep]: the number of
    non-overlapping occurrences.  [skip] bytes belong to the occurrence
    found last. *)
Fixpoint count_from (skip : nat) (s sep : string) : nat :=
  match s with
  | EmptyString => O
  | String _ t =>
      match skip with
      | S k => count_from k t sep
      | O => if HasPrefix s sep
             then S (count_from (String.length sep - 1) t sep)
             else count_from O t sep
      end
  end.

Definition Count (s sep : string) : nat := count_from O s sep.

(** [strings.Cut(s, sep)]: [(before, after, found)]. *)
Definition Cut (s sep : string) : string * string * bool :=
  match Index s sep with
  | Some i => (take i s, drop (i + String.length sep) s, true)
  | None => (s, EmptyString, false)
  end.

Definition lower_byte (c : ascii) : ascii :=
  let n := N_of_ascii c in
  if (65 <=? n)%N && (n <=? 90)%N then ascii_of_N (n + 32) else c.

(** [strings.ToLower] on the ASCII letters (the only bytes of a scheme). *)
Fixpoint ToLower (s : string) : string :=
  match s with
  | EmptyString => EmptyString
  | String c t => String (lower_byte c) (ToLower t)
  end.

End GoStrings.

(** ** Go's [unicode/utf8]: how [regexp] reads a string as runes *)

Module Utf8.

Definition rune := N.
Definition RuneError : rune := 65533%N.

Definition byte (c : ascii) : N := N_of_ascii c.

(** The table [first] of [unicode/utf8]: for a leading byte, the size of the
    sequence and the range its second byte must lie in ([None]: the byte
    starts no multi-byte sequence). *)
Definition first (b : N) : option (nat * N * N) :=
  if (b <? 194)%N then None
  else if (b <=? 223)%N then Some (2%nat, 128%N, 191%N)
  else if (b =? 224)%N then Some (3%nat, 160%N, 191%N)
  else if (b <=? 236)%N then Some (3%nat, 128%N, 191%N)
  else if (b =? 237)%N then Some (3%nat, 128%N, 159%N)
  else if (b <=? 239)%N then Some (3%nat, 128%N, 191%N)
  else if (b =? 240)%N then Some (4%nat, 144%N, 191%N)
  else if (b <=? 243)%N then Some (4%nat, 128%N, 191%N)
  else if (b =? 244)%N then Some (4%nat, 128%N, 143%N)
  else None.

Definition cont (b : N) : bool := (128 <=? b)%N && (b <=? 191)%N.

(** [utf8.DecodeRuneInString]: the rune at the front of [s] and its width in
    bytes.  An invalid or truncated sequence is [RuneError] of width 1. *)
Definition DecodeRuneInString (s : string) : rune * nat :=
  match s with
  | EmptyString => (RuneError, O)
  | String c0 t =>
      let s0 := byte c0 in
      if (s0 <? 128)%N then (s0, 1%nat)
      else
        match first s0, t with
        | None, _ => (RuneError, 1%nat)
        | Some _, EmptyString => (RuneError, 1%nat)
        | Some (sz, lo, hi), String c1 t1 =>
            let s1 := byte c1 in
            if (s1 <? lo)%N || (hi <? s1)%N then (RuneError, 1%nat)
            else if (sz =? 2)%nat
            then (N.lor (N.shiftl (N.land s0 31) 6) (N.land s1 63), 2%nat)
            else
              match t1 with
              | EmptyString => (RuneError, 1%nat)
              | String c2 t2 =>
                  let s2 := byte c2 in
                  if negb (cont s2) then (RuneError, 1%nat)
                  else if (sz =? 3)%nat
                  then (N.lor (N.shiftl (N.land s0 15) 12)
                          (N.lor (N.shiftl (N.land s1 63) 6) (N.land s2 63)),
                        3%nat)
                  else
                    match t2 with
                    | EmptyString => (RuneError, 1%nat)
                    | String c3 _ =>
                        let s3 := byte c3 in
                        if negb (cont s3) then (RuneError, 1%nat)
                        else (N.lor (N.shiftl (N.land s0 7) 18)
                                (N.lor (N.shiftl (N.land s1 63) 12)
                                   (N.lor (N.shiftl (N.land s2 63) 6)
                                      (N.land s3 63))),
                              4%nat)
                    end
              end
        end
  end.

(** The runes of a string, front to back, as a [for range] loop or the
    regexp machine steps through it.  [skip] bytes are the rest of the rune
    decoded last. *)
Fixpoint runes_from (skip : nat) (s : string) : list rune :=
  match s with
  | EmptyString => []
  | String _ t =>
      match skip with
      | S k => runes_from k t
      | O => let '(r, w) := DecodeRuneInString s in r :: runes_from (w - 1) t
      end
  end.

Definition runes (s : string) : list rune := runes_from O s.

End Utf8.

(** ** Go's [regexp]: the patterns the adapters compile *)

Module Regexp.

Import Utf8.

(** The character classes the patterns use. *)
Inductive cls : Type :=
| Lit (c : ascii)      (* a literal ASCII character *)
| Word                 (* \w : [0-9A-Za-z_] *)
| AnyNotNL             (* .  : any rune but a newline *)
| AnyRune.             (* any rune (what an unanchored search skips) *)

Definition is_word (r : rune) : bool :=
  ((48 <=? r)%N && (r <=? 57)%N) || ((65 <=? r)%N && (r <=? 90)%N)
  || ((97 <=? r)%N && (r <=? 122)%N) || (r =? 95)%N.

Definition cls_mem (p : cls) (r : rune) : bool :=
  match p with
  | Lit c => (r =? byte c)%N
  | Word => is_word r
  | AnyNotNL => negb (r =? 10)%N
  | AnyRune => true
  end.

Inductive re : Type :=
| Void
| Eps
| Class (p : cls)
| Cat (r1 r2 : re)
| Alt (r1 r2 : re)
| Star (r : re).

Definition Plus (r : re) : re := Cat r (Star r).
Definition Opt (r : re) : re := Alt r Eps.

Fixpoint lits (s : string) : re :=
  match s with
  | EmptyString => Eps
  | String c EmptyString => Class (Lit c)
  | String c t => Cat (Class (Lit c)) (lits t)
  end.

(** The language of a pattern. *)
Inductive Matches : re -> list rune -> Prop :=
| MEps : Matches Eps []
| MClass p r : cls_mem p r = true -> Matches (Class p) [r]
| MCat r1 r2 s1 s2 :
    Matches r1 s1 -> Matches r2 s2 -> Matches (Cat r1 r2) (s1 ++ s2)
| MAltL r1 r2 s : Matches r1 s -> Matches (Alt r1 r2) s
| MAltR r1 r2 s : Matches r2 s -> Matches (Alt r1 r2) s
| MStar0 r : Matches (Star r) []
| MStarS r s1 s2 :
    Matches r s1 -> Matches (Star r) s2 -> Matches (Star r) (s1 ++ s2).

(** The matcher: Brzozowski derivatives, with the trivial simplifications
    that keep the derivative small. *)
Fixpoint nullable (r : re) : bool :=
  match r with
  | Void => false
  | Eps => true
  | Class _ => false
  | Cat r1 r2 => nullable r1 && nullable r2
  | Alt r1 r2 => nullable r1 || nullable r2
  | Star _ => true
  end.

Definition cat' (r1 r2 : re) : re :=
  match r1, r2 with
  | Void, _ => Void
  | _, Void => Void
  | Eps, _ => r2
  | _, _ => Cat r1 r2
  end.

Definition alt' (r1 r2 : re) : re :=
  match r1, r2 with
  | Void, _ => r2
  | _, Void => r1
  | _, _ => Alt r1 r2
  end.

Fixpoint der (c : rune) (r : re) : re :=
  match r with
  | Void => Void
  | Eps => Void
  | Class p => if cls_mem p c then Eps else Void
  | Cat r1 r2 =>
      if nullable r1 then alt' (cat' (der c r1) r2) (der c r2)
      else cat' (der c r1) r2
  | Alt r1 r2 => alt' (der c r1) (der c r2)
  | Star r1 => cat' (der c r1) (Star r1)
  end.

Fixpoint accepts (r : re) (s : list rune) : bool :=
  match s with
  | [] => nullable r
  | c :: t => accepts (der c r) t
  end.

(** [re.MatchString(s)]: whether [s] contains any match of the pattern. *)
Definition MatchString (r : re) (s : string) : bool :=
  accepts (Cat (Star (Class AnyRune)) (Cat r (Star (Class AnyRune)))) (runes s).

End Regexp.

(** ** Go's [net/url]: [url.Parse] (the reference implementation of Go 1.20)

    The adapters read [u.Path] of a successfully parsed URL only; the record
    keeps the fields [parse] fills on the way.  [None] is a parse error. *)

Module URL.

Import GoStrings.

Record URL : Type := mkURL {
  Scheme : string;
  Opaque : string;
  Host : string;
  Path : string;
  RawQuery : string;
  Fragment : string
}.

Inductive encoding : Type :=
| encodePath | encodeHost | encodeZone | encodeUserPassword | encodeFragment.

Definition code (c : ascii) : N := N_of_ascii c.

Fixpoint mem_byte (c : ascii) (set : string) : bool :=
  match set with
  | EmptyString => false
  | String x t => Ascii.eqb c x || mem_byte c t
  end.

Definition is_alpha (c : ascii) : bool :=
  let n := code c in
  ((97 <=? n)%N && (n <=? 122)%N) || ((65 <=? n)%N && (n <=? 90)%N).

Definition is_digit (c : ascii) : bool :=
  let n := code c in (48 <=? n)%N && (n <=? 57)%N.

Definition ishex (c : ascii) : bool :=
  let n := code c in
  is_digit c || ((97 <=? n)%N && (n <=? 102)%N) || ((65 <=? n)%N && (n <=? 70)%N).

Definition unhex (c : ascii) : N :=
  let n := code c in
  if is_digit c then (n - 48)%N
  else if (97 <=? n)%N && (n <=? 102)%N then (n - 97 + 10)%N
  else if (65 <=? n)%N && (n <=? 70)%N then (n - 65 + 10)%N
  else 0%N.

(** [shouldEscape(c, encodeHost)]: the ASCII bytes a host may not hold. *)
Definition shouldEscapeHost (c : ascii) : bool :=
  if is_alpha c || is_digit c then false
  else if mem_byte c "!$&'()*+,;=:[]<>" || (code c =? 34)%N then false
  else if mem_byte c "-_.~" then false
  else true.

Definition host_mode (mode : encoding) : bool :=
  match mode with encodeHost | encodeZone => true | _ => false end.

(** [unescape(s, mode)] for the modes [parse] uses: percent-decoding, with
    the checks the host and zone modes add. *)
Fixpoint unescape (s : string) (mode : encoding) : option string :=
  match s with
  | EmptyString => Some EmptyString
  | String c t =>
      if Ascii.eqb c "%"%char then
        match t with
        | String h1 (String h2 t') =>
            if ishex h1 && ishex h2 then
              let v := ascii_of_N (unhex h1 * 16 + unhex h2) in
              let is25 := Ascii.eqb h1 "2"%char && Ascii.eqb h2 "5"%char in
              match mode with
              | encodeHost =>
                  if (unhex h1 <? 8)%N && negb is25 then None
                  else option_map (String v) (unescape t' mode)
              | encodeZone =>
                  if negb is25 && negb (Ascii.eqb v " "%char) && shouldEscapeHost v
                  then None
                  else option_map (String v) (unescape t' mode)
              | _ => option_map (String v) (unescape t' mode)
              end
            else None
        | _ => None
        end
      else if host_mode mode && (code c <? 128)%N && shouldEscapeHost c then None
      else option_map (String c) (unescape t mode)
  end.

Fixpoint all_digits (s : string) : bool :=
  match s with
  | EmptyString => true
  | String c t => is_digit c && all_digits t
  end.

(** [validOptionalPort]: empty, or a colon and digits only. *)
Definition validOptionalPort (port : string) : bool :=
  match port with
  | EmptyString => true
  | String c t => Ascii.eqb c ":"%char && all_digits t
  end.

Fixpoint validUserinfo (s : string) : bool :=
  match s with
  | EmptyString => true
  | String c t =>
      (is_alpha c || is_digit c || mem_byte c "-._:~!$&'()*+,;=%@")
      && validUserinfo t
  end.

Definition parseHost (host : string) : option string :=
  if HasPrefix host "[" then
    match LastIndex host "]" with
    | None => None
    | Some i =>
        if negb (validOptionalPort (drop (i + 1) host)) then None
        else
          match Index (take i host) "%25" with
          | Some zone =>
              match unescape (take zone host) encodeHost,
                    unescape (drop zone (take i host)) encodeZone,
                    unescape (drop i host) encodeHost with
              | Some host1, Some host2, Some host3 =>
                  Some (host1 +:+ host2 +:+ host3)
              | _, _, _ => None
              end
          | None => unescape host encodeHost
          end
    end
  else
    match LastIndex host ":" with
    | Some i =>
        if negb (validOptionalPort (drop i host)) then None
        else unescape host encodeHost
    | None => unescape host encodeHost
    end.

(** [parseAuthority], keeping the host ([u.User] is not read by a caller). *)
Definition parseAuthority (authority : string) : option string :=
  match LastIndex authority "@" with
  | None => parseHost authority
  | Some i =>
      match parseHost (drop (i + 1) authority) with
      | None => None
      | Some host =>
          let userinfo := take i authority in
          if negb (validUserinfo userinfo) then None
          else if negb (Contains userinfo ":") then
            match unescape userinfo encodeUserPassword with
            | None => None
            | Some _ => Some host
            end
          else
            let '(username, password, _) := Cut userinfo ":" in
            match unescape username encodeUserPassword,
                  unescape password encodeUserPassword with
            | Some _, Some _ => Some host
            | _, _ => None
            end
      end
  end.

(** [getScheme]: [(scheme, rest)].  [raw] is the whole input and [i] the
    index of the first byte of [s] in it. *)
Fixpoint getScheme_loop (raw : string) (i : nat) (s : string)
  : option (string * string) :=
  match s with
  | EmptyString => Some (EmptyString, raw)
  | String c t =>
      if is_alpha c then getScheme_loop raw (S i) t
      else if is_digit c || mem_byte c "+-." then
        if (i =? 0)%nat then Some (EmptyString, raw)
        else getScheme_loop raw (S i) t
      else if Ascii.eqb c ":"%char then
        if (i =? 0)%nat then None else Some (take i raw, t)
      else Some (EmptyString, raw)
  end.

Definition getScheme (rawURL : string) : option (string * string) :=
  getScheme_loop rawURL O rawURL.

Fixpoint stringContainsCTLByte (s : string) : bool :=
  match s with
  | EmptyString => false
  | String c t =>
      (code c <? 32)%N || (code c =? 127)%N || stringContainsCTLByte t
  end.

(** [parse(rawURL, viaRequest = false)] *)
Definition parse (rawURL : string) : option URL :=
  if stringContainsCTLByte rawURL then None
  else if String.eqb rawURL "*"
  then Some (mkURL EmptyString EmptyString EmptyString "*" EmptyString EmptyString)
  else
    match getScheme rawURL with
    | None => None
    | Some (scheme0, rest0) =>
        let scheme := ToLower scheme0 in
        let '(rest, rawquery) :=
          if HasSuffix rest0 "?" && (Count rest0 "?" =? 1)%nat
          then (take (String.length rest0 - 1) rest0, EmptyString)
          else let '(before, after, _) := Cut rest0 "?" in (before, after) in
        if negb (HasPrefix rest "/") && negb (String.eqb scheme EmptyString)
        then Some (mkURL scheme rest EmptyString EmptyString rawquery EmptyString)
        else if negb (HasPrefix rest "/")
                && Contains (fst (fst (Cut rest "/"))) ":"
        then None
        else if (negb (String.eqb scheme EmptyString)
                 || negb (HasPrefix rest "///"))
                && HasPrefix rest "//"
        then
          let authority0 := drop 2 rest in
          let '(authority, rest') :=
            match Index authority0 "/" with
            | Some i => (take i authority0, drop i authority0)
            | None => (authority0, EmptyString)
            end in
          match parseAuthority authority with
          | None => None
          | Some host =>
              match unescape rest' encodePath with
              | None => None
              | Some path =>
                  Some (mkURL scheme EmptyString host path rawquery EmptyString)
              end
          end
        else
          match unescape rest encodePath with
          | None => None
          | Some path =>
              Some (mkURL scheme EmptyString EmptyString path rawquery EmptyString)
          end
    end.

(** [url.Parse(rawURL)]: the fragment is cut off first and unescaped last. *)
Definition Parse (rawURL : string) : option URL :=
  let '(u, frag, _) := Cut rawURL "#" in
  match parse u with
  | None => None
  | Some url =>
      if String.eqb frag EmptyString then Some url
      else
        match unescape frag encodeFragment with
        | None => None
        | Some f =>
            Some (mkURL (Scheme url) (Opaque url) (Host url) (Path url)
                    (RawQuery url) f)
        end
  end.

(** *** Query strings *)

(** [shouldEscape(c, encodeQueryComponent)]: everything but the letters,
    the digits and [-_.~]. *)
Definition shouldEscapeQueryComponent (c : ascii) : bool :=
  if is_alpha c || is_digit c then false
  else if mem_byte c "-_.~" then false
  else true.

Definition upperhex (n : N) : ascii :=
  nth (N.to_nat n) (list_ascii_of_string "0123456789ABCDEF") "0"%char.

(** [QueryEscape(s)] *)
Fixpoint QueryEscape (s : string) : string :=
  match s with
  | EmptyString => EmptyString
  | String c t =>
      if Ascii.eqb c " "%char then String "+" (QueryEscape t)
      else if shouldEscapeQueryComponent c
      then String "%"
             (String (upperhex (N.shiftr (code c) 4))
                (String (upperhex (N.land (code c) 15)) (QueryEscape t)))
      else String c (QueryEscape t)
  end.

(** [url.Values], a [map[string][]string]. *)
Definition Values : Type := gmap string (list string).

(** [v.Set(key, value)] *)
Definition Values_Set (v : Values) (key value : string) : Values :=
  <[key := [value]]> v.

(** The order of [sort.Strings]: byte by byte. *)
Definition key_le (a b : string) : Prop := String.leb a b = true.

#[local] Instance key_le_dec : RelDecision key_le.
Proof. intros a b. unfold key_le. apply _. Defined.

Fixpoint join (elems : list string) (sep : string) : string :=
  match elems with
  | [] => EmptyString
  | [e] => e
  | e :: rest => e +:+ sep +:+ join rest sep
  end.

(** [v.Encode()]: [key=value] for every value, the keys sorted, joined
    by [&]. *)
Definition Values_Encode (v : Values) : string :=
  join
    (flat_map
       (fun k =>
          map (fun value => QueryEscape k +:+ "=" +:+ QueryEscape value)
            (default [] (v !! k)))
       (merge_sort key_le (map fst (map_to_list v))))
    "&".

End URL.

(** ** Package [oss]: the contract's data, and the world the adapters act on *)

Module oss.

Import GoStrings.

(** Go's [error] values, by their message. *)
Definition error := string.

(** What a call does: it returns, or it panics. *)
Inductive Outcome (A : Type) : Type :=
| Returned (a : A)
| Panic (msg : string).
Arguments Returned {A} a.
Arguments Panic {A} msg.

(** A vendor call of type [(T, error)] that gives a value or an error. *)
Inductive result (A : Type) : Type :=
| Ok (a : A)
| Err (e : error).
Arguments Ok {A} a.
Arguments Err {A} e.

Definition nil_dereference : string :=
  "runtime error: invalid memory address or nil pointer dereference".

(** [time.Time], as Unix seconds. *)
Definition Time := Z.

(** [oss.Object]; [S] is the type of the backend [StorageInterface] holds. *)
Record Object (S : Type) : Type := mkObject {
  Path : string;
  Name : string;
  LastModified : option Time;
  Size : Z;
  StorageInterface : S
}.
Arguments mkObject {S}.
Arguments Path {S}.
Arguments Name {S}.
Arguments LastModified {S}.
Arguments Size {S}.
Arguments StorageInterface {S}.

(** An [io.ReadCloser] handed out by a vendor: the bytes it delivers, and
    the error that ends the stream when it does not end in [io.EOF]. *)
Record ReadCloser : Type := mkReadCloser {
  data : string;
  read_err : option error
}.

(** An [*http.Response]. *)
Record Response : Type := mkResponse {
  StatusCode : Z;
  Body : ReadCloser
}.

(** An open [*os.File]: the file's name and the read/write offset. *)
Record File : Type := mkFile {
  file_name : string;
  offset : nat
}.

(** An entry of the local file system. *)
Inductive node : Type :=
| RegularFile (content : string)
| Directory.

(** The part of the process' surroundings the adapters touch: the clock,
    the HTTP transport, and the local file system (its entries by absolute
    name, the working directory, [os.TempDir()], and the counter standing
    for the random suffix of a temporary file). *)
Record World : Type := mkWorld {
  now : Time;
  http_Get : string -> option Response * option error;
  fs : gmap string node;
  cwd : option string;
  TempDir : string;
  random : nat
}.

Definition set_fs (w : World) (m : gmap string node) : World :=
  mkWorld (now w) (http_Get w) m (cwd w) (TempDir w) (random w).

Definition set_random (w : World) (r : nat) : World :=
  mkWorld (now w) (http_Get w) (fs w) (cwd w) (TempDir w) r.

Definition ErrNotExist : error := "no such file or directory".
Definition ErrExist : error := "file exists".
Definition ErrNotEmpty : error := "directory not empty".

(** [ioutil.TempFile(dir, prefix)] / [os.CreateTemp]: a new empty file
    [dir/prefix<random>]; a name that is taken is retried with the next
    random string, 10000 times at most. *)
Fixpoint temp_name (tries : nat) (dir prefix : string) (r : nat)
    (m : gmap string node) : option (string * nat) :=
  match tries with
  | O => None
  | S k =>
      let name := dir +:+ "/" +:+ prefix +:+ pretty r in
      match m !! name with
      | None => Some (name, S r)
      | Some _ => temp_name k dir prefix (S r) m
      end
  end.

Definition TempFile (dir prefix : string) (w : World)
  : option File * option error * World :=
  match fs w !! dir with
  | Some Directory =>
      match temp_name (100 * 100) dir prefix (random w) (fs w) with
      | Some (name, r) =>
          (Some (mkFile name O), None,
           set_random (set_fs w (<[name := RegularFile EmptyString]> (fs w))) r)
      | None => (None, Some ErrExist, w)
      end
  | _ => (None, Some ErrNotExist, w)
  end.

Definition content_of (n : option node) : string :=
  match n with
  | Some (RegularFile c) => c
  | _ => EmptyString
  end.

(** [io.Copy(file, src)]: what [src] delivers is written to the file at its
    offset (a new temporary file is empty, offset 0); the error is the
    stream's. *)
Definition Copy (file : File) (src : ReadCloser) (w : World)
  : nat * option error * File * World :=
  let old := content_of (fs w !! file_name file) in
  let content := take (offset file) old +:+ data src in
  (String.length (data src), read_err src,
   mkFile (file_name file) (offset file + String.length (data src)),
   set_fs w (<[file_name file := RegularFile content]> (fs w))).

(** [file.Seek(0, 0)] *)
Definition Seek0 (file : File) : File := mkFile (file_name file) O.

(** [os.Open(name)] *)
Definition Open (name : string) (w : World) : option File * option error :=
  match fs w !! name with
  | Some _ => (Some (mkFile name O), None)
  | None => (None, Some ErrNotExist)
  end.

Definition has_entry_below (name : string) (w : World) : bool :=
  bool_decide
    (set_Exists (fun p => HasPrefix p (name +:+ "/") = true) (dom (fs w))).

(** [os.Remove(name)]: removes the named file or empty directory. *)
Definition Remove (name : string) (w : World) : option error * World :=
  match fs w !! name with
  | Some (RegularFile _) => (None, set_fs w (delete name (fs w)))
  | Some Directory =>
      if has_entry_below name w then (Some ErrNotEmpty, w)
      else (None, set_fs w (delete name (fs w)))
  | None => (Some ErrNotExist, w)
  end.

(** [Object.Get]: the object's backend is asked for the object's path;
    [get] is the backend's [Get]. *)
Definition Object_Get {S R : Type} (get : S -> string -> R) (object : Object S)
  : R :=
  get (StorageInterface object) (Path object).

End oss.

(** ** Go's [path/filepath] (Unix) *)

Module filepath.

Import GoStrings.

Fixpoint split_slash (cur : string) (s : string) : list string :=
  match s with
  | EmptyString => [cur]
  | String c t =>
      if Ascii.eqb c "/"%char then cur :: split_slash EmptyString t
      else split_slash (cur +:+ String c EmptyString) t
  end.

(** The elements of a cleaned path, last element first. *)
Fixpoint clean_elems (rooted : bool) (stack : list string)
    (elems : list string) : list string :=
  match elems with
  | [] => stack
  | e :: rest =>
      if String.eqb e EmptyString || String.eqb e "." then
        clean_elems rooted stack rest
      else if String.eqb e ".." then
        match stack with
        | top :: below =>
            if String.eqb top ".." then clean_elems rooted (e :: stack) rest
            else clean_elems rooted below rest
        | [] =>
            if rooted then clean_elems rooted [] rest
            else clean_elems rooted [e] rest
        end
      else clean_elems rooted (e :: stack) rest
  end.

Fixpoint join_slash (elems : list string) : string :=
  match elems with
  | [] => EmptyString
  | [e] => e
  | e :: rest => e +:+ "/" +:+ join_slash rest
  end.

(** [filepath.Clean(path)] *)
Definition Clean (path : string) : string :=
  let rooted := HasPrefix path "/" in
  let body := join_slash (rev (clean_elems rooted [] (split_slash EmptyString path))) in
  let out := (if rooted then "/" else EmptyString) +:+ body in
  if String.eqb out EmptyString then "." else out.

(** [filepath.Join(a, b)] *)
Definition Join (a b : string) : string :=
  if String.eqb a EmptyString then
    if String.eqb b EmptyString then EmptyString else Clean b
  else Clean (a +:+ "/" +:+ b).

Definition IsAbs (path : string) : bool := HasPrefix path "/".

(** [filepath.Abs(path)], the working directory being [wd] ([None]: it
    cannot be read). *)
Definition Abs (wd : option string) (path : string) : string * option oss.error :=
  if IsAbs path then (Clean path, None)
  else match wd with
       | Some d => (Join d path, None)
       | None => (EmptyString, Some "getwd: no such file or directory")
       end.

Fixpoint strip_trailing_slashes (s : string) : string :=
  match s with
  | EmptyString => EmptyString
  | String c t =>
      let t' := strip_trailing_slashes t in
      if String.eqb t' EmptyString && Ascii.eqb c "/"%char then EmptyString
      else String c t'
  end.

(** [filepath.Base(path)] *)
Definition Base (path : string) : string :=
  if String.eqb path EmptyString then "."
  else
    let p := strip_trailing_slashes path in
    let p := match LastIndex p "/" with
             | Some i => drop (i + 1) p
             | None => p
             end in
    if String.eqb p EmptyString then "/" else p.

(** [filepath.Dir(path)]: all but the last element, cleaned. *)
Definition Dir (path : string) : string :=
  let i := match LastIndex path "/" with
           | Some i => i + 1
           | None => O
           end in
  Clean (take i path).

(** [filepath.ToSlash(path)]: the separator is the slash already. *)
Definition ToSlash (path : string) : string := path.

(** [path.Ext(path)]: the suffix of the last element of [path] from its
    last dot on, or nothing. *)
Definition Ext (path : string) : string :=
  let last :=
    match LastIndex path "/" with
    | Some i => drop (i + 1) path
    | None => path
    end in
  match LastIndex last "." with
  | Some i => drop i last
  | None => EmptyString
  end.

End filepath.

(** ** Go's [io]: the readers handed to [Put] *)

Module io.

Import GoStrings oss.

(** An [io.Reader]: its bytes, how many of them were read already, whether
    it is an [io.ReadSeeker] as well, the error its [Seek] gives (a pipe is a
    seeker that cannot seek), and the error that ends it when it does not
    end in [io.EOF]. *)
Record Reader : Type := mkReader {
  bytes : string;
  position : nat;
  seekable : bool;
  seek_err : option error;
  fails : option error
}.

(** Whether [Seek(0, 0)] takes the reader back to its first byte. *)
Definition rewinds (r : Reader) : bool :=
  seekable r && match seek_err r with None => true | Some _ => false end.

(** [if seeker, ok := reader.(io.ReadSeeker); ok { seeker.Seek(0, 0) }],
    the result of [Seek] dropped. *)
Definition rewind (r : Reader) : Reader :=
  if rewinds r then mkReader (bytes r) O true None (fails r) else r.

(** What is left to read, as the stream [io.Copy] or [ioutil.ReadAll]
    drains. *)
Definition remaining (r : Reader) : ReadCloser :=
  mkReadCloser (drop (position r) (bytes r)) (fails r).

(** The reader once it was drained. *)
Definition drained (r : Reader) : Reader :=
  mkReader (bytes r) (Nat.max (position r) (String.length (bytes r)))
    (seekable r) (seek_err r) (fails r).

End io.

(** ** Go's [os]: making directories and files, and walking a tree *)

Module os.

Import GoStrings oss.

Definition ErrNotDir : error := "not a directory".
Definition ErrIsDir : error := "is a directory".

(** The directories that are there whatever the map holds. *)
Definition is_root (name : string) : bool :=
  String.eqb name "/" || String.eqb name ".".

(** [os.Stat(name)] / [os.Lstat(name)] *)
Definition Stat (name : string) (m : gmap string node) : option node :=
  if is_root name then Some Directory else m !! name.

(** The names [os.MkdirAll(path)] has to find or make, outermost first:
    [path] cut behind each of its elements. *)
Fixpoint prefixes (acc : string) (elems : list string) : list string :=
  match elems with
  | [] => []
  | e :: rest =>
      if String.eqb e EmptyString || String.eqb e "." then prefixes acc rest
      else (acc +:+ e) :: prefixes (acc +:+ e +:+ "/") rest
  end.

Definition ancestors (path : string) : list string :=
  prefixes (if HasPrefix path "/" then "/" else EmptyString)
    (filepath.split_slash EmptyString path).

Fixpoint mkdir_each (names : list string) (m : gmap string node)
  : option error * gmap string node :=
  match names with
  | [] => (None, m)
  | p :: rest =>
      match m !! p with
      | Some Directory => mkdir_each rest m
      | Some (RegularFile _) => (Some ErrNotDir, m)
      | None => mkdir_each rest (<[p := Directory]> m)
      end
  end.

(** [os.MkdirAll(path, perm)]: makes the directory and the parents it
    lacks; a regular file in the way is an error. *)
Definition MkdirAll (path : string) (w : World) : option error * World :=
  let '(err, m) := mkdir_each (ancestors path) (fs w) in (err, set_fs w m).

(** [os.Create(name)]: the file is created, or truncated when it exists;
    the directory it lies in has to be there. *)
Definition Create (name : string) (w : World)
  : option File * option error * World :=
  match fs w !! name with
  | Some Directory => (None, Some ErrIsDir, w)
  | _ =>
      match Stat (filepath.Dir name) (fs w) with
      | Some Directory =>
          (Some (mkFile name O), None,
           set_fs w (<[name := RegularFile EmptyString]> (fs w)))
      | Some (RegularFile _) => (None, Some ErrNotDir, w)
      | None => (None, Some ErrNotExist, w)
      end
  end.

(** The entries of the directory [dir], by their full names
    [filepath.Join(dir, name)], in the order of [readDirNames] (sorted). *)
Definition is_child (dir name : string) : bool :=
  String.eqb (filepath.Join dir (filepath.Base name)) name
  && negb (String.eqb name (filepath.Clean dir)).

(** The order of [sort.Strings]: byte by byte. *)
Definition name_le (a b : string) : Prop := String.leb a b = true.

#[local] Instance name_le_dec : RelDecision name_le.
Proof. intros a b. unfold name_le. apply _. Defined.

Definition children (m : gmap string node) (dir : string) : list string :=
  merge_sort name_le (List.filter (is_child dir) (map fst (map_to_list m))).

(** [walk(path, info, walkFn)] of [path/filepath], as the list of the
    entries [walkFn] is called with, in order.  A tree is no deeper than it
    has entries: [fuel] bounds the depth. *)
Fixpoint walk (fuel : nat) (m : gmap string node) (path : string) (info : node)
  : list (string * node) :=
  match fuel with
  | O => []
  | S k =>
      match info with
      | RegularFile _ => [(path, info)]
      | Directory =>
          (path, info)
          :: flat_map
               (fun filename =>
                  match Stat filename m with
                  | Some fileInfo => walk k m filename fileInfo
                  | None => []
                  end)
               (children m path)
      end
  end.

(** [filepath.Walk(root, walkFn)]: the entries [walkFn] is called with and
    no error ([None]: the one call is that with the error of [Lstat(root)]). *)
Definition Walk (root : string) (w : World) : option (list (string * node)) :=
  match Stat root (fs w) with
  | None => None
  | Some info => Some (walk (S (size (fs w))) (fs w) root info)
  end.

End os.

(** ** Package [aliyun] *)

Module Aliyun.

Import GoStrings Regexp oss.

(** [aliyun.ACLType] is a string type. *)
Definition ACLType := string.
Definition ACLPrivate : ACLType := "private".
Definition ACLPublicRead : ACLType := "public-read".

Inductive HTTPMethod : Type := HTTPGet | HTTPPut.

Record ObjectProperties : Type := mkObjectProperties {
  Key : string;
  ObjLastModified : Time;
  ObjSize : Z
}.

Record ListObjectsResult : Type := mkListObjectsResult {
  Objects : list ObjectProperties;
  IsTruncated : bool;
  NextMarker : string
}.

(** The calls the adapter makes on its [*aliyun.Bucket]. *)
Record Bucket : Type := mkBucket {
  GetObject : string -> result ReadCloser;
  DeleteObject : string -> option error;
  (* ListObjects(aliyun.Prefix(prefix)) *)
  ListObjects : string -> result ListObjectsResult;
  SignURL : string -> HTTPMethod -> Z -> result string;
  (* Bucket.Client.Config.Endpoint *)
  Client_Config_Endpoint : string
}.

Record Config : Type := mkConfig {
  AccessId : string;
  AccessKey : string;
  Region : string;
  ConfigBucket : string;
  Endpoint : string;
  ACL : ACLType;
  UseCname : bool
}.

Record Client : Type := mkClient {
  bucket : Bucket;
  config : Config
}.

(** [(https?:)?//((\w+).)+(\w+)/] *)
Definition urlRegexp : re :=
  Cat (Opt (Cat (lits "http") (Cat (Opt (Class (Lit "s"))) (Class (Lit ":")))))
    (Cat (lits "//")
       (Cat (Plus (Cat (Plus (Class Word)) (Class AnyNotNL)))
          (Cat (Plus (Class Word)) (Class (Lit "/"))))).

Definition ToRelativePath (client : Client) (urlPath : string) : string :=
  if MatchString urlRegexp urlPath then
    match URL.Parse urlPath with
    | Some u => TrimPrefix (URL.Path u) "/"
    | None => TrimPrefix urlPath "/"
    end
  else TrimPrefix urlPath "/".

Definition GetStream (client : Client) (path : string) : result ReadCloser :=
  GetObject (bucket client) (ToRelativePath client path).

Definition Get (client : Client) (path : string) (w : World)
  : option File * option error * World :=
  match GetStream client path with
  | Err err => (None, Some err, w)
  | Ok readCloser =>
      match TempFile "/tmp" "ali" w with
      | (Some file, None, w1) =>
          let '(_, err, file1, w2) := Copy file readCloser w1 in
          (Some (Seek0 file1), err, w2)
      | (file, err, w1) => (file, err, w1)
      end
  end.

Definition Delete (client : Client) (path : string) : option error :=
  DeleteObject (bucket client) (ToRelativePath client path).

Definition List (client : Client) (path : string)
  : list (Object Client) * option error :=
  match ListObjects (bucket client) path with
  | Ok results =>
      (map (fun obj =>
              mkObject ("/" +:+ ToRelativePath client (Key obj))
                (filepath.Base (Key obj)) (Some (ObjLastModified obj))
                (ObjSize obj) client)
         (Objects results), None)
  | Err e => ([], Some e)
  end.

Definition GetEndpoint (client : Client) : string :=
  if negb (String.eqb (Endpoint (config client)) EmptyString) then
    if HasSuffix (Endpoint (config client)) "aliyuncs.com"
    then ConfigBucket (config client) +:+ "." +:+ Endpoint (config client)
    else Endpoint (config client)
  else
    let endpoint := Client_Config_Endpoint (bucket client) in
    let endpoint :=
      fold_left (fun e prefix => TrimPrefix e prefix)
        ["https://"; "http://"] endpoint in
    ConfigBucket (config client) +:+ "." +:+ endpoint.

Definition GetURL (client : Client) (path : string) : result string :=
  if String.eqb (ACL (config client)) ACLPrivate
  then SignURL (bucket client) (ToRelativePath client path) HTTPGet (60 * 60)
  else Ok path.

(** [aliyun.ClientOption]: the adapter makes [aliyun.UseCname(true)] and
    passes on the options of the caller. *)
Inductive ClientOption : Type :=
| UseCnameOption (isUseCname : bool)
| CallerOption (name : string).

(** [aliyun.New(endpoint, accessKeyID, accessKeySecret, options...)] of the
    SDK, and [Bucket(bucketName)] of the client it returns. *)
Definition Connector : Type :=
  string -> string -> string -> list ClientOption ->
  result (string -> result Bucket).

Definition set_Endpoint (c : Config) (endpoint : string) : Config :=
  mkConfig (AccessId c) (AccessKey c) (Region c) (ConfigBucket c) endpoint
    (ACL c) (UseCname c).

Definition set_ACL (c : Config) (acl : ACLType) : Config :=
  mkConfig (AccessId c) (AccessKey c) (Region c) (ConfigBucket c) (Endpoint c)
    acl (UseCname c).

(** [New(config)]: the defaults are written into the caller's [*Config],
    which the client keeps; [ClientOptions] is the field of that name. *)
Definition New (aliyun_New : Connector) (config : Config)
    (ClientOptions : list ClientOption)
  : Outcome (Client * list ClientOption) :=
  let config :=
    if String.eqb (Endpoint config) EmptyString
    then set_Endpoint config "oss-cn-hangzhou.aliyuncs.com" else config in
  let config :=
    if String.eqb (ACL config) EmptyString
    then set_ACL config ACLPublicRead else config in
  let ClientOptions :=
    if UseCname config
    then (ClientOptions ++ [UseCnameOption (UseCname config)])%list
    else ClientOptions in
  match aliyun_New (Endpoint config) (AccessId config) (AccessKey config)
          ClientOptions with
  | Err err => Panic err
  | Ok Aliyun =>
      match Aliyun (ConfigBucket config) with
      | Err err => Panic err
      | Ok bucket => Returned (mkClient bucket config, ClientOptions)
      end
  end.

End Aliyun.

(** ** Package [qiniu] *)

Module Qiniu.

Import GoStrings Regexp oss.

Record ListItem : Type := mkListItem {
  Key : string;
  PutTime : Z
}.

(** The calls the adapter makes on the qiniu SDK: [bucketManager.ListFiles
    (bucket, prefix, delimiter, marker, limit)] returning [(entries,
    commonPrefixes, nextMarker, hasNext, err)], [bucketManager.Delete],
    and the URL builders of package [storage] ([mac] is the client's). *)
Record SDK : Type := mkSDK {
  ListFiles : string -> string -> string -> string -> nat ->
              list ListItem * list string * string * bool * option error;
  BucketDelete : string -> string -> option error;
  MakePrivateURL : string -> string -> Z -> string;
  MakePublicURL : string -> string -> string
}.

Record Config : Type := mkConfig {
  AccessId : string;
  AccessKey : string;
  Region : string;
  Bucket : string;
  Endpoint : string;
  UseHTTPS : bool;
  UseCdnDomains : bool;
  PrivateURL : bool
}.

Record Client : Type := mkClient {
  config : Config;
  sdk : SDK
}.

(** [(https?:)?//((\w+).)+(\w+)/] *)
Definition urlRegexp : re := Aliyun.urlRegexp.

Definition storageKey (urlPath : string) : string :=
  let urlPath :=
    if MatchString urlRegexp urlPath then
      match URL.Parse urlPath with
      | Some u => URL.Path u
      | None => urlPath
      end
    else urlPath in
  TrimPrefix urlPath "/".

Definition GetEndpoint (client : Client) : string := Endpoint (config client).

Definition GetURL (client : Client) (path : string) (w : World)
  : string * option error :=
  if (String.length path =? 0)%nat then (EmptyString, None)
  else
    let key := storageKey path in
    if PrivateURL (config client) then
      let deadline := (now w + 3600)%Z in
      (MakePrivateURL (sdk client) (Endpoint (config client)) key deadline, None)
    else (MakePublicURL (sdk client) (GetEndpoint client) key, None).

Definition StatusOK : Z := 200.

Definition GetStream (client : Client) (path : string) (w : World)
  : Outcome (option ReadCloser * option error) :=
  match GetURL client path w with
  | (_, Some err) => Returned (None, Some err)
  | (purl, None) =>
      match http_Get w purl with
      | (Some res, None) =>
          if negb (StatusCode res =? StatusOK)%Z
          then Returned (Some (Body res),
                         Some ("file " +:+ path +:+ " not found"))
          else Returned (Some (Body res), None)
      | (Some res, Some err) => Returned (Some (Body res), Some err)
      (* res is nil: [res.StatusCode] or [res.Body] dereferences it *)
      | (None, _) => Panic nil_dereference
      end
  end.

Definition Get (client : Client) (path : string) (w : World)
  : Outcome (option File * option error * World) :=
  match GetStream client path w with
  | Panic msg => Panic msg
  | Returned (readCloser, _) =>
      (* the error of GetStream is overwritten by that of TempFile *)
      match TempFile (TempDir w) "qiniu" w with
      | (Some file, None, w1) =>
          match readCloser with
          | None => Panic nil_dereference
          | Some rc =>
              let '(_, err, file1, w2) := Copy file rc w1 in
              Returned (Some (Seek0 file1), err, w2)
          end
      | (file, err, w1) => Returned (file, err, w1)
      end
  end.

Definition Delete (client : Client) (path : string) : option error :=
  BucketDelete (sdk client) (Bucket (config client)) (storageKey path).

Definition List (client : Client) (path : string)
  : list (Object Client) * option error :=
  let prefix := storageKey path in
  let '(listItems, _, _, _, err) :=
    ListFiles (sdk client) (Bucket (config client)) prefix EmptyString
      EmptyString 100 in
  match err with
  | Some e => ([], Some e)
  | None =>
      (map (fun content =>
              mkObject ("/" +:+ storageKey (Key content))
                (filepath.Base (Key content)) (Some (PutTime content)) 0%Z
                client)
         listItems, None)
  end.

Inductive Zone : Type := ZoneHuadong | ZoneHuabei | ZoneHuanan | ZoneBeimei.

(** The map [zonedata]. *)
Definition zonedata (region : string) : option Zone :=
  if String.eqb region "huadong" then Some ZoneHuadong
  else if String.eqb region "huabei" then Some ZoneHuabei
  else if String.eqb region "huanan" then Some ZoneHuanan
  else if String.eqb region "beimei" then Some ZoneBeimei
  else None.

(** [New(config)].  [strings_ToLower] is [strings.ToLower], which lowers
    by the Unicode tables; [connect] is what [qbox.NewMac] and
    [storage.NewBucketManager] make of the keys and of the storage
    configuration (zone, [UseHTTPS], [UseCdnDomains]). *)
Definition New (strings_ToLower : string -> string)
    (connect : Config -> Zone -> SDK) (config : Config) : result Client :=
  match zonedata (strings_ToLower (Region config)) with
  | None =>
      Err ("Zone " +:+ Region config
           +:+ " is invalid, only support huadong, huabei, huanan, beimei.")
  | Some z =>
      if (String.length (Endpoint config) =? 0)%nat
      then Err "endpoint must be provided."
      else if negb (HasPrefix (Endpoint config) "http://")
              && negb (HasPrefix (Endpoint config) "https://")
      then Err "endpoint must start with http:// or https://"
      else Ok (mkClient config (connect config z))
  end.

Section Upload.

(** [putPolicy.UploadToken(client.mac)] for the policy of a scope, and
    [formUploader.Put(ctx, &ret, upToken, key, data, size, &putExtra)]
    with the [ret.Key] the service answers. *)
Variable UploadToken : string -> string.
Variable FormPut : string -> string -> string -> result string.

(** [Put(urlPath, reader)]: the object, the error, and the reader
    afterwards.  The field [putPolicy] is nil in every client: [New] does
    not set it, and [SetPutPolicy] assigns to the copy its value receiver
    is, so the policy is always that of the scope [bucket:key].  The
    content type [Put] works out is not passed on. *)
Definition Put (client : Client) (urlPath : string) (reader : io.Reader)
    (w : World) : option (Object Client) * option error * io.Reader :=
  let reader := io.rewind reader in
  let urlPath := storageKey urlPath in
  match io.fails reader with
  | Some err => (None, Some err, io.drained reader)
  | None =>
      let buffer := data (io.remaining reader) in
      let upToken := UploadToken (Bucket (config client) +:+ ":" +:+ urlPath) in
      match FormPut upToken urlPath buffer with
      | Err err => (None, Some err, io.drained reader)
      | Ok retKey =>
          (Some (mkObject retKey (filepath.Base urlPath) (Some (now w)) 0%Z
                   client),
           None, io.drained reader)
      end
  end.

End Upload.

End Qiniu.

(** ** Package [tencent] *)

Module Tencent.

Import GoStrings Regexp oss.

Record CosObject : Type := mkCosObject {
  Key : string;
  CosSize : Z
}.

(** The calls the adapter makes on its [*cos.Client]: [COS.Object.Get],
    [COS.Object.Delete] and [COS.Bucket.Get] with [Prefix] set. *)
Record COS : Type := mkCOS {
  ObjectGet : string -> result ReadCloser;
  ObjectDelete : string -> option error;
  BucketGet : string -> result (list CosObject)
}.

Record Config : Type := mkConfig {
  AppID : string;
  SecretID : string;
  SecretKey : string;
  Region : string;
  Bucket : string;
  ACL : string;
  CORS : string;
  Endpoint : string
}.

Record Client : Type := mkClient {
  config : Config;
  cos : COS
}.

(** [(https?:)?//((\\w+).)+(\w+)/]: in the raw string literal the doubled
    backslash is the pattern of a literal backslash, and [w+] after it is
    the letter w, once or more. *)
Definition urlRegexp : re :=
  Cat (Opt (Cat (lits "http") (Cat (Opt (Class (Lit "s"))) (Class (Lit ":")))))
    (Cat (lits "//")
       (Cat (Plus (Cat (Cat (Class (Lit "\")) (Plus (Class (Lit "w"))))
                     (Class AnyNotNL)))
          (Cat (Plus (Class Word)) (Class (Lit "/"))))).

Definition ToRelativePath (client : Client) (urlPath : string) : string :=
  if MatchString urlRegexp urlPath then
    match URL.Parse urlPath with
    | Some u => TrimPrefix (URL.Path u) "/"
    | None => TrimPrefix urlPath "/"
    end
  else TrimPrefix urlPath "/".

(** [fmt.Sprintf("https://%s-%s.cos.%s.myqcloud.com/%s", ...)] *)
Definition getUrl (client : Client) (path : string) : string :=
  "https://" +:+ Bucket (config client) +:+ "-" +:+ AppID (config client)
  +:+ ".cos." +:+ Region (config client) +:+ ".myqcloud.com/"
  +:+ ToRelativePath client path.

Definition GetStream (client : Client) (path : string) : result ReadCloser :=
  ObjectGet (cos client) (ToRelativePath client path).

Definition Get (client : Client) (path : string) (w : World)
  : option File * option error * World :=
  match GetStream client path with
  | Err err => (None, Some err, w)
  | Ok readCloser =>
      match TempFile "/tmp" "tencent" w with
      | (Some file, None, w1) =>
          let '(_, err, file1, w2) := Copy file readCloser w1 in
          (Some (Seek0 file1), err, w2)
      | (file, err, w1) => (file, err, w1)
      end
  end.

Definition Delete (client : Client) (path : string) : option error :=
  ObjectDelete (cos client) (ToRelativePath client path).

Definition List (client : Client) (path : string)
  : list (Object Client) * option error :=
  match BucketGet (cos client) (ToRelativePath client path) with
  | Err e => ([], Some e)
  | Ok contents =>
      (map (fun obj =>
              mkObject ("/" +:+ Key obj) (filepath.Base (Key obj)) None
                (CosSize obj) client)
         contents, None)
  end.

Definition GetEndpoint (client : Client) : string :=
  if negb (String.eqb (Endpoint (config client)) EmptyString)
  then Endpoint (config client)
  else Bucket (config client) +:+ "-" +:+ AppID (config client) +:+ ".cos."
       +:+ Region (config client) +:+ ".myqcloud.com".

Definition GetURL (client : Client) (path : string) : result string :=
  Ok (getUrl client path).

End Tencent.

(** ** Package [huawei] *)

Module Huawei.

Import GoStrings oss.

Record Content : Type := mkContent {
  Key : string;
  ContentLastModified : Time;
  ContentSize : Z
}.

Inductive HttpMethodType : Type := HttpMethodGet | HttpMethodPut.

(** The calls the adapter makes on its [*obs.ObsClient]; each takes the
    fields the adapter sets on the request ([Bucket], [Key] or [Prefix],
    and for a signed URL [Method] and [Expires]). *)
Record ObsClient : Type := mkObsClient {
  GetObject : string -> string -> result ReadCloser;
  DeleteObject : string -> string -> option error;
  ListObjects : string -> string -> result (list Content);
  CreateSignedUrl : HttpMethodType -> string -> string -> Z -> result string
}.

Record Config : Type := mkConfig {
  SecretID : string;
  SecretKey : string;
  Endpoint : string;
  Region : string;
  Bucket : string;
  SecurityToken : string
}.

Record Client : Type := mkClient {
  config : Config;
  OBS : ObsClient
}.

Definition ToRelativePath (client : Client) (urlPath : string) : string :=
  TrimPrefix urlPath "/".

Definition GetStream (client : Client) (path : string) : result ReadCloser :=
  GetObject (OBS client) (Bucket (config client)) (ToRelativePath client path).

Definition Get (client : Client) (path : string) (w : World)
  : option File * option error * World :=
  match GetStream client path with
  | Err err => (None, Some err, w)
  | Ok readCloser =>
      match TempFile "/tmp" "huaweicloud" w with
      | (Some file, None, w1) =>
          let '(_, err, file1, w2) := Copy file readCloser w1 in
          (Some (Seek0 file1), err, w2)
      | (file, err, w1) => (file, err, w1)
      end
  end.

Definition Delete (client : Client) (path : string) : option error :=
  DeleteObject (OBS client) (Bucket (config client)) (ToRelativePath client path).

Definition List (client : Client) (path : string)
  : list (Object Client) * option error :=
  match ListObjects (OBS client) (Bucket (config client))
          (ToRelativePath client path) with
  | Err e => ([], Some e)
  | Ok contents =>
      (map (fun obj =>
              mkObject ("/" +:+ Key obj) (filepath.Base (Key obj))
                (Some (ContentLastModified obj)) (ContentSize obj) client)
         contents, None)
  end.

Definition GetEndpoint (client : Client) : string := Endpoint (config client).

Definition GetURL (client : Client) (path : string) : result string :=
  match CreateSignedUrl (OBS client) HttpMethodGet (Bucket (config client))
          (ToRelativePath client path) 3600 with
  | Err err => Err err
  | Ok signedUrl => Ok signedUrl
  end.

End Huawei.

(** ** Package [azureblob] *)

Module Azureblob.

Import GoStrings Regexp oss.

(** The calls the adapter makes through its [*azblob.ContainerURL]:
    [DownloadBlob] (the body of the download response) and [DeleteBlob]. *)
Record ContainerURL : Type := mkContainerURL {
  Download : string -> result ReadCloser;
  BlobDelete : string -> option error
}.

Record Config : Type := mkConfig {
  AccessId : string;
  AccessKey : string;
  Region : string;
  Bucket : string;
  Endpoint : string
}.

Record Client : Type := mkClient {
  config : Config;
  containerURL : ContainerURL
}.

(** [(https?:)?//((\w+).)+(\w+)/] *)
Definition urlRegexp : re := Aliyun.urlRegexp.

Definition ToRelativePath (client : Client) (urlPath : string) : string :=
  if MatchString urlRegexp urlPath then
    match URL.Parse urlPath with
    | Some u => TrimPrefix (URL.Path u) "/"
    | None => TrimPrefix urlPath "/"
    end
  else TrimPrefix urlPath "/".

(** [fmt.Sprintf(blobFormatString, id)] with
    [blobFormatString = "https://%s.blob.core.windows.net"] *)
Definition blobFormatString (id : string) : string :=
  "https://" +:+ id +:+ ".blob.core.windows.net".

Definition GetStream (client : Client) (path : string) : result ReadCloser :=
  Download (containerURL client) path.

Definition Get (client : Client) (path : string) (w : World)
  : option File * option error * World :=
  let path := ToRelativePath client path in
  match GetStream client path with
  | Err err => (None, Some err, w)
  | Ok readCloser =>
      match TempFile "/tmp" "ali" w with
      | (Some file, None, w1) =>
          let '(_, err, file1, w2) := Copy file readCloser w1 in
          (Some (Seek0 file1), err, w2)
      | (file, err, w1) => (file, err, w1)
      end
  end.

Definition Delete (client : Client) (path : string) : option error :=
  let path := ToRelativePath client path in
  BlobDelete (containerURL client) path.

Definition List (client : Client) (path : string)
  : Outcome (list (Object Client) * option error) :=
  Panic "implement me".

Definition GetURL (client : Client) (path : string) : result string := Ok path.

Definition GetEndpoint (client : Client) : string :=
  if negb (String.eqb (Endpoint (config client)) EmptyString)
  then Endpoint (config client)
  else blobFormatString (AccessId (config client)).

Section Upload.

(** [UploadBlob(&blobName, &blobType, data)], and the content-type tables
    of the standard library: [mime.TypeByExtension] and
    [http.DetectContentType]. *)
Variable UploadBlob : string -> string -> string -> option error.
Variable TypeByExtension : string -> string.
Variable DetectContentType : string -> string.

(** [Put(urlPath, reader)]: the object, the error, and the reader
    afterwards.  What [ioutil.ReadAll] returns as its error is
    overwritten by the result of the upload. *)
Definition Put (client : Client) (urlPath : string) (reader : io.Reader)
    (w : World) : option (Object Client) * option error * io.Reader :=
  match (if io.seekable reader then io.seek_err reader else None) with
  | Some err => (None, Some err, reader)
  | None =>
      let reader := io.rewind reader in
      let urlPath := ToRelativePath client urlPath in
      let buffer := data (io.remaining reader) in
      let fileType := TypeByExtension (filepath.Ext urlPath) in
      let fileType :=
        if String.eqb fileType EmptyString
        then DetectContentType buffer else fileType in
      let fileType :=
        if String.eqb fileType EmptyString
        then DetectContentType buffer else fileType in
      match UploadBlob urlPath fileType buffer with
      | Some err => (None, Some err, io.drained reader)
      | None =>
          (Some (mkObject urlPath (filepath.Base urlPath) (Some (now w)) 0%Z
                   client),
           None, io.drained reader)
      end
  end.

End Upload.

End Azureblob.

(** ** Package [filesystem] *)

Module Filesystem.

Import GoStrings oss.

Record FileSystem : Type := mkFileSystem {
  Base : string
}.

(** [New(base)]: when the working directory cannot be read, [filepath.Abs]
    returns the empty string, a line is printed, and the empty string is
    the base. *)
Definition New (base : string) (w : World) : FileSystem :=
  let '(absbase, _) := filepath.Abs (cwd w) base in
  mkFileSystem absbase.

Definition GetFullPath (fileSystem : FileSystem) (path : string) (w : World)
  : string :=
  if negb (HasPrefix path (Base fileSystem))
  then fst (filepath.Abs (cwd w) (filepath.Join (Base fileSystem) path))
  else path.

Definition Get (fileSystem : FileSystem) (path : string) (w : World)
  : option File * option error :=
  Open (GetFullPath fileSystem path w) w.

Definition GetStream (fileSystem : FileSystem) (path : string) (w : World)
  : option File * option error :=
  Open (GetFullPath fileSystem path w) w.

Definition Delete (fileSystem : FileSystem) (path : string) (w : World)
  : option error * World :=
  Remove (GetFullPath fileSystem path w) w.

Definition GetEndpoint (fileSystem : FileSystem) : string := "/".

Definition GetURL (fileSystem : FileSystem) (path : string) : result string :=
  Ok path.

Definition Put (fileSystem : FileSystem) (path : string) (reader : io.Reader)
    (w : World)
  : option (Object FileSystem) * option error * io.Reader * World :=
  let fullpath := GetFullPath fileSystem path w in
  match os.MkdirAll (filepath.Dir fullpath) w with
  | (Some err, w1) => (None, Some err, reader, w1)
  | (None, w1) =>
      let object := mkObject path (filepath.Base path) None 0%Z fileSystem in
      match os.Create fullpath w1 with
      | (Some dst, None, w2) =>
          let reader1 := io.rewind reader in
          let '(_, err, _, w3) := Copy dst (io.remaining reader1) w2 in
          (Some object, err, io.drained reader1, w3)
      | (_, err, w2) => (Some object, err, reader, w2)
      end
  end.

(** [modTime] gives the modification time [info.ModTime()] of an entry; the
    world keeps none. *)
Definition List (modTime : string -> Time) (fileSystem : FileSystem)
    (path : string) (w : World)
  : list (Object FileSystem) * option error :=
  let fullpath := GetFullPath fileSystem path w in
  let visited := default [] (os.Walk fullpath w) in
  (omap
     (fun entry =>
        let '(path, info) := entry in
        if String.eqb path fullpath then None
        else
          match info with
          | Directory => None
          | RegularFile _ =>
              Some (mkObject (TrimPrefix path (Base fileSystem))
                      (filepath.Base path) (Some (modTime path)) 0%Z fileSystem)
          end)
     visited, None).

End Filesystem.

(** ** Package [synology]

    The adapter talks to the web API of the NAS through [http.Get]; the
    answers are JSON, decoded into [map[string]interface{}].  The lines the
    [Debug] switch prints are not part of the model. *)

Module Synology.

Import GoStrings oss.

(** A [float64] of a decoded document: [int(f)] is all the adapter asks of
    it. *)
Record float64 : Type := mkFloat64 { to_int : Z }.

(** The values [encoding/json] decodes into an [interface{}]. *)
#[local] Unset Elimination Schemes.
Inductive json : Type :=
| JNull
| JBool (b : bool)
| JNumber (f : float64)
| JString (s : string)
| JArray (items : list json)
| JObject (fields : list (string * json)).
#[local] Set Elimination Schemes.

(** A [map[string]interface{}] by its entries; the nil map has none. *)
Definition jmap : Type := list (string * json).

(** [m[key]]: [None] is the nil interface, which a missing key and a JSON
    [null] both give. *)
Fixpoint index (m : jmap) (key : string) : option json :=
  match m with
  | [] => None
  | (k, v) :: rest =>
      if String.eqb k key
      then match v with JNull => None | _ => Some v end
      else index rest key
  end.

Definition type_name (v : option json) : string :=
  match v with
  | None | Some JNull => "nil"
  | Some (JBool _) => "bool"
  | Some (JNumber _) => "float64"
  | Some (JString _) => "string"
  | Some (JArray _) => "[]interface {}"
  | Some (JObject _) => "map[string]interface {}"
  end.

(** The panic of a type assertion [v.(T)] that fails. *)
Definition conversion_panic (v : option json) (T : string) : string :=
  "interface conversion: interface {} is " +:+ type_name v +:+ ", not " +:+ T.

Definition as_bool (v : option json) : Outcome bool :=
  match v with
  | Some (JBool b) => Returned b
  | _ => Panic (conversion_panic v "bool")
  end.

Definition as_float64 (v : option json) : Outcome float64 :=
  match v with
  | Some (JNumber f) => Returned f
  | _ => Panic (conversion_panic v "float64")
  end.

Definition as_string (v : option json) : Outcome string :=
  match v with
  | Some (JString s) => Returned s
  | _ => Panic (conversion_panic v "string")
  end.

Definition as_map (v : option json) : Outcome jmap :=
  match v with
  | Some (JObject fields) => Returned fields
  | _ => Panic (conversion_panic v "map[string]interface {}")
  end.

Definition bind {A B : Type} (a : Outcome A) (f : A -> Outcome B) : Outcome B :=
  match a with
  | Returned x => f x
  | Panic msg => Panic msg
  end.

Notation "x <- a ;; b" := (bind a (fun x => b))
  (at level 100, a at next level, right associativity).

Record Config : Type := mkConfig {
  Endpoint : string;
  AccessId : string;
  AccessKey : string;
  SessionExpire : bool;
  Verify : bool;
  Debug : bool;
  OtpCode : string;
  SharedFolder : string
}.

(** The client and the [*Config] it points to; [None] is a nil map. *)
Record Client : Type := mkClient {
  config : Config;
  SId : string;
  SynoToken : string;
  AppAPIList : option (list (string * jmap));
  FullAPIList : option (list (string * jmap))
}.

Definition set_SessionExpire (c : Config) (b : bool) : Config :=
  mkConfig (Endpoint c) (AccessId c) (AccessKey c) b (Verify c) (Debug c)
    (OtpCode c) (SharedFolder c).

Definition StatusOK : Z := 200.

(** [http.NewRequest(method, url, nil)] with a valid method fails when
    [url.Parse] does; the text of that error is not modelled. *)
Definition NewRequest (url : string) : option error :=
  match URL.Parse url with
  | Some _ => None
  | None => Some ("parse " +:+ url +:+ ": invalid URL")
  end.

Definition params_of (pairs : list (string * string)) : URL.Values :=
  fold_left (fun v kv => URL.Values_Set v (fst kv) (snd kv)) pairs ∅.

(** [getErrorCode(response)] *)
Definition getErrorCode (response : jmap) : Outcome Z :=
  success <- as_bool (index response "success") ;;
  if success then Returned 0%Z
  else
    errorData <- as_map (index response "error") ;;
    code <- as_float64 (index errorData "code") ;;
    Returned (to_int code).

Section Decoder.

(** [json.NewDecoder(body).Decode(&m)] for a [map[string]interface{}]. *)
Variable Decode : ReadCloser -> result jmap.

(** [strings.ToLower], which lowers by the Unicode tables. *)
Variable strings_ToLower : string -> string.

(** [Login(application)]: the error returned and the client afterwards. *)
Definition Login (application : string) (client : Client) (w : World)
  : Outcome (option error * Client) :=
  let baseURL := Endpoint (config client) +:+ "/webapi/" in
  let loginAPI := "auth.cgi?api=SYNO.API.Auth" in
  let params :=
    params_of [("version", "3"); ("method", "login");
               ("account", AccessId (config client));
               ("passwd", AccessKey (config client));
               ("session", application); ("format", "cookie");
               ("enable_syno_token", "yes")] in
  let params :=
    if negb (String.eqb (OtpCode (config client)) EmptyString)
    then URL.Values_Set params "opt_code" (OtpCode (config client))
    else params in
  let loginAPI := loginAPI +:+ "&" +:+ URL.Values_Encode params in
  (* what is left to do once [sessionRequestJSON] is set (or left nil) *)
  let check (client : Client) (sessionRequestJSON : jmap) :=
    errorCode <- getErrorCode sessionRequestJSON ;;
    if (errorCode =? 0)%Z then
      data <- as_map (index sessionRequestJSON "data") ;;
      sid <- as_string (index data "sid") ;;
      data' <- as_map (index sessionRequestJSON "data") ;;
      synotoken <- as_string (index data' "synotoken") ;;
      Returned (None,
                mkClient (set_SessionExpire (config client) false) sid synotoken
                  (AppAPIList client) (FullAPIList client))
    else
      Returned (None,
                mkClient (config client) EmptyString (SynoToken client)
                  (AppAPIList client) (FullAPIList client)) in
  if negb (SessionExpire (config client))
     && negb (String.eqb (SId client) EmptyString)
  then
    check (mkClient (set_SessionExpire (config client) false) (SId client)
             (SynoToken client) (AppAPIList client) (FullAPIList client))
      []
  else
    match http_Get w (baseURL +:+ loginAPI) with
    | (_, Some err) => Returned (Some err, client)
    | (None, None) => Panic nil_dereference
    | (Some response, None) =>
        if negb (StatusCode response =? StatusOK)%Z
        then Returned (None, client)
        else
          match Decode (Body response) with
          | Err err => Returned (Some err, client)
          | Ok sessionRequestJSON => check client sessionRequestJSON
          end
    end.

(** The entries of [m] whose value is a map. *)
Definition inner_maps (m : jmap) : list (string * jmap) :=
  omap (fun kv =>
          match snd kv with
          | JObject fields => Some (fst kv, fields)
          | _ => None
          end) m.

(** [GetAPIList(app)] *)
Definition GetAPIList (app : string) (client : Client) (w : World)
  : Outcome (option error * Client) :=
  let baseURL := Endpoint (config client) +:+ "/webapi/" in
  let queryPath := "query.cgi?api=SYNO.API.Info" in
  let params :=
    params_of [("version", "1"); ("method", "query"); ("query", "all")] in
  match http_Get w (baseURL +:+ queryPath +:+ "&" +:+ URL.Values_Encode params) with
  | (_, Some err) => Returned (Some err, client)
  | (None, None) => Panic nil_dereference
  | (Some response, None) =>
      if negb (StatusCode response =? StatusOK)%Z
      then Returned (None, client)
      else
        match Decode (Body response) with
        | Err err => Returned (Some err, client)
        | Ok responseJSON =>
            data <- as_map (index responseJSON "data") ;;
            let responseJSONTwoLevel := inner_maps data in
            if negb (String.eqb app EmptyString) then
              Returned
                (None,
                 mkClient (config client) (SId client) (SynoToken client)
                   (Some (List.filter
                            (fun kv =>
                               Contains (strings_ToLower (fst kv))
                                 (strings_ToLower app))
                            responseJSONTwoLevel))
                   (FullAPIList client))
            else
              Returned
                (None,
                 mkClient (config client) (SId client) (SynoToken client)
                   (Some []) (Some responseJSONTwoLevel))
        end
  end.

(** [New(config)]: what [Login] and [GetAPIList] return is dropped. *)
Definition New (config : Config) (w : World) : Outcome Client :=
  let client := mkClient config EmptyString EmptyString None None in
  r <- Login "FileStation" client w ;;
  r' <- GetAPIList "FileStation" (snd r) w ;;
  Returned (snd r').

(** [Delete(path)] *)
Definition Delete (client : Client) (path : string) (w : World)
  : Outcome (option error) :=
  let sharedFolder := SharedFolder (config client) in
  let apiName := "SYNO.FileStation.Delete" in
  let baseURL := Endpoint (config client) +:+ "/webapi/entry.cgi" in
  let path := filepath.ToSlash path in
  let params :=
    params_of [("api", apiName); ("version", "2"); ("method", "start");
               ("path", sharedFolder +:+ path);
               ("SynoToken", SynoToken client); ("_sid", SId client)] in
  let req_url := baseURL +:+ "?" +:+ URL.Values_Encode params in
  match NewRequest req_url with
  | Some err => Returned (Some err)
  | None =>
      match http_Get w req_url with
      | (_, Some err) => Returned (Some err)
      | (None, None) => Panic nil_dereference
      | (Some resp, None) =>
          if negb (StatusCode resp =? StatusOK)%Z
          then Returned None
          else
            match Decode (Body resp) with
            | Err err => Returned (Some err)
            | Ok _ => Returned None
            end
      end
  end.

End Decoder.

(** [GetURL(path)] *)
Definition GetURL (client : Client) (path : string) : string * option error :=
  let sharedFolder := SharedFolder (config client) in
  let baseURL := Endpoint (config client) +:+ "/webapi/entry.cgi" in
  let path := filepath.ToSlash path in
  if String.eqb path EmptyString then (EmptyString, Some "path is empty")
  else
    let apiName := "SYNO.FileStation.Download" in
    let params :=
      params_of [("api", apiName); ("version", "2"); ("method", "download");
                 ("path", sharedFolder +:+ path); ("mode", "download");
                 ("SynoToken", SynoToken client); ("_sid", SId client)] in
    (baseURL +:+ "?" +:+ URL.Values_Encode params, None).

(** [GetStream(path)] *)
Definition GetStream (client : Client) (path : string) (w : World)
  : Outcome (option ReadCloser * option error) :=
  let sharedFolder := SharedFolder (config client) in
  let baseURL := Endpoint (config client) +:+ "/webapi/entry.cgi" in
  let path := filepath.ToSlash path in
  if String.eqb path EmptyString then Returned (None, Some "path is empty")
  else
    let apiName := "SYNO.FileStation.Download" in
    let params :=
      params_of [("api", apiName); ("version", "2"); ("method", "download");
                 ("path", sharedFolder +:+ path); ("mode", "download");
                 ("SynoToken", SynoToken client); ("_sid", SId client)] in
    let url := baseURL +:+ "?" +:+ URL.Values_Encode params in
    match NewRequest url with
    | Some err => Returned (None, Some err)
    | None =>
        match http_Get w url with
        | (_, Some err) => Returned (None, Some err)
        | (None, None) => Panic nil_dereference
        | (Some resp, None) =>
            if negb (StatusCode resp =? StatusOK)%Z
            then Returned
                   (None,
                    Some ("download failed, status code: "
                          +:+ pretty (StatusCode resp)))
            else Returned (Some (Body resp), None)
        end
    end.

(** [Get(path)] *)
Definition Get (client : Client) (path : string) (w : World)
  : Outcome (option File * option error * World) :=
  r <- GetStream client path w ;;
  match r with
  | (_, Some err) => Returned (None, Some err, w)
  | (None, None) => Panic nil_dereference
  | (Some readCloser, None) =>
      match TempFile "/tmp" "synology" w with
      | (Some file, None, w1) =>
          let '(_, err, file1, w2) := Copy file readCloser w1 in
          Returned (Some (Seek0 file1), err, w2)
      | (file, err, w1) => Returned (file, err, w1)
      end
  end.

(** The request [Put] sends: the URL, the cookie, and the form of the body
    with its fields [path], [overwrite] and [create_parents] and the file. *)
Record Upload : Type := mkUpload {
  upload_url : string;
  upload_cookie : string;
  upload_fields : list (string * string);
  upload_filename : string;
  upload_content : string
}.

Section Uploader.

(** [http.DefaultClient.Do(req)] for such a request. *)
Variable Do : Upload -> option Response * option error.

(** [Put(urlPath, reader)]: the reader is not taken back to its start.
    [url.Parse] returns a nil [*URL] with its error, and the error is only
    printed. *)
Definition Put (client : Client) (urlPath : string) (reader : io.Reader)
    (w : World) : Outcome (option (Object Client) * option error * io.Reader) :=
  let sharedFolder := SharedFolder (config client) in
  let apiName := "SYNO.FileStation.Upload" in
  let baseURL := Endpoint (config client) +:+ "/webapi/" in
  let loginAPI := "entry.cgi" in
  let params :=
    params_of [("api", apiName); ("version", "2"); ("method", "upload");
               ("SynoToken", SynoToken client)] in
  match URL.Parse urlPath with
  | None => Panic nil_dereference
  | Some parserURL =>
      let path := URL.Path parserURL in
      let dir := filepath.ToSlash (filepath.Dir path) in
      let fields :=
        [("path", sharedFolder +:+ dir); ("overwrite", "true");
         ("create_parents", "true")] in
      let filename := filepath.Base urlPath in
      match io.fails reader with
      | Some err => Returned (None, Some err, io.drained reader)
      | None =>
          let url := baseURL +:+ loginAPI +:+ "?" +:+ URL.Values_Encode params in
          match NewRequest url with
          | Some err => Returned (None, Some err, io.drained reader)
          | None =>
              match Do (mkUpload url ("stay_login=1; id=" +:+ SId client)
                          fields filename (data (io.remaining reader))) with
              | (_, Some err) => Returned (None, Some err, io.drained reader)
              | (None, None) => Panic nil_dereference
              | (Some resp, None) =>
                  if negb (StatusCode resp =? StatusOK)%Z
                  then Returned
                         (None,
                          Some ("upload failed, status code: "
                                +:+ pretty (StatusCode resp)),
                          io.drained reader)
                  else Returned
                         (Some (mkObject urlPath (filepath.Base urlPath)
                                  (Some (now w)) 0%Z client),
                          None, io.drained reader)
              end
          end
      end
  end.

End Uploader.

Definition GetEndpoint (client : Client) : string := Endpoint (config client).

End Synology.

(** ** Test doubles: vendor services, clients and a world to run against *)

Module Samples.

Import GoStrings oss.

(** A host with nothing but [/tmp] on its disk and no network. *)
Definition offline : World :=
  mkWorld 1700000000%Z (fun _ => (None, Some "dial tcp: network is unreachable"))
    {[ "/tmp" := Directory ]} (Some "/") "/tmp" 7.

(** An HTTP transport that answers every request with 404. *)
Definition answers404 : World :=
  mkWorld 1700000000%Z
    (fun _ => (Some (mkResponse 404 (mkReadCloser "Document not found" None)), None))
    {[ "/tmp" := Directory ]} (Some "/") "/tmp" 7.

(** An aliyun bucket that holds the one object [k.bin], whose download
    breaks after two bytes, and signs with a fixed signature. *)
Definition flakyBucket : Aliyun.Bucket :=
  Aliyun.mkBucket
    (fun key => if String.eqb key "k.bin"
                then Ok (mkReadCloser "ab" (Some "unexpected EOF"))
                else Err "NoSuchKey")
    (fun _ => None)
    (fun _ => Ok (Aliyun.mkListObjectsResult [] false EmptyString))
    (fun key _ expires =>
       Ok ("https://bucket.oss-cn-hangzhou.aliyuncs.com/" +:+ key
           +:+ "?Expires=" +:+ pretty expires +:+ "&Signature=c2ln"))
    "oss-cn-hangzhou.aliyuncs.com".

Definition aliyunConfig (acl : Aliyun.ACLType) : Aliyun.Config :=
  Aliyun.mkConfig "id" "secret" EmptyString "bucket"
    "oss-cn-hangzhou.aliyuncs.com" acl false.

Definition aliyunPublic : Aliyun.Client :=
  Aliyun.mkClient flakyBucket (aliyunConfig Aliyun.ACLPublicRead).


(** A qiniu service over the entries [store] (in the order it keeps them) that serves a
    listing in pages: the entries behind [marker] (the key returned last;
    empty: from the start) that carry the prefix, [limit] of them at most,
    and whether more are left. *)
Fixpoint behind (marker : string) (store : list Qiniu.ListItem)
  : list Qiniu.ListItem :=
  match store with
  | [] => []
  | it :: rest =>
      if String.eqb (Qiniu.Key it) marker then rest else behind marker rest
  end.

Definition pagedListFiles (store : list Qiniu.ListItem)
    (bucket prefix delimiter marker : string) (limit : nat)
  : list Qiniu.ListItem * list string * string * bool * option error :=
  let rest := if String.eqb marker EmptyString then store else behind marker store in
  let matching := List.filter (fun it => HasPrefix (Qiniu.Key it) prefix) rest in
  let page := firstn limit matching in
  (page, [], Qiniu.Key (List.last page (Qiniu.mkListItem EmptyString 0)),
   (limit <? List.length matching)%nat, None).

Definition pagedSDK (store : list Qiniu.ListItem) : Qiniu.SDK :=
  Qiniu.mkSDK (pagedListFiles store)
    (fun _ key => if existsb (fun it => String.eqb (Qiniu.Key it) key) store
                  then None else Some "no such file or directory")
    (fun domain key deadline =>
       domain +:+ "/" +:+ key +:+ "?e=" +:+ pretty deadline +:+ "&token=id:c2ln")
    (fun domain key => domain +:+ "/" +:+ key).

Definition qiniuConfig (private : bool) : Qiniu.Config :=
  Qiniu.mkConfig "id" "secret" "huadong" "bucket" "http://cdn.example.com"
    false false private.

(** 101 objects [dir/0] ... [dir/100]. *)
Definition store101 : list Qiniu.ListItem :=
  map (fun n => Qiniu.mkListItem ("dir/" +:+ pretty n) 1700000000%Z) (seq 0 101).

Definition qiniuPublic : Qiniu.Client :=
  Qiniu.mkClient (qiniuConfig false) (pagedSDK store101).


Definition tencentClient : Tencent.Client :=
  Tencent.mkClient
    (Tencent.mkConfig "1250000000" "id" "secret" "ap-beijing" "bucket"
       EmptyString EmptyString EmptyString)
    (Tencent.mkCOS (fun _ => Err "NoSuchKey") (fun _ => None) (fun _ => Ok [])).

Definition huaweiClient : Huawei.Client :=
  Huawei.mkClient
    (Huawei.mkConfig "id" "secret" "obs.cn-north-4.myhuaweicloud.com"
       "cn-north-4" "bucket" EmptyString)
    (Huawei.mkObsClient (fun _ _ => Err "NoSuchKey") (fun _ _ => None)
       (fun _ _ => Ok [])
       (fun _ bucket key expires =>
          Ok ("https://" +:+ bucket +:+ ".obs.cn-north-4.myhuaweicloud.com/"
              +:+ key +:+ "?Expires=" +:+ pretty expires +:+ "&Signature=c2ln"))).

Definition azureClient : Azureblob.Client :=
  Azureblob.mkClient
    (Azureblob.mkConfig "account" "secret" EmptyString "container" EmptyString)
    (Azureblob.mkContainerURL (fun _ => Err "BlobNotFound") (fun _ => None)).

(** Clients pointed at a mirror by the operator, and an aliyun client with
    no endpoint configured (its SDK reports the endpoint with the scheme). *)
Definition tencentMirror : Tencent.Client :=
  Tencent.mkClient
    (Tencent.mkConfig "1250000000" "id" "secret" "ap-beijing" "bucket"
       EmptyString EmptyString "cos.mirror.example.com")
    (Tencent.cos tencentClient).

Definition azureMirror : Azureblob.Client :=
  Azureblob.mkClient
    (Azureblob.mkConfig "account" "secret" EmptyString "container"
       "blob.mirror.example.com")
    (Azureblob.containerURL azureClient).

Definition aliyunMirror : Aliyun.Client :=
  Aliyun.mkClient flakyBucket
    (Aliyun.mkConfig "id" "secret" EmptyString "bucket" "cdn.example.com"
       Aliyun.ACLPublicRead false).

Definition aliyunNoEndpoint : Aliyun.Client :=
  Aliyun.mkClient
    (Aliyun.mkBucket (Aliyun.GetObject flakyBucket)
       (Aliyun.DeleteObject flakyBucket) (Aliyun.ListObjects flakyBucket)
       (Aliyun.SignURL flakyBucket) "https://oss-cn-hangzhou.aliyuncs.com")
    (Aliyun.mkConfig "id" "secret" EmptyString "bucket" EmptyString
       Aliyun.ACLPublicRead false).

Definition tmpFileSystem : Filesystem.FileSystem := Filesystem.mkFileSystem "/tmp".

(** [/tmp/a.txt] exists. *)
Definition oneFile : World :=
  set_fs offline (<[ "/tmp/a.txt" := RegularFile "hello" ]> (fs offline)).

(** An open file holding [hello], two bytes of it read: it can seek. *)
Definition helloReader : io.Reader := io.mkReader "hello" 2 true None None.

(** The same bytes from a pipe, which cannot seek. *)
Definition pipeReader : io.Reader := io.mkReader "hello" 2 false None None.

(** The disk after [reader] was put twice under the key [a.txt]. *)
Definition putTwice (reader : io.Reader) : World :=
  let '(_, _, r1, w1) := Filesystem.Put tmpFileSystem "a.txt" reader offline in
  snd (Filesystem.Put tmpFileSystem "a.txt" r1 w1).

(** [/tmp/docs] holds [a.txt], and the directory [old] with [b.txt] in it. *)
Definition docs : World :=
  set_fs offline
    (<[ "/tmp/docs" := Directory ]>
       (<[ "/tmp/docs/a.txt" := RegularFile "hello" ]>
          (<[ "/tmp/docs/old" := Directory ]>
             (<[ "/tmp/docs/old/b.txt" := RegularFile "bye" ]> (fs offline))))).

(** An aliyun bucket whose listing holds two objects. *)
Definition aliyunStocked : Aliyun.Client :=
  Aliyun.mkClient
    (Aliyun.mkBucket (Aliyun.GetObject flakyBucket)
       (Aliyun.DeleteObject flakyBucket)
       (fun prefix =>
          Ok (Aliyun.mkListObjectsResult
                [Aliyun.mkObjectProperties "docs/a.txt" 1600000000%Z 5%Z;
                 Aliyun.mkObjectProperties "docs/www.example.com/b.txt" 1600000000%Z 3%Z]
                false EmptyString))
       (Aliyun.SignURL flakyBucket) "oss-cn-hangzhou.aliyuncs.com")
    (aliyunConfig Aliyun.ACLPublicRead).

Definition tencentStocked : Tencent.Client :=
  Tencent.mkClient (Tencent.config tencentClient)
    (Tencent.mkCOS (fun _ => Err "NoSuchKey") (fun _ => None)
       (fun _ => Ok [Tencent.mkCosObject "docs/a.txt" 5%Z])).

Definition huaweiStocked : Huawei.Client :=
  Huawei.mkClient (Huawei.config huaweiClient)
    (Huawei.mkObsClient (fun _ _ => Err "NoSuchKey") (fun _ _ => None)
       (fun _ _ => Ok [Huawei.mkContent "docs/a.txt" 1600000000%Z 5%Z])
       (Huawei.CreateSignedUrl (Huawei.OBS huaweiClient))).
(** An aliyun SDK that connects to any endpoint and knows the one bucket
    [bucket]. *)
Definition aliyunConnector : Aliyun.Connector :=
  fun endpoint _ _ _ =>
    Ok (fun name =>
          if String.eqb name "bucket"
          then Ok (Aliyun.mkBucket (Aliyun.GetObject flakyBucket)
                     (Aliyun.DeleteObject flakyBucket)
                     (Aliyun.ListObjects flakyBucket)
                     (Aliyun.SignURL flakyBucket) ("http://" +:+ endpoint))
          else Err "NoSuchBucket").

(** A configuration that leaves the endpoint and the ACL to the defaults. *)
Definition aliyunBare : Aliyun.Config :=
  Aliyun.mkConfig "id" "secret" EmptyString "bucket" EmptyString EmptyString
    false.

(** A client of the NAS at [nas.local] with a session. *)
Definition nasConfig : Synology.Config :=
  Synology.mkConfig "http://nas.local:5000" "admin" "secret" false false false
    EmptyString "/home".

Definition nasClient : Synology.Client :=
  Synology.mkClient nasConfig "S 1" "T&1=" None None.

(** The same client before any login. *)
Definition nasFresh : Synology.Client :=
  Synology.mkClient nasConfig EmptyString EmptyString None None.

(** A decoder that knows the two documents the sample NAS sends. *)
Definition nasDecode (body : ReadCloser) : result Synology.jmap :=
  if String.eqb (data body) "denied"
  then Ok [("success", Synology.JBool false);
           ("error", Synology.JObject
                       [("code", Synology.JNumber (Synology.mkFloat64 400))])]
  else if String.eqb (data body) "deleted"
  then Ok [("success", Synology.JBool true)]
  else Err "invalid character".

(** A NAS that answers every request with the status [code] and [body]. *)
Definition nas (code : Z) (body : string) : World :=
  mkWorld 1700000000%Z
    (fun _ => (Some (mkResponse code (mkReadCloser body None)), None))
    {[ "/tmp" := Directory ]} (Some "/") "/tmp" 7.
(** A reader that breaks after [hel]. *)
Definition brokenReader : io.Reader :=
  io.mkReader "hel" 0 false None (Some "unexpected EOF").

(** A disk file whose [Seek] fails. *)
Definition stuckReader : io.Reader :=
  io.mkReader "hello" 2 true (Some "seek: illegal seek") None.

(** An upload that always succeeds, and content-type tables that know
    nothing. *)
Definition uploadOk (name type data : string) : option error := None.
Definition noType (s : string) : string := EmptyString.

(** A qiniu service that stores every key it is given. *)
Definition formPutOk (upToken key data : string) : result string := Ok key.
Definition tokenOf (scope : string) : string := "id:c2ln:" +:+ scope.
(** A host whose working directory is [/srv/app], and one whose working
    directory cannot be read. *)
Definition appHost : World :=
  mkWorld 1700000000%Z (http_Get offline) (fs offline) (Some "/srv/app") "/tmp" 7.

Definition lostHost : World :=
  mkWorld 1700000000%Z (http_Get offline) (fs offline) None "/tmp" 7.

(** A NAS that takes every upload. *)
Definition takesAll (u : Synology.Upload) : option Response * option error :=
  (Some (mkResponse 200 (mkReadCloser "ok" None)), None).

(** The modification time of every file of the samples. *)
Definition mtime (name : string) : Time := 1600000000%Z.

End Samples.

(** ** The shapes of inputs the properties speak of *)

Module Shapes.

Import GoStrings Regexp.


Fixpoint all_bytes (P : ascii -> bool) (s : string) : bool :=
  match s with
  | EmptyString => true
  | String c t => P c && all_bytes P t
  end.

Definition differs (x : ascii) (c : ascii) : bool := negb (Ascii.eqb c x).










(** What a [Get] that goes through a temporary file [dir/prefix*] does,
    given the outcome [stream] of acquiring the object's stream: when the
    stream cannot be had, or the temporary file cannot be created, the
    error is returned and the world is as before; otherwise a new file
    holds what the stream delivered and is returned, together with the
    error that ended the stream, if any. *)
Definition get_through_temp (stream : oss.result oss.ReadCloser)
    (dir prefix : string)
    (get : oss.World -> option oss.File * option oss.error * oss.World) : Prop :=
  forall w : oss.World,
    match stream with
    | oss.Err e => get w = (None, Some e, w)
    | oss.Ok rc =>
        match oss.TempFile dir prefix w with
        | (Some f, None, _) =>
            exists w2,
              get w = (Some f, oss.read_err rc, w2)
              /\ oss.fs w !! oss.file_name f = None
              /\ oss.fs w2 !! oss.file_name f
                 = Some (oss.RegularFile (oss.data rc))
        | (_, err, _) => get w = (None, err, w)
        end
    end.

(** An element of a path: not empty, not [.] or [..], and without a slash. *)
Definition elem (e : string) : bool :=
  negb (String.eqb e EmptyString) && negb (String.eqb e ".")
  && negb (String.eqb e "..") && all_bytes (differs "/"%char) e.

(** [/e1/e2/.../en], for [rooted [e1; e2; ...; en]]. *)
Definition rooted (elems : list string) : string :=
  filepath.join_slash (EmptyString :: elems).

Definition slashfree (e : string) : Prop := all_bytes (differs "/"%char) e = true.

Definition nonempty (e : string) : bool := negb (String.eqb e EmptyString).

(** What lies between two slashes of a key: an element, or nothing (the
    slash was doubled, leading or trailing). *)
Definition part (e : string) : bool := String.eqb e EmptyString || elem e.

(** The bytes of an escaped query component. *)
Definition query_byte (c : ascii) : bool :=
  URL.is_alpha c || URL.is_digit c || URL.mem_byte c "-_.~%+".

(** The query of a download: the seven parameters, their names sorted. *)
Definition download_query (client : Synology.Client) (path : string) : string :=
  "SynoToken=" +:+ URL.QueryEscape (Synology.SynoToken client)
  +:+ "&_sid=" +:+ URL.QueryEscape (Synology.SId client)
  +:+ "&api=SYNO.FileStation.Download&method=download&mode=download&path="
  +:+ URL.QueryEscape (Synology.SharedFolder (Synology.config client) +:+ path)
  +:+ "&version=2".

(** A byte [url.Parse] takes as it is in a path: no control byte and none
    of [%], [?] and [#]. *)
Definition path_byte (c : ascii) : bool :=
  negb ((URL.code c <? 32)%N || (URL.code c =? 127)%N)
  && differs "%"%char c && differs "?"%char c
  && differs "#"%char c.

(** An element of such bytes. *)
Definition plain_elem (e : string) : bool :=
  elem e && all_bytes path_byte e.
(** The query of an upload: the four parameters, their names sorted. *)
Definition upload_query (client : Synology.Client) : string :=
  "SynoToken=" +:+ URL.QueryEscape (Synology.SynoToken client)
  +:+ "&api=SYNO.FileStation.Upload&method=upload&version=2".

End Shapes.

(** * Properties *)

(** ** The matcher decides the language of a pattern *)

Module RegexpFacts.

Import Utf8 Regexp.
Local Open Scope list_scope.

Lemma Matches_Cat_inv r1 r2 s :
  Matches (Cat r1 r2) s ->
  exists s1 s2, s = s1 ++ s2 /\ Matches r1 s1 /\ Matches r2 s2.
Proof. inversion 1; subst; eauto. Qed.

Lemma Matches_Alt_inv r1 r2 s :
  Matches (Alt r1 r2) s -> Matches r1 s \/ Matches r2 s.
Proof. inversion 1; subst; auto. Qed.

Lemma Matches_Star_cons r c s :
  Matches (Star r) (c :: s) ->
  exists s1 s2, s = s1 ++ s2 /\ Matches r (c :: s1) /\ Matches (Star r) s2.
Proof.
  intros H. remember (Star r) as r' eqn:Er. remember (c :: s) as t eqn:Et.
  revert s Et. induction H; intros s' Et; try discriminate.
  inversion Er; subst r0. destruct s1 as [|c1 s1]; simpl in Et.
  - apply IHMatches2; auto.
  - inversion Et; subst. eauto.
Qed.

Lemma nullable_Matches r : nullable r = true -> Matches r [].
Proof.
  induction r; simpl; intros H; try discriminate.
  - constructor.
  - apply andb_prop in H as [H1 H2].
    change (@nil rune) with (@nil rune ++ []). constructor; auto.
  - apply orb_prop in H as [H|H]; [apply MAltL|apply MAltR]; auto.
  - constructor.
Qed.

Lemma Matches_nullable r : Matches r [] -> nullable r = true.
Proof.
  induction r; simpl; intros H; auto.
  - inversion H.
  - inversion H.
  - apply Matches_Cat_inv in H as (s1 & s2 & E & H1 & H2).
    symmetry in E. apply app_eq_nil in E as [-> ->].
    rewrite IHr1, IHr2; auto.
  - apply Matches_Alt_inv in H as [H|H]; [rewrite IHr1|rewrite IHr2]; auto.
    apply orb_true_r.
Qed.

Lemma cat'_Matches r1 r2 s : Matches (cat' r1 r2) s <-> Matches (Cat r1 r2) s.
Proof.
  split.
  - destruct r1, r2; simpl; intros H; try assumption; try (now inversion H);
      change s with ([] ++ s); constructor; auto; constructor.
  - intros H. apply Matches_Cat_inv in H as (s1 & s2 & -> & H1 & H2).
    destruct r1, r2; simpl; try (now inversion H1); try (now inversion H2);
      try (constructor; assumption);
      inversion H1; subst; simpl; assumption.
Qed.

Lemma alt'_Matches r1 r2 s : Matches (alt' r1 r2) s <-> Matches (Alt r1 r2) s.
Proof.
  split.
  - destruct r1, r2; simpl; intros H; try assumption;
      solve [ apply MAltL; assumption | apply MAltR; assumption ].
  - intros H. apply Matches_Alt_inv in H as [H|H];
      destruct r1, r2; simpl; try (now inversion H); try assumption;
      solve [ apply MAltL; assumption | apply MAltR; assumption ].
Qed.

Lemma der_sound c r : forall s, Matches (der c r) s -> Matches r (c :: s).
Proof.
  induction r; simpl; intros s H.
  - inversion H.
  - inversion H.
  - destruct (cls_mem p c) eqn:E; inversion H; subst. constructor; auto.
  - destruct (nullable r1) eqn:N.
    + apply alt'_Matches in H. apply Matches_Alt_inv in H as [H|H].
      * apply cat'_Matches in H.
        apply Matches_Cat_inv in H as (s1 & s2 & -> & H1 & H2).
        change (c :: s1 ++ s2) with ((c :: s1) ++ s2). constructor; auto.
      * change (c :: s) with ([] ++ c :: s).
        constructor; auto using nullable_Matches.
    + apply cat'_Matches in H.
      apply Matches_Cat_inv in H as (s1 & s2 & -> & H1 & H2).
      change (c :: s1 ++ s2) with ((c :: s1) ++ s2). constructor; auto.
  - apply alt'_Matches in H. apply Matches_Alt_inv in H as [H|H];
      [apply MAltL|apply MAltR]; auto.
  - apply cat'_Matches in H.
    apply Matches_Cat_inv in H as (s1 & s2 & -> & H1 & H2).
    change (c :: s1 ++ s2) with ((c :: s1) ++ s2). constructor; auto.
Qed.

Lemma der_complete c r : forall s, Matches r (c :: s) -> Matches (der c r) s.
Proof.
  induction r; simpl; intros s H.
  - inversion H.
  - inversion H.
  - inversion H as [|p' r' Hm| | | | |]; subst. rewrite Hm. constructor.
  - apply Matches_Cat_inv in H as (s1 & s2 & E & H1 & H2).
    destruct s1 as [|c1 s1]; simpl in E.
    + subst s2. rewrite (Matches_nullable _ H1).
      apply alt'_Matches, MAltR; auto.
    + inversion E; subst.
      assert (Matches (cat' (der c1 r1) r2) (s1 ++ s2)) as Hc
        by (apply cat'_Matches; constructor; auto).
      destruct (nullable r1); auto. apply alt'_Matches, MAltL; auto.
  - apply alt'_Matches.
    apply Matches_Alt_inv in H as [H|H]; [apply MAltL|apply MAltR]; auto.
  - apply Matches_Star_cons in H as (s1 & s2 & -> & H1 & H2).
    apply cat'_Matches. constructor; auto.
Qed.

Lemma accepts_Matches r s : accepts r s = true <-> Matches r s.
Proof.
  revert r. induction s as [|c s IH]; intros r; simpl.
  - split; [apply nullable_Matches | apply Matches_nullable].
  - rewrite IH. split; [apply der_sound | apply der_complete].
Qed.

Lemma Star_AnyRune l : Matches (Star (Class AnyRune)) l.
Proof.
  induction l as [|c l IH]; [constructor|].
  change (c :: l) with ([c] ++ l). constructor; auto. constructor. reflexivity.
Qed.

(** An unanchored search succeeds exactly when some stretch of the runes is
    in the language of the pattern. *)
Lemma MatchString_spec r s :
  MatchString r s = true <->
  exists pre mid post, runes s = pre ++ mid ++ post /\ Matches r mid.
Proof.
  unfold MatchString. rewrite accepts_Matches. split.
  - intros H. apply Matches_Cat_inv in H as (pre & t & E & _ & H).
    apply Matches_Cat_inv in H as (mid & post & -> & H & _). eauto.
  - intros (pre & mid & post & -> & H).
    repeat constructor; auto using Star_AnyRune.
Qed.


End RegexpFacts.

(** ** The path normalizer *)

Module Normalizer.

Import GoStrings Regexp oss Shapes.













End Normalizer.

(** ** Strings without a given byte *)

Module GoStringsFacts.

Import GoStrings Shapes.

Lemma all_bytes_app P a b :
  all_bytes P (a +:+ b) = all_bytes P a && all_bytes P b.
Proof.
  induction a as [|c a IH]; simpl; [reflexivity|].
  rewrite IH, andb_assoc. reflexivity.
Qed.

Lemma all_bytes_impl (P Q : ascii -> bool) s :
  (forall c, P c = true -> Q c = true) ->
  all_bytes P s = true -> all_bytes Q s = true.
Proof.
  intros HPQ. induction s as [|c s IH]; simpl; [auto|].
  intros H. apply andb_prop in H as [H1 H2]. rewrite HPQ, IH; auto.
Qed.

Lemma HasPrefix_byte c t x :
  HasPrefix (String c t) (String x EmptyString) = Ascii.eqb c x.
Proof. simpl. apply andb_true_r. Qed.

Lemma Index_absent x s :
  all_bytes (differs x) s = true -> Index s (String x EmptyString) = None.
Proof.
  induction s as [|c s IH]; [reflexivity|].
  intros H. apply andb_prop in H as [H1 H2].
  unfold Index; fold Index. rewrite HasPrefix_byte.
  apply negb_true_iff in H1. rewrite H1, IH; auto.
Qed.


Lemma LastIndex_absent x s :
  all_bytes (differs x) s = true -> LastIndex s (String x EmptyString) = None.
Proof.
  induction s as [|c s IH]; [reflexivity|].
  intros H. apply andb_prop in H as [H1 H2]. apply negb_true_iff in H1.
  unfold LastIndex; fold LastIndex. rewrite IH, HasPrefix_byte, H1; auto.
Qed.

Lemma Count_absent x s :
  all_bytes (differs x) s = true -> Count s (String x EmptyString) = O.
Proof.
  unfold Count. induction s as [|c s IH]; [reflexivity|].
  intros H. apply andb_prop in H as [H1 H2]. apply negb_true_iff in H1.
  unfold count_from; fold count_from. rewrite HasPrefix_byte, H1. auto.
Qed.

Lemma Cut_absent x s :
  all_bytes (differs x) s = true ->
  Cut s (String x EmptyString) = (s, EmptyString, false).
Proof. intros H. unfold Cut. rewrite Index_absent; auto. Qed.




End GoStringsFacts.

(** ** The three input shapes of a key *)

Module ThreeShapes.

Import GoStrings Regexp oss Shapes GoStringsFacts.
Local Open Scope list_scope.




Lemma CTL_absent s :
  all_bytes (fun c => negb ((URL.code c <? 32)%N || (URL.code c =? 127)%N)) s
  = true ->
  URL.stringContainsCTLByte s = false.
Proof.
  induction s as [|c s IH]; [reflexivity|]. simpl.
  intros H. apply andb_prop in H as [H1 H2]. apply negb_true_iff in H1.
  rewrite H1. simpl. auto.
Qed.

















End ThreeShapes.

(** ** The URL policy and the endpoint resolver *)

Module Policy.

Import GoStrings oss.

(** C3 (as stated, refuted): the public aliyun backend returns the path as
    it was given, leading slash included, not the normalized key. *)
Lemma C3_public_url_keeps_the_slash :
  Aliyun.GetURL Samples.aliyunPublic "/a.txt"
  <> Ok (Aliyun.ToRelativePath Samples.aliyunPublic "/a.txt").
Proof. vm_compute. discriminate. Qed.

(** C3 (amended): with any ACL but [private] the aliyun backend returns
    the path exactly as given, and so do the azureblob and filesystem
    backends; that value is the normalized path exactly when the path is
    already normalized.  The tencent backend always returns
    [https://<bucket>-<appid>.cos.<region>.myqcloud.com/] followed by the
    normalized path. *)
Theorem C3_public_url_is_the_path_as_given
    (ali : Aliyun.Client) (az : Azureblob.Client)
    (fsys : Filesystem.FileSystem) (ten : Tencent.Client) (p : string) :
  Aliyun.ACL (Aliyun.config ali) <> Aliyun.ACLPrivate ->
  Aliyun.GetURL ali p = Ok p
  /\ (Aliyun.GetURL ali p = Ok (Aliyun.ToRelativePath ali p)
      <-> Aliyun.ToRelativePath ali p = p)
  /\ Azureblob.GetURL az p = Ok p
  /\ Filesystem.GetURL fsys p = Ok p
  /\ Tencent.GetURL ten p
     = Ok ("https://" +:+ Tencent.Bucket (Tencent.config ten) +:+ "-"
           +:+ Tencent.AppID (Tencent.config ten) +:+ ".cos."
           +:+ Tencent.Region (Tencent.config ten) +:+ ".myqcloud.com/"
           +:+ Tencent.ToRelativePath ten p).
Proof.
  intros Hacl.
  assert (Aliyun.GetURL ali p = Ok p) as E.
  { unfold Aliyun.GetURL.
    destruct (String.eqb_spec (Aliyun.ACL (Aliyun.config ali)) Aliyun.ACLPrivate);
      [contradiction|reflexivity]. }
  repeat split; try assumption; try reflexivity.
  - rewrite E. intros H. inversion H. congruence.
  - rewrite E. intros ->. reflexivity.
Qed.

(** The sample public client. *)
Lemma C3_witness_public_read :
  Aliyun.GetURL Samples.aliyunPublic "a.txt" = Ok "a.txt"
  /\ (Aliyun.GetURL Samples.aliyunPublic "a.txt"
      = Ok (Aliyun.ToRelativePath Samples.aliyunPublic "a.txt")
      <-> Aliyun.ToRelativePath Samples.aliyunPublic "a.txt" = "a.txt")
  /\ Azureblob.GetURL Samples.azureClient "a.txt" = Ok "a.txt"
  /\ Filesystem.GetURL Samples.tmpFileSystem "a.txt" = Ok "a.txt"
  /\ Tencent.GetURL Samples.tencentClient "a.txt"
     = Ok ("https://" +:+ Tencent.Bucket (Tencent.config Samples.tencentClient)
           +:+ "-" +:+ Tencent.AppID (Tencent.config Samples.tencentClient)
           +:+ ".cos." +:+ Tencent.Region (Tencent.config Samples.tencentClient)
           +:+ ".myqcloud.com/"
           +:+ Tencent.ToRelativePath Samples.tencentClient "a.txt").
Proof.
  apply (C3_public_url_is_the_path_as_given Samples.aliyunPublic
           Samples.azureClient Samples.tmpFileSystem Samples.tencentClient
           "a.txt").
  vm_compute. discriminate.
Defined.




(** C5 (as stated, refuted): with the endpoint [oss-cn-hangzhou.aliyuncs.com]
    configured, the aliyun backend does not return it: it returns the
    endpoint with the bucket name put in front. *)
Lemma C5_aliyun_prefixes_the_bucket :
  Aliyun.Endpoint (Aliyun.config Samples.aliyunPublic) <> ""
  /\ Aliyun.GetEndpoint Samples.aliyunPublic
     <> Aliyun.Endpoint (Aliyun.config Samples.aliyunPublic).
Proof. vm_compute. split; discriminate. Qed.

(** C5 (amended): tencent and azureblob return the configured endpoint
    whenever one is set, and otherwise their default
    ([<bucket>-<appid>.cos.<region>.myqcloud.com], and
    [https://<account>.blob.core.windows.net]); aliyun returns the
    configured endpoint when it is set and does not end in [aliyuncs.com],
    [<bucket>.<endpoint>] when it is set and does, and otherwise
    [<bucket>.] followed by the SDK's endpoint without its scheme. *)
Theorem C5_endpoint_resolution
    (ten : Tencent.Client) (az : Azureblob.Client) (ali : Aliyun.Client) :
  (Tencent.Endpoint (Tencent.config ten) <> "" ->
   Tencent.GetEndpoint ten = Tencent.Endpoint (Tencent.config ten))
  /\ (Tencent.Endpoint (Tencent.config ten) = "" ->
      Tencent.GetEndpoint ten
      = Tencent.Bucket (Tencent.config ten) +:+ "-"
        +:+ Tencent.AppID (Tencent.config ten) +:+ ".cos."
        +:+ Tencent.Region (Tencent.config ten) +:+ ".myqcloud.com")
  /\ (Azureblob.Endpoint (Azureblob.config az) <> "" ->
      Azureblob.GetEndpoint az = Azureblob.Endpoint (Azureblob.config az))
  /\ (Azureblob.Endpoint (Azureblob.config az) = "" ->
      Azureblob.GetEndpoint az
      = "https://" +:+ Azureblob.AccessId (Azureblob.config az)
        +:+ ".blob.core.windows.net")
  /\ (Aliyun.Endpoint (Aliyun.config ali) <> "" ->
      HasSuffix (Aliyun.Endpoint (Aliyun.config ali)) "aliyuncs.com" = false ->
      Aliyun.GetEndpoint ali = Aliyun.Endpoint (Aliyun.config ali))
  /\ (Aliyun.Endpoint (Aliyun.config ali) <> "" ->
      HasSuffix (Aliyun.Endpoint (Aliyun.config ali)) "aliyuncs.com" = true ->
      Aliyun.GetEndpoint ali
      = Aliyun.ConfigBucket (Aliyun.config ali) +:+ "."
        +:+ Aliyun.Endpoint (Aliyun.config ali))
  /\ (Aliyun.Endpoint (Aliyun.config ali) = "" ->
      Aliyun.GetEndpoint ali
      = Aliyun.ConfigBucket (Aliyun.config ali) +:+ "."
        +:+ TrimPrefix
              (TrimPrefix (Aliyun.Client_Config_Endpoint (Aliyun.bucket ali))
                 "https://") "http://").
Proof.
  unfold Tencent.GetEndpoint, Azureblob.GetEndpoint, Aliyun.GetEndpoint.
  repeat split.
  - intros H. destruct (String.eqb_spec (Tencent.Endpoint (Tencent.config ten)) "");
      [contradiction|reflexivity].
  - intros ->. reflexivity.
  - intros H. destruct (String.eqb_spec (Azureblob.Endpoint (Azureblob.config az)) "");
      [contradiction|reflexivity].
  - intros ->. reflexivity.
  - intros H Hs. rewrite Hs.
    destruct (String.eqb_spec (Aliyun.Endpoint (Aliyun.config ali)) "");
      [contradiction|reflexivity].
  - intros H Hs. rewrite Hs.
    destruct (String.eqb_spec (Aliyun.Endpoint (Aliyun.config ali)) "");
      [contradiction|reflexivity].
  - intros ->. reflexivity.
Qed.

(** Every tier at a sample client. *)
Lemma C5_witness_sample_clients :
  Tencent.GetEndpoint Samples.tencentMirror = "cos.mirror.example.com"
  /\ Tencent.GetEndpoint Samples.tencentClient
     = "bucket-1250000000.cos.ap-beijing.myqcloud.com"
  /\ Azureblob.GetEndpoint Samples.azureMirror = "blob.mirror.example.com"
  /\ Azureblob.GetEndpoint Samples.azureClient
     = "https://account.blob.core.windows.net"
  /\ Aliyun.GetEndpoint Samples.aliyunMirror = "cdn.example.com"
  /\ Aliyun.GetEndpoint Samples.aliyunPublic
     = "bucket.oss-cn-hangzhou.aliyuncs.com"
  /\ Aliyun.GetEndpoint Samples.aliyunNoEndpoint
     = "bucket.oss-cn-hangzhou.aliyuncs.com".
Proof.
  destruct (C5_endpoint_resolution Samples.tencentMirror Samples.azureMirror
              Samples.aliyunMirror) as (Ht & _ & Ha & _ & Hl & _).
  destruct (C5_endpoint_resolution Samples.tencentClient Samples.azureClient
              Samples.aliyunPublic) as (_ & Ht0 & _ & Ha0 & _ & Hl0 & _).
  destruct (C5_endpoint_resolution Samples.tencentClient Samples.azureClient
              Samples.aliyunNoEndpoint) as (_ & _ & _ & _ & _ & _ & Hl1).
  refine (conj (Ht _) (conj (Ht0 _) (conj (Ha _) (conj (Ha0 _)
            (conj (Hl _ _) (conj (Hl0 _ _) (Hl1 _)))))));
    solve [discriminate | reflexivity].
Defined.

End Policy.

(** ** Listing, deleting and fetching *)

Module Operations.

Import GoStrings oss Shapes.
Local Open Scope list_scope.

(** *** List *)




(** *** Delete *)






(** *** Get *)

Lemma temp_name_fresh tries dir prefix r m name r' :
  temp_name tries dir prefix r m = Some (name, r') -> m !! name = None.
Proof.
  revert r. induction tries as [|k IH]; intros r; [discriminate|].
  cbn [temp_name].
  destruct (m !! (dir +:+ "/" +:+ prefix +:+ pretty r)) eqn:E.
  - apply IH.
  - intros H. inversion H; subst. exact E.
Qed.

(** [TempFile] either fails and changes nothing, or creates an empty file
    under a name that was free. *)
Lemma TempFile_cases dir prefix w :
  (exists e, TempFile dir prefix w = (None, Some e, w))
  \/ (exists name r,
        TempFile dir prefix w
        = (Some (mkFile name O), None,
           set_random (set_fs w (<[name := RegularFile EmptyString]> (fs w))) r)
        /\ fs w !! name = None).
Proof.
  unfold TempFile.
  destruct (fs w !! dir) as [[c|]|]; [left; eauto| |left; eauto].
  destruct (temp_name (100 * 100) dir prefix (random w) (fs w))
    as [[name r]|] eqn:E; [|left; eauto].
  right. exists name, r. split; [reflexivity|].
  eapply temp_name_fresh; exact E.
Qed.

(** The body the four SDK adapters share. *)
Lemma through_temp stream dir prefix get :
  (forall w,
      get w =
      match stream with
      | Err err => (None, Some err, w)
      | Ok readCloser =>
          match TempFile dir prefix w with
          | (Some file, None, w1) =>
              let '(_, err, file1, w2) := Copy file readCloser w1 in
              (Some (Seek0 file1), err, w2)
          | (file, err, w1) => (file, err, w1)
          end
      end) ->
  get_through_temp stream dir prefix get.
Proof.
  intros Hget w. rewrite (Hget w). destruct stream as [rc|e]; [|reflexivity].
  destruct (TempFile_cases dir prefix w) as [[e ->]|(name & r & -> & Hfree)];
    [reflexivity|].
  eexists. split; [reflexivity|]. split; [exact Hfree|].
  cbn [Copy fs set_fs set_random file_name offset take].
  apply lookup_insert_eq.
Qed.

(** C8 (as stated, refuted): the download of [k.bin] breaks after two
    bytes; [Get] returns the error, and the temporary file [/tmp/ali7],
    which did not exist before, is left on the disk with the two bytes. *)
Lemma C8_interrupted_copy_leaves_the_file :
  snd (fst (Aliyun.Get Samples.aliyunPublic "k.bin" Samples.offline))
    = Some "unexpected EOF"
  /\ fs Samples.offline !! "/tmp/ali7" = None
  /\ fs (snd (Aliyun.Get Samples.aliyunPublic "k.bin" Samples.offline))
       !! "/tmp/ali7" = Some (RegularFile "ab").
Proof. vm_compute. repeat split; reflexivity. Qed.

(** C8 (amended): in the aliyun, tencent, huawei and azureblob backends a
    [Get] that fails because the stream cannot be acquired, or because the
    temporary file cannot be created, leaves the file system as it was (no
    temporary file); a [Get] whose copy is interrupted returns the error
    together with the temporary file, which stays on the disk with the
    bytes copied so far. *)
Theorem C8_get_and_the_temporary_file
    (ali : Aliyun.Client) (ten : Tencent.Client) (hw : Huawei.Client)
    (az : Azureblob.Client) (path : string) :
  get_through_temp (Aliyun.GetStream ali path) "/tmp" "ali" (Aliyun.Get ali path)
  /\ get_through_temp (Tencent.GetStream ten path) "/tmp" "tencent"
       (Tencent.Get ten path)
  /\ get_through_temp (Huawei.GetStream hw path) "/tmp" "huaweicloud"
       (Huawei.Get hw path)
  /\ get_through_temp
       (Azureblob.GetStream az (Azureblob.ToRelativePath az path)) "/tmp" "ali"
       (Azureblob.Get az path).
Proof.
  repeat split; apply through_temp; intros w.
  - unfold Aliyun.Get. destruct (Aliyun.GetStream ali path); reflexivity.
  - unfold Tencent.Get. destruct (Tencent.GetStream ten path); reflexivity.
  - unfold Huawei.Get. destruct (Huawei.GetStream hw path); reflexivity.
  - unfold Azureblob.Get. cbv zeta.
    destruct (Azureblob.GetStream az (Azureblob.ToRelativePath az path));
      reflexivity.
Qed.

(** At the sample client: a key the bucket does not hold, and the object
    whose download breaks. *)
Lemma C8_witness_flaky_bucket :
  Aliyun.Get Samples.aliyunPublic "nope" Samples.offline
    = (None, Some "NoSuchKey", Samples.offline)
  /\ exists w2,
       Aliyun.Get Samples.aliyunPublic "k.bin" Samples.offline
       = (Some (mkFile "/tmp/ali7" O), Some "unexpected EOF", w2)
       /\ fs Samples.offline !! "/tmp/ali7" = None
       /\ fs w2 !! "/tmp/ali7" = Some (RegularFile "ab").
Proof.
  split.
  - exact (proj1 (C8_get_and_the_temporary_file Samples.aliyunPublic
                    Samples.tencentClient Samples.huaweiClient
                    Samples.azureClient "nope") Samples.offline).
  - exact (proj1 (C8_get_and_the_temporary_file Samples.aliyunPublic
                    Samples.tencentClient Samples.huaweiClient
                    Samples.azureClient "k.bin") Samples.offline).
Defined.

(** C9 (the code at the failing input): on the qiniu backend, a [Get] of a
    key whose download fails in the transport panics with a nil
    dereference in [GetStream]; and a [Get] of a key the service answers
    with 404 returns a temporary file and no error. *)
Theorem C9_qiniu_get_on_a_missing_key :
  Qiniu.GetStream Samples.qiniuPublic "missing.txt" Samples.offline
    = Panic nil_dereference
  /\ Qiniu.Get Samples.qiniuPublic "missing.txt" Samples.offline
     = Panic nil_dereference
  /\ Qiniu.GetStream Samples.qiniuPublic "missing.txt" Samples.answers404
     = Returned (Some (mkReadCloser "Document not found" None),
                 Some "file missing.txt not found")
  /\ exists w,
       Qiniu.Get Samples.qiniuPublic "missing.txt" Samples.answers404
       = Returned (Some (mkFile "/tmp/qiniu7" O), None, w)
       /\ fs w !! "/tmp/qiniu7" = Some (RegularFile "Document not found").
Proof.
  split; [vm_compute; reflexivity|].
  split; [vm_compute; reflexivity|].
  split; [vm_compute; reflexivity|].
  eexists. split; [vm_compute; reflexivity|]. vm_compute. reflexivity.
Qed.

(** C10: the azureblob backend's [List] panics with [implement me] for
    every client and every path; it returns neither objects nor an error. *)
Theorem C10_azureblob_list_panics (client : Azureblob.Client) (path : string) :
  Azureblob.List client path = Panic "implement me".
Proof. reflexivity. Qed.

End Operations.

(** ** The filesystem backend: Put, Get, Delete and List together *)

Module LocalFiles.

Import GoStrings oss.
Local Open Scope list_scope.

Lemma mkdir_each_keeps names : forall m err m' name n,
  os.mkdir_each names m = (err, m') -> m !! name = Some n -> m' !! name = Some n.
Proof.
  induction names as [|p rest IH]; intros m err m' name n H Hn.
  - inversion H; subst. exact Hn.
  - cbn [os.mkdir_each] in H. destruct (m !! p) as [[c|]|] eqn:Ep.
    + inversion H; subst. exact Hn.
    + eapply IH; eauto.
    + eapply IH; [exact H|]. rewrite lookup_insert_ne; [exact Hn|].
      intros ->. congruence.
Qed.

Lemma rewind_fails r : io.fails (io.rewind r) = io.fails r.
Proof. unfold io.rewind. destruct (io.rewinds r); reflexivity. Qed.

Lemma rewind_bytes r : io.bytes (io.rewind r) = io.bytes r.
Proof. unfold io.rewind. destruct (io.rewinds r); reflexivity. Qed.

Lemma rewind_rewinds r : io.rewinds (io.rewind r) = io.rewinds r.
Proof. unfold io.rewind. destruct (io.rewinds r) eqn:E; [reflexivity|exact E]. Qed.

Lemma rewind_position r :
  io.position (io.rewind r) = if io.rewinds r then O else io.position r.
Proof. unfold io.rewind. destruct (io.rewinds r); reflexivity. Qed.

Lemma drained_rewinds r : io.rewinds (io.drained r) = io.rewinds r.
Proof. reflexivity. Qed.

(** What a [Put] that reports no error did: the directories are there, the
    reader had no error to give, and the file holds what the rewound reader
    had left. *)
Lemma Put_succeeded fsys path reader w obj r' w' :
  Filesystem.Put fsys path reader w = (obj, None, r', w') ->
  exists m1,
    os.mkdir_each (os.ancestors (filepath.Dir (Filesystem.GetFullPath fsys path w)))
      (fs w) = (None, m1)
    /\ io.fails reader = None
    /\ r' = io.drained (io.rewind reader)
    /\ w' = set_fs w
              (<[Filesystem.GetFullPath fsys path w
                 := RegularFile (data (io.remaining (io.rewind reader)))]>
                 (<[Filesystem.GetFullPath fsys path w := RegularFile ""]> m1)).
Proof.
  unfold Filesystem.Put, os.MkdirAll.
  set (full := Filesystem.GetFullPath fsys path w).
  destruct (os.mkdir_each _ (fs w)) as [[e|] m1] eqn:Em; [discriminate|].
  unfold os.Create. cbn [fs set_fs].
  destruct (m1 !! full) as [[c|]|] eqn:Ef;
    [| discriminate |];
    (destruct (os.Stat (filepath.Dir full) m1) as [[c'|]|];
       [discriminate| |discriminate]);
    unfold Copy; cbn [fs set_fs file_name offset take];
    intros H; inversion H as [[Herr Hr Hw]]; exists m1;
    rewrite <- (rewind_fails reader);
    repeat split; try reflexivity; exact Herr.
Qed.

(** Whatever [Put] returns, the working directory is the one it found. *)
Lemma Put_cwd fsys path reader w obj err r' w' :
  Filesystem.Put fsys path reader w = (obj, err, r', w') -> cwd w' = cwd w.
Proof.
  unfold Filesystem.Put, os.MkdirAll.
  destruct (os.mkdir_each _ (fs w)) as [[e|] m1];
    [intros H; inversion H; reflexivity|].
  unfold os.Create. cbn [fs set_fs].
  destruct (m1 !! _) as [[c|]|];
    [| intros H; inversion H; reflexivity |];
    (destruct (os.Stat _ m1) as [[c'|]|]);
    unfold Copy; intros H; inversion H; reflexivity.
Qed.

Lemma GetFullPath_cwd fsys path w w' :
  cwd w' = cwd w ->
  Filesystem.GetFullPath fsys path w' = Filesystem.GetFullPath fsys path w.
Proof. unfold Filesystem.GetFullPath. intros ->. reflexivity. Qed.

Lemma Put_content
    (fsys : Filesystem.FileSystem) (path : string) (reader : io.Reader)
    (w w' : World) (obj : option (Object Filesystem.FileSystem))
    (r' : io.Reader) :
  Filesystem.Put fsys path reader w = (obj, None, r', w') ->
  fs w' !! Filesystem.GetFullPath fsys path w'
  = Some (RegularFile
            (drop (if io.rewinds reader then O else io.position reader)
               (io.bytes reader))).
Proof.
  intros H. pose proof (Put_cwd _ _ _ _ _ _ _ _ H) as Hc.
  rewrite (GetFullPath_cwd fsys path w w' Hc).
  apply Put_succeeded in H as (m1 & _ & _ & _ & ->).
  cbn [fs set_fs]. rewrite lookup_insert_eq.
  unfold io.remaining. cbn [data].
  rewrite rewind_position, rewind_bytes. reflexivity.
Qed.

(** Round trip: after a [Put] that reports no error, [Get] of the same path
    opens the file, and the file holds the bytes of the reader: all of them
    when the reader can seek (it is rewound first), and those behind its
    position when it cannot. *)
Theorem Put_then_Get
    (fsys : Filesystem.FileSystem) (path : string) (reader : io.Reader)
    (w w' : World) (obj : option (Object Filesystem.FileSystem))
    (r' : io.Reader) :
  Filesystem.Put fsys path reader w = (obj, None, r', w') ->
  Filesystem.Get fsys path w'
    = (Some (mkFile (Filesystem.GetFullPath fsys path w') O), None)
  /\ fs w' !! Filesystem.GetFullPath fsys path w'
     = Some (RegularFile
               (drop (if io.rewinds reader then O else io.position reader)
                  (io.bytes reader))).
Proof.
  intros H. pose proof (Put_content _ _ _ _ _ _ _ H) as E.
  split; [|exact E]. unfold Filesystem.Get, Open. rewrite E. reflexivity.
Qed.

(** The seekable sample reader put under [a.txt]: all five bytes arrive,
    though two had been read. *)
Lemma Put_then_Get_witness :
  Filesystem.Get Samples.tmpFileSystem "a.txt" Samples.oneFile
    = (Some (mkFile "/tmp/a.txt" O), None)
  /\ fs Samples.oneFile !! "/tmp/a.txt" = Some (RegularFile "hello").
Proof.
  eapply (Put_then_Get Samples.tmpFileSystem "a.txt" Samples.helloReader
            Samples.offline Samples.oneFile).
  vm_compute. reflexivity.
Defined.

Lemma drop_all n : forall s, String.length s <= n -> drop n s = "".
Proof.
  induction n as [|n IH]; intros [|c s] H; simpl in *; try reflexivity; try lia.
  apply IH. lia.
Qed.

(** Putting the same reader again: a reader that can be rewound is, and
    the file holds all its bytes as after the first [Put]; a reader that
    cannot was drained by the first [Put], and the second one leaves the
    file empty. *)
Theorem Put_again
    (fsys : Filesystem.FileSystem) (path : string) (reader r1 r2 : io.Reader)
    (w w1 w2 : World) (obj1 obj2 : option (Object Filesystem.FileSystem)) :
  Filesystem.Put fsys path reader w = (obj1, None, r1, w1) ->
  Filesystem.Put fsys path r1 w1 = (obj2, None, r2, w2) ->
  fs w2 !! Filesystem.GetFullPath fsys path w2
  = Some (RegularFile (if io.rewinds reader then io.bytes reader else "")).
Proof.
  intros H1 H2.
  rewrite (Put_content _ _ _ _ _ _ _ H2).
  apply Put_succeeded in H1 as (_ & _ & _ & -> & _).
  rewrite drained_rewinds, rewind_rewinds.
  unfold io.drained. cbn [io.bytes io.position]. rewrite rewind_bytes.
  destruct (io.rewinds reader); [reflexivity|].
  rewrite drop_all; [reflexivity|lia].
Qed.

(** The two sample readers, each put twice under [a.txt]. *)
Lemma Put_again_witness :
  fs (Samples.putTwice Samples.helloReader) !! "/tmp/a.txt"
    = Some (RegularFile "hello")
  /\ fs (Samples.putTwice Samples.pipeReader) !! "/tmp/a.txt"
     = Some (RegularFile "").
Proof.
  split.
  - eapply (Put_again Samples.tmpFileSystem "a.txt" Samples.helloReader _ _
              Samples.offline); vm_compute; reflexivity.
  - eapply (Put_again Samples.tmpFileSystem "a.txt" Samples.pipeReader _ _
              Samples.offline); vm_compute; reflexivity.
Defined.

(** After a [Put] that reports no error, [Delete] of the same path removes
    the file and reports no error, and a [Get] behind it fails with the
    error of a name that does not exist. *)
Theorem Put_Delete_Get
    (fsys : Filesystem.FileSystem) (path : string) (reader r' : io.Reader)
    (w w' : World) (obj : option (Object Filesystem.FileSystem)) :
  Filesystem.Put fsys path reader w = (obj, None, r', w') ->
  Filesystem.Delete fsys path w'
    = (None, set_fs w' (delete (Filesystem.GetFullPath fsys path w') (fs w')))
  /\ Filesystem.Get fsys path
       (set_fs w' (delete (Filesystem.GetFullPath fsys path w') (fs w')))
     = (None, Some ErrNotExist).
Proof.
  intros H. pose proof (Put_content _ _ _ _ _ _ _ H) as E. split.
  - unfold Filesystem.Delete, Remove. rewrite E. reflexivity.
  - unfold Filesystem.Get, Open.
    rewrite (GetFullPath_cwd fsys path w' (set_fs w' _) eq_refl).
    cbn [fs set_fs]. rewrite lookup_delete_eq. reflexivity.
Qed.

(** The sample reader put under [a.txt], deleted and asked for again. *)
Lemma Put_Delete_Get_witness :
  Filesystem.Delete Samples.tmpFileSystem "a.txt" Samples.oneFile
    = (None, set_fs Samples.oneFile (delete "/tmp/a.txt" (fs Samples.oneFile)))
  /\ Filesystem.Get Samples.tmpFileSystem "a.txt"
       (set_fs Samples.oneFile (delete "/tmp/a.txt" (fs Samples.oneFile)))
     = (None, Some ErrNotExist).
Proof.
  eapply (Put_Delete_Get Samples.tmpFileSystem "a.txt" Samples.helloReader _
            Samples.offline Samples.oneFile).
  vm_compute. reflexivity.
Defined.



(** *** List *)






Lemma child_listed m dir name n :
  m !! name = Some n -> os.is_child dir name = true ->
  In name (os.children m dir).
Proof.
  intros Hm Hc. unfold os.children.
  apply list_elem_of_In. rewrite merge_sort_Permutation.
  apply list_elem_of_In, filter_In. split; [|exact Hc].
  apply in_map_iff. exists (name, n). split; [reflexivity|].
  apply list_elem_of_In, elem_of_map_to_list. exact Hm.
Qed.

Lemma Walk_finds_child (path : string) (w : World) (name content : string) :
  os.Stat path (fs w) = Some Directory ->
  os.Stat name (fs w) = Some (RegularFile content) ->
  os.is_child path name = true ->
  exists entries,
    os.Walk path w = Some entries /\ In (name, RegularFile content) entries.
Proof.
  intros Hd Hf Hc. unfold os.Walk. rewrite Hd. eexists. split; [reflexivity|].
  assert (fs w !! name = Some (RegularFile content)) as Hm.
  { unfold os.Stat in Hf. destruct (os.is_root name); [discriminate|exact Hf]. }
  destruct (size (fs w)) as [|k] eqn:Es.
  { apply map_size_empty_iff in Es. rewrite Es, lookup_empty in Hm. discriminate. }
  cbn [os.walk]. right.
  apply in_flat_map. exists name. split; [eapply child_listed; eauto|].
  rewrite Hf. left. reflexivity.
Qed.

Lemma List_keeps_files
    (modTime : string -> Time) (fsys : Filesystem.FileSystem)
    (path : string) (w : World) (name content : string) entries :
  os.Walk (Filesystem.GetFullPath fsys path w) w = Some entries ->
  In (name, RegularFile content) entries ->
  name <> Filesystem.GetFullPath fsys path w ->
  In (mkObject (TrimPrefix name (Filesystem.Base fsys)) (filepath.Base name)
        (Some (modTime name)) 0%Z fsys)
    (fst (Filesystem.List modTime fsys path w)).
Proof.
  intros HW Hin Hne. unfold Filesystem.List. cbn [fst]. rewrite HW. cbn [default].
  apply list_elem_of_In, list_elem_of_omap.
  exists (name, RegularFile content). split; [apply list_elem_of_In; exact Hin|].
  destruct (String.eqb_spec name (Filesystem.GetFullPath fsys path w));
    [contradiction|reflexivity].
Qed.

(** [List] of a directory returns every regular file that lies in it. *)
Theorem List_returns_the_files_of_the_directory
    (modTime : string -> Time) (fsys : Filesystem.FileSystem)
    (path : string) (w : World) (name content : string) :
  os.Stat (Filesystem.GetFullPath fsys path w) (fs w) = Some Directory ->
  os.Stat name (fs w) = Some (RegularFile content) ->
  os.is_child (Filesystem.GetFullPath fsys path w) name = true ->
  name <> Filesystem.GetFullPath fsys path w ->
  In (mkObject (TrimPrefix name (Filesystem.Base fsys)) (filepath.Base name)
        (Some (modTime name)) 0%Z fsys)
    (fst (Filesystem.List modTime fsys path w)).
Proof.
  intros Hd Hf Hc Hne.
  destruct (Walk_finds_child _ w name content Hd Hf Hc) as (entries & HW & Hin).
  exact (List_keeps_files modTime fsys path w name content entries HW Hin Hne).
Qed.

(** [b.txt] of the sample tree, listed from the directory [docs/old]. *)
Lemma List_returns_the_files_of_the_directory_witness :
  In (mkObject "/docs/old/b.txt" "b.txt" (Some (Samples.mtime "/tmp/docs/old/b.txt"))
        0%Z Samples.tmpFileSystem)
    (fst (Filesystem.List Samples.mtime Samples.tmpFileSystem "docs/old"
            Samples.docs)).
Proof.
  apply (List_returns_the_files_of_the_directory Samples.mtime
           Samples.tmpFileSystem "docs/old" Samples.docs "/tmp/docs/old/b.txt"
           "bye").
  - vm_compute. reflexivity.
  - vm_compute. reflexivity.
  - vm_compute. reflexivity.
  - vm_compute. discriminate.
Defined.

End LocalFiles.

(** ** Keys of clean elements under a clean base directory *)

Module CleanPaths.
Import GoStrings oss Shapes GoStringsFacts.
Local Open Scope list_scope.


Lemma string_append_assoc (a b c : string) : (a +:+ b) +:+ c = a +:+ (b +:+ c).
Proof.
  induction a as [|x a IH]; [reflexivity|].
  change (String x ((a +:+ b) +:+ c) = String x (a +:+ (b +:+ c))).
  rewrite IH. reflexivity.
Qed.

Lemma string_append_nil_r (a : string) : a +:+ "" = a.
Proof.
  induction a as [|x a IH]; [reflexivity|].
  change (String x (a +:+ "") = String x a). rewrite IH. reflexivity.
Qed.

Lemma split_slash_elem e : forall cur rest,
  slashfree e ->
  filepath.split_slash cur (e +:+ String "/" rest)
  = (cur +:+ e) :: filepath.split_slash "" rest.
Proof.
  induction e as [|c e IH]; intros cur rest H.
  - rewrite string_append_nil_r. reflexivity.
  - apply andb_prop in H as [H1 H2].
    unfold differs in H1. apply negb_true_iff in H1.
    change (filepath.split_slash cur (String c e +:+ String "/" rest))
      with (if Ascii.eqb c "/"
            then cur :: filepath.split_slash "" (e +:+ String "/" rest)
            else filepath.split_slash (cur +:+ String c "") (e +:+ String "/" rest)).
    rewrite H1, (IH _ _ H2), string_append_assoc. reflexivity.
Qed.

Lemma split_slash_last e : forall cur,
  slashfree e -> filepath.split_slash cur e = [cur +:+ e].
Proof.
  induction e as [|c e IH]; intros cur H.
  - rewrite string_append_nil_r. reflexivity.
  - apply andb_prop in H as [H1 H2].
    unfold differs in H1. apply negb_true_iff in H1.
    change (filepath.split_slash cur (String c e))
      with (if Ascii.eqb c "/"
            then cur :: filepath.split_slash "" e
            else filepath.split_slash (cur +:+ String c "") e).
    rewrite H1, (IH _ H2), string_append_assoc. reflexivity.
Qed.

Lemma split_join L : forall e cur,
  Forall slashfree (e :: L) ->
  filepath.split_slash cur (filepath.join_slash (e :: L)) = (cur +:+ e) :: L.
Proof.
  induction L as [|e' L IH]; intros e cur H.
  - apply split_slash_last. inversion H; assumption.
  - inversion H as [|? ? He Hrest]; subst.
    change (filepath.join_slash (e :: e' :: L))
      with (e +:+ String "/" (filepath.join_slash (e' :: L))).
    rewrite (split_slash_elem e cur _ He), (IH e' "" Hrest). reflexivity.
Qed.


Lemma elem_slashfree e : elem e = true -> slashfree e.
Proof. unfold elem. intros H. apply andb_prop in H as [_ H]. exact H. Qed.

Lemma part_slashfree e : part e = true -> slashfree e.
Proof.
  unfold part. destruct (String.eqb_spec e "") as [->|_]; [reflexivity|].
  apply elem_slashfree.
Qed.

Lemma elem_tests e :
  elem e = true ->
  String.eqb e "" = false /\ String.eqb e "." = false /\ String.eqb e ".." = false.
Proof.
  unfold elem. intros H. apply andb_prop in H as [H _].
  apply andb_prop in H as [H H3]. apply andb_prop in H as [H1 H2].
  repeat split; apply negb_true_iff; assumption.
Qed.

Lemma clean_parts rooted L : forall stack,
  forallb part L = true ->
  filepath.clean_elems rooted stack L = rev (List.filter nonempty L) ++ stack.
Proof.
  induction L as [|e L IH]; intros stack H; [reflexivity|].
  cbn [forallb] in H. apply andb_prop in H as [He HL].
  cbn [filepath.clean_elems List.filter]. unfold part in He. unfold nonempty at 1.
  destruct (String.eqb_spec e "") as [->|Hne].
  - cbn. apply IH. exact HL.
  - cbn [orb negb] in *. destruct (elem_tests e He) as (_ & H1 & H2).
    rewrite H1, H2. cbn [orb]. rewrite (IH _ HL). cbn [rev].
    rewrite <- app_assoc. reflexivity.
Qed.

Lemma forallb_parts_slashfree L : forallb part L = true -> Forall slashfree L.
Proof.
  induction L as [|e L IH]; intros H; [constructor|].
  cbn in H. apply andb_prop in H as [He HL].
  constructor; [apply part_slashfree; exact He|apply IH; exact HL].
Qed.

(** Cleaning an absolute path of elements and empty parts (doubled or
    trailing slashes) keeps the elements. *)
Lemma Clean_rooted_parts L :
  forallb part L = true -> List.filter nonempty L <> [] ->
  filepath.Clean (rooted L) = rooted (List.filter nonempty L).
Proof.
  intros HL Hne. unfold filepath.Clean, rooted.
  destruct L as [|e L]; [contradiction|].
  change (filepath.join_slash ("" :: e :: L))
    with (String "/" (filepath.join_slash (e :: L))).
  change (HasPrefix (String "/" (filepath.join_slash (e :: L))) "/") with true.
  cbv beta iota zeta.
  change (String "/" (filepath.join_slash (e :: L)))
    with (filepath.join_slash ("" :: e :: L)).
  rewrite (split_join (e :: L) "" "").
  2:{ constructor; [reflexivity|apply forallb_parts_slashfree; exact HL]. }
  change ("" +:+ "") with "".
  rewrite (clean_parts true ("" :: e :: L) []).
  2:{ change (forallb part ("" :: e :: L))
        with (part "" && forallb part (e :: L)).
      rewrite HL. reflexivity. }
  change (List.filter nonempty ("" :: e :: L)) with (List.filter nonempty (e :: L)).
  rewrite app_nil_r, rev_involutive.
  destruct (List.filter nonempty (e :: L)) as [|f F]; [contradiction|].
  reflexivity.
Qed.

Lemma join_slash_app L1 : forall L2,
  L1 <> [] -> L2 <> [] ->
  filepath.join_slash (L1 ++ L2)
  = filepath.join_slash L1 +:+ "/" +:+ filepath.join_slash L2.
Proof.
  induction L1 as [|e L1 IH]; intros L2 H1 H2; [contradiction|].
  destruct L1 as [|e' L1].
  - destruct L2 as [|f L2]; [contradiction|]. reflexivity.
  - change (filepath.join_slash ((e :: e' :: L1) ++ L2))
      with (e +:+ "/" +:+ filepath.join_slash ((e' :: L1) ++ L2)).
    rewrite (IH L2) by (auto; discriminate).
    change (filepath.join_slash (e :: e' :: L1))
      with (e +:+ "/" +:+ filepath.join_slash (e' :: L1)).
    rewrite !string_append_assoc. reflexivity.
Qed.

Lemma elem_part e : elem e = true -> part e = true.
Proof. unfold part. intros ->. apply orb_true_r. Qed.

Lemma elems_parts B : forallb elem B = true -> forallb part B = true.
Proof.
  induction B as [|e B IH]; [reflexivity|]. cbn. intros H.
  apply andb_prop in H as [He HB]. rewrite (elem_part e He), (IH HB). reflexivity.
Qed.

Lemma filter_elems B : forallb elem B = true -> List.filter nonempty B = B.
Proof.
  induction B as [|e B IH]; [reflexivity|]. cbn. intros H.
  apply andb_prop in H as [He HB]. unfold nonempty at 1.
  destruct (elem_tests e He) as (-> & _). cbn. rewrite (IH HB). reflexivity.
Qed.

Lemma Clean_rooted_elems F :
  forallb elem F = true -> F <> [] -> filepath.Clean (rooted F) = rooted F.
Proof.
  intros HF Hne. rewrite Clean_rooted_parts, (filter_elems F HF);
    auto using elems_parts. rewrite (filter_elems F HF). exact Hne.
Qed.

Lemma rooted_starts B : B <> [] -> exists t, rooted B = String "/" t.
Proof. destruct B as [|e B]; [contradiction|]. intros _. eexists. reflexivity. Qed.

Lemma nonempty_parts_are_elems K :
  forallb part K = true -> forallb elem (List.filter nonempty K) = true.
Proof.
  intros HKp. induction K as [|e K IH]; [reflexivity|].
  cbn in *. apply andb_prop in HKp as [He HK]. unfold nonempty at 1. unfold part in He.
  destruct (String.eqb_spec e "") as [->|Hn]; cbn; [apply IH; exact HK|].
  cbn in He. rewrite He. apply IH. exact HK.
Qed.

Lemma Join_rooted (B K : list string) :
  B <> [] -> forallb elem B = true -> K <> [] -> forallb part K = true ->
  filepath.Join (rooted B) (filepath.join_slash K)
  = rooted (B ++ List.filter nonempty K).
Proof.
  intros HB HBe HK HKp. unfold filepath.Join.
  destruct (rooted_starts B HB) as [t Et]. rewrite Et at 1.
  change (String.eqb (String "/" t) "") with false. cbv iota.
  unfold rooted at 1. rewrite <- (join_slash_app ("" :: B) K) by (auto; discriminate).
  change (filepath.join_slash (("" :: B) ++ K)) with (rooted (B ++ K)).
  rewrite Clean_rooted_parts.
  - rewrite List.filter_app, (filter_elems B HBe). reflexivity.
  - rewrite forallb_app, (elems_parts B HBe), HKp. reflexivity.
  - rewrite List.filter_app, (filter_elems B HBe).
    destruct B; [contradiction|discriminate].
Qed.

Lemma Abs_rooted (wd : option string) (E : list string) :
  E <> [] -> forallb elem E = true -> fst (filepath.Abs wd (rooted E)) = rooted E.
Proof.
  intros Hne HE. unfold filepath.Abs, filepath.IsAbs.
  destruct (rooted_starts _ Hne) as [t Et]. rewrite Et at 1.
  change (HasPrefix (String "/" t) "/") with true. cbv iota. cbn [fst].
  apply Clean_rooted_elems; assumption.
Qed.

(** Under a base directory [/b1/.../bn] of elements, a key of elements,
    with or without a leading slash and with slashes doubled or trailing,
    is the file [/b1/.../bn/k1/.../km]: the empty parts of the key are
    dropped. *)
Theorem GetFullPath_of_key
    (fsys : Filesystem.FileSystem) (B K : list string) (w : World) :
  Filesystem.Base fsys = rooted B ->
  B <> [] -> forallb elem B = true ->
  K <> [] -> forallb part K = true ->
  HasPrefix (filepath.join_slash K) (rooted B) = false ->
  Filesystem.GetFullPath fsys (filepath.join_slash K) w
  = rooted (B ++ List.filter nonempty K).
Proof.
  intros HBase HB HBe HK HKp Hpre.
  unfold Filesystem.GetFullPath. rewrite HBase, Hpre. cbn [negb].
  rewrite (Join_rooted B K HB HBe HK HKp).
  apply Abs_rooted; [destruct B; [contradiction|discriminate]|].
  rewrite forallb_app, HBe. apply nonempty_parts_are_elems. exact HKp.
Qed.

(** The key [/docs//a.txt/] under [/tmp]. *)
Lemma GetFullPath_of_key_witness :
  Filesystem.GetFullPath Samples.tmpFileSystem "/docs//a.txt/" Samples.offline
  = "/tmp/docs/a.txt".
Proof.
  apply (GetFullPath_of_key Samples.tmpFileSystem ["tmp"]
           [""; "docs"; ""; "a.txt"; ""] Samples.offline);
    solve [reflexivity | discriminate].
Defined.

Lemma length_append (a b : string) :
  String.length (a +:+ b) = String.length a + String.length b.
Proof.
  induction a as [|c a IH]; [reflexivity|].
  change (S (String.length (a +:+ b)) = S (String.length a + String.length b)).
  f_equal. exact IH.
Qed.

Lemma rooted_snoc E x :
  E <> [] -> rooted (E ++ [x]) = rooted E +:+ String "/" x.
Proof.
  intros HE. unfold rooted.
  change ("" :: E ++ [x]) with (("" :: E) ++ [x]).
  rewrite join_slash_app by (auto; discriminate). reflexivity.
Qed.

Lemma LastIndex_last a x :
  slashfree x -> LastIndex (a +:+ String "/" x) "/" = Some (String.length a).
Proof.
  intros Hx. induction a as [|c a IH].
  - change ("" +:+ String "/" x) with (String "/" x).
    cbn [LastIndex]. rewrite (LastIndex_absent "/" x Hx). reflexivity.
  - change (String c a +:+ String "/" x) with (String c (a +:+ String "/" x)).
    cbn [LastIndex]. rewrite IH. reflexivity.
Qed.

Lemma take_past a x :
  take (String.length a + 1) (a +:+ String "/" x) = a +:+ "/".
Proof.
  induction a as [|c a IH]; [destruct x; reflexivity|].
  change (String c (take (String.length a + 1) (a +:+ String "/" x))
          = String c (a +:+ "/")).
  f_equal. exact IH.
Qed.

Lemma drop_past a x : drop (String.length a + 1) (a +:+ String "/" x) = x.
Proof.
  induction a as [|c a IH]; [reflexivity|].
  change (drop (String.length a + 1) (a +:+ String "/" x) = x). exact IH.
Qed.

Lemma Dir_rooted_snoc E x :
  forallb elem E = true -> E <> [] -> elem x = true ->
  filepath.Dir (rooted (E ++ [x])) = rooted E.
Proof.
  intros HE Hne Hx. unfold filepath.Dir.
  rewrite (rooted_snoc E x Hne).
  rewrite (LastIndex_last _ x (elem_slashfree x Hx)), take_past.
  assert (rooted E +:+ "/" = rooted (E ++ [""])) as ->.
  { unfold rooted. change ("" :: E ++ [""]) with (("" :: E) ++ [""]).
    rewrite join_slash_app by (auto; discriminate). reflexivity. }
  rewrite Clean_rooted_parts.
  - rewrite List.filter_app, (filter_elems E HE). cbn. rewrite app_nil_r. reflexivity.
  - rewrite forallb_app, (elems_parts E HE). reflexivity.
  - rewrite List.filter_app, (filter_elems E HE). cbn. rewrite app_nil_r. exact Hne.
Qed.

Lemma strip_slashfree x :
  slashfree x -> filepath.strip_trailing_slashes x = x.
Proof.
  induction x as [|c x IH]; [reflexivity|]. intros H.
  apply andb_prop in H as [H1 H2]. unfold differs in H1. apply negb_true_iff in H1.
  cbn [filepath.strip_trailing_slashes]. rewrite (IH H2), H1, andb_false_r.
  reflexivity.
Qed.

Lemma strip_before a x :
  slashfree x -> x <> "" ->
  filepath.strip_trailing_slashes (a +:+ x) = a +:+ x.
Proof.
  intros Hx Hne. induction a as [|c a IH]; [apply strip_slashfree; exact Hx|].
  change (String c a +:+ x) with (String c (a +:+ x)).
  cbn [filepath.strip_trailing_slashes]. rewrite IH.
  destruct (a +:+ x) eqn:E; [|reflexivity].
  destruct a; [cbn in E; contradiction|discriminate].
Qed.

Lemma Base_rooted_snoc E x :
  E <> [] -> elem x = true -> filepath.Base (rooted (E ++ [x])) = x.
Proof.
  intros Hne Hx. unfold filepath.Base. rewrite (rooted_snoc E x Hne).
  destruct (rooted_starts E Hne) as [t Et]. rewrite Et at 1.
  change (String.eqb (String "/" t +:+ String "/" x) "") with false. cbv iota.
  destruct (elem_tests x Hx) as (Hx0 & _).
  change (rooted E +:+ String "/" x) with (rooted E +:+ String "/" x).
  assert (filepath.strip_trailing_slashes (rooted E +:+ String "/" x)
          = rooted E +:+ String "/" x) as ->.
  { change (rooted E +:+ String "/" x) with (rooted E +:+ ("/" +:+ x)).
    rewrite <- string_append_assoc. apply strip_before; [exact (elem_slashfree x Hx)|].
    intros ->. discriminate. }
  rewrite (LastIndex_last _ x (elem_slashfree x Hx)), drop_past, Hx0. reflexivity.
Qed.

Lemma prefixes_last E : forall acc,
  forallb elem E = true -> E <> [] ->
  In (acc +:+ filepath.join_slash E) (os.prefixes acc E).
Proof.
  induction E as [|e E IH]; intros acc HE Hne; [contradiction|].
  cbn [forallb] in HE. apply andb_prop in HE as [He HE].
  destruct (elem_tests e He) as (H0 & H1 & _).
  cbn [os.prefixes]. rewrite H0, H1. cbn [orb].
  destruct E as [|e' E]; [left; reflexivity|]. right.
  change (filepath.join_slash (e :: e' :: E))
    with (e +:+ "/" +:+ filepath.join_slash (e' :: E)).
  specialize (IH (acc +:+ e +:+ "/") HE ltac:(discriminate)).
  rewrite <- !string_append_assoc in IH. rewrite <- !string_append_assoc. exact IH.
Qed.

Lemma ancestors_rooted E :
  forallb elem E = true -> E <> [] -> In (rooted E) (os.ancestors (rooted E)).
Proof.
  intros HE Hne. unfold os.ancestors.
  destruct (rooted_starts E Hne) as [t Et]. rewrite Et at 2.
  change (HasPrefix (String "/" t) "/") with true. cbv iota.
  unfold rooted at 2. rewrite split_join.
  - change ("" +:+ "") with "". cbn [os.prefixes String.eqb orb].
    assert (rooted E = "/" +:+ filepath.join_slash E) as ->.
    { unfold rooted. destruct E; [contradiction|reflexivity]. }
    apply prefixes_last; assumption.
  - constructor; [reflexivity|]. apply forallb_parts_slashfree, elems_parts, HE.
Qed.

Lemma mkdir_each_made names : forall m m' name,
  os.mkdir_each names m = (None, m') -> In name names -> m' !! name = Some Directory.
Proof.
  induction names as [|p rest IH]; intros m m' name H Hin; [contradiction|].
  cbn [os.mkdir_each] in H. destruct (m !! p) as [[c|]|] eqn:Ep.
  - discriminate.
  - destruct Hin as [->|Hin]; [|exact (IH _ _ _ H Hin)].
    exact (LocalFiles.mkdir_each_keeps _ _ _ _ _ _ H Ep).
  - destruct Hin as [->|Hin]; [|exact (IH _ _ _ H Hin)].
    apply (LocalFiles.mkdir_each_keeps _ _ _ _ _ _ H). apply lookup_insert_eq.
Qed.

Lemma rooted_snoc_differs E x : E <> [] -> rooted (E ++ [x]) <> rooted E.
Proof.
  intros Hne H. rewrite (rooted_snoc E x Hne) in H.
  apply (f_equal String.length) in H. rewrite length_append in H.
  cbn [String.length] in H. lia.
Qed.

Lemma is_root_rooted E : E <> [] -> forallb elem E = true -> os.is_root (rooted E) = false.
Proof.
  intros Hne HE. destruct E as [|e E]; [contradiction|].
  cbn [forallb] in HE. apply andb_prop in HE as [He _].
  destruct (elem_tests e He) as (H0 & _).
  destruct e as [|c e]; [discriminate|].
  destruct E; reflexivity.
Qed.

Lemma is_child_rooted E x :
  forallb elem E = true -> E <> [] -> elem x = true ->
  os.is_child (rooted E) (rooted (E ++ [x])) = true.
Proof.
  intros HE Hne Hx. unfold os.is_child.
  rewrite (Base_rooted_snoc E x Hne Hx), (Clean_rooted_elems E HE Hne).
  assert (filepath.Join (rooted E) x = rooted (E ++ [x])) as ->.
  { unfold filepath.Join. destruct (rooted_starts E Hne) as [t Et]. rewrite Et at 1.
    change (String.eqb (String "/" t) "") with false. cbv iota.
    change (rooted E +:+ "/" +:+ x) with (rooted E +:+ String "/" x).
    rewrite <- (rooted_snoc E x Hne). apply Clean_rooted_elems.
    - rewrite forallb_app, HE. cbn. rewrite Hx. reflexivity.
    - destruct E; discriminate. }
  rewrite String.eqb_refl. cbn [andb]. apply negb_true_iff.
  apply String.eqb_neq, rooted_snoc_differs, Hne.
Qed.

Lemma HasPrefix_append a b : HasPrefix (a +:+ b) a = true.
Proof.
  induction a as [|c a IH]; [destruct b; reflexivity|].
  change (Ascii.eqb c c && HasPrefix (a +:+ b) a = true).
  rewrite Ascii.eqb_refl, IH. reflexivity.
Qed.

Lemma drop_append a b : drop (String.length a) (a +:+ b) = b.
Proof. induction a as [|c a IH]; [destruct b; reflexivity|exact IH]. Qed.

Lemma TrimPrefix_rooted B K :
  B <> [] -> K <> [] -> TrimPrefix (rooted (B ++ K)) (rooted B) = rooted K.
Proof.
  intros HB HK.
  assert (rooted (B ++ K) = rooted B +:+ rooted K) as ->.
  { unfold rooted at 1 2. change ("" :: B ++ K) with (("" :: B) ++ K).
    rewrite join_slash_app by (auto; discriminate).
    destruct K; [contradiction|reflexivity]. }
  unfold TrimPrefix. rewrite HasPrefix_append. apply drop_append.
Qed.

Lemma key_not_under K B :
  forallb elem K = true -> B <> [] ->
  HasPrefix (filepath.join_slash K) (rooted B) = false.
Proof.
  intros HK HB. destruct (rooted_starts B HB) as [t ->].
  destruct K as [|e K]; [reflexivity|].
  cbn [forallb] in HK. apply andb_prop in HK as [He _].
  pose proof (elem_slashfree e He) as Hs.
  destruct (elem_tests e He) as (H0 & _).
  destruct e as [|c e]; [discriminate|].
  apply andb_prop in Hs as [Hc _]. unfold differs in Hc. apply negb_true_iff in Hc.
  assert (exists u, filepath.join_slash (String c e :: K) = String c u) as [u ->]
    by (destruct K; eexists; reflexivity).
  change (Ascii.eqb c "/" && HasPrefix u t = false).
  first [rewrite Hc | rewrite Ascii.eqb_sym, Hc]. reflexivity.
Qed.

Lemma GetFullPath_of_elems fsys B K w :
  Filesystem.Base fsys = rooted B -> B <> [] -> forallb elem B = true ->
  forallb elem K = true ->
  Filesystem.GetFullPath fsys (filepath.join_slash K) w = rooted (B ++ K).
Proof.
  intros HBase HB HBe HK. unfold Filesystem.GetFullPath.
  rewrite HBase, (key_not_under K B HK HB). cbn [negb].
  assert (forallb elem (B ++ K) = true) as HBK
    by (rewrite forallb_app, HBe, HK; reflexivity).
  assert (B ++ K <> []) as Hne by (destruct B; [contradiction|discriminate]).
  destruct K as [|e K].
  - change (filepath.join_slash []) with (filepath.join_slash [""]).
    rewrite (Join_rooted B [""] HB HBe); [|discriminate|reflexivity].
    cbn [List.filter nonempty String.eqb negb]. apply Abs_rooted; assumption.
  - rewrite (Join_rooted B (e :: K) HB HBe);
      [|discriminate|apply elems_parts; exact HK].
    rewrite (filter_elems _ HK). apply Abs_rooted; assumption.
Qed.

(** A file put under the key [d1/.../dn/x] is listed by [List] of the
    directory [d1/.../dn], under the path [/d1/.../dn/x]: the key with a
    slash in front. *)
Theorem Put_then_List
    (modTime : string -> Time) (fsys : Filesystem.FileSystem)
    (B D : list string) (x : string) (reader : io.Reader) (w : World)
    obj r' w' :
  Filesystem.Base fsys = rooted B -> B <> [] -> forallb elem B = true ->
  forallb elem D = true -> elem x = true ->
  Filesystem.Put fsys (filepath.join_slash (D ++ [x])) reader w
    = (obj, None, r', w') ->
  In (mkObject (rooted (D ++ [x])) x
        (Some (modTime (rooted (B ++ D ++ [x])))) 0%Z fsys)
    (fst (Filesystem.List modTime fsys (filepath.join_slash D) w')).
Proof.
  intros HBase HB HBe HD Hx HPut.
  assert (forallb elem (D ++ [x]) = true) as HK
    by (rewrite forallb_app, HD; cbn; rewrite Hx; reflexivity).
  assert (forallb elem (B ++ D) = true) as HBD
    by (rewrite forallb_app, HBe, HD; reflexivity).
  assert (B ++ D <> []) as HBDne by (destruct B; [contradiction|discriminate]).
  pose proof (GetFullPath_of_elems fsys B (D ++ [x]) w HBase HB HBe HK) as Efull.
  destruct (LocalFiles.Put_succeeded _ _ _ _ _ _ _ HPut) as (m1 & Hm & _ & _ & Hw).
  rewrite Efull in Hm, Hw. rewrite app_assoc in Hm, Hw.
  rewrite (Dir_rooted_snoc _ x HBD HBDne Hx) in Hm.
  pose proof (mkdir_each_made _ _ _ _ Hm (ancestors_rooted _ HBD HBDne)) as Hdir.
  pose proof (GetFullPath_of_elems fsys B D w' HBase HB HBe HD) as Edir.
  assert (forallb elem ((B ++ D) ++ [x]) = true) as HBDx
    by (rewrite forallb_app, HBD; cbn; rewrite Hx; reflexivity).
  assert ((B ++ D) ++ [x] <> []) as HBDxne by (destruct (B ++ D); discriminate).
  assert (forall content,
            os.Stat (Filesystem.GetFullPath fsys (filepath.join_slash D) w') (fs w')
              = Some Directory ->
            os.Stat (rooted ((B ++ D) ++ [x])) (fs w') = Some (RegularFile content) ->
            os.is_child (Filesystem.GetFullPath fsys (filepath.join_slash D) w')
              (rooted ((B ++ D) ++ [x])) = true ->
            rooted ((B ++ D) ++ [x])
              <> Filesystem.GetFullPath fsys (filepath.join_slash D) w' ->
            In (mkObject (TrimPrefix (rooted ((B ++ D) ++ [x])) (Filesystem.Base fsys))
                  (filepath.Base (rooted ((B ++ D) ++ [x])))
                  (Some (modTime (rooted ((B ++ D) ++ [x])))) 0%Z fsys)
              (fst (Filesystem.List modTime fsys (filepath.join_slash D) w')))
    as HL.
  { intros content Hd Hf Hc Hn.
    destruct (LocalFiles.Walk_finds_child _ w' _ content Hd Hf Hc)
      as (entries & HW & Hin).
    exact (LocalFiles.List_keeps_files modTime fsys _ w' _ content entries
             HW Hin Hn). }
  rewrite Edir in HL.
  rewrite (Base_rooted_snoc _ x HBDne Hx), HBase in HL.
  assert (TrimPrefix (rooted ((B ++ D) ++ [x])) (rooted B) = rooted (D ++ [x]))
    as ET by (rewrite <- app_assoc; apply TrimPrefix_rooted;
              [exact HB|destruct D; discriminate]).
  rewrite ET in HL. rewrite (app_assoc B D [x]).
  eapply HL.
  - unfold os.Stat. rewrite (is_root_rooted _ HBDne HBD). subst w'. cbn [fs set_fs].
    rewrite !lookup_insert_ne by (apply rooted_snoc_differs; exact HBDne).
    exact Hdir.
  - unfold os.Stat. rewrite (is_root_rooted _ HBDxne HBDx). subst w'. cbn [fs set_fs].
    apply lookup_insert_eq.
  - apply is_child_rooted; assumption.
  - apply rooted_snoc_differs; exact HBDne.
Qed.

(** The sample reader put under [docs/new/c.txt] in the sample tree, and
    [docs/new] listed. *)
Lemma Put_then_List_witness :
  In (mkObject "/docs/new/c.txt" "c.txt"
        (Some (Samples.mtime "/tmp/docs/new/c.txt")) 0%Z Samples.tmpFileSystem)
    (fst (Filesystem.List Samples.mtime Samples.tmpFileSystem "docs/new"
            (snd (Filesystem.Put Samples.tmpFileSystem "docs/new/c.txt"
                    Samples.helloReader Samples.docs)))).
Proof.
  eapply (Put_then_List Samples.mtime Samples.tmpFileSystem ["tmp"]
            ["docs"; "new"] "c.txt" Samples.helloReader Samples.docs);
    solve [reflexivity | discriminate | vm_compute; reflexivity].
Defined.
End CleanPaths.

(** ** Keys and the paths [List] makes of them *)

Module Keys.
Import GoStrings Utf8 Regexp oss Shapes GoStringsFacts.
Local Open Scope list_scope.

Lemma lor_lt_inv a b n :
  (N.lor a b < 2 ^ n)%N -> (a < 2 ^ n)%N /\ (b < 2 ^ n)%N.
Proof.
  intros H. assert (N.shiftr (N.lor a b) n = 0%N) as E
    by (rewrite N.shiftr_div_pow2; apply N.div_small; exact H).
  rewrite N.shiftr_lor in E. apply N.lor_eq_0_iff in E as [Ea Eb].
  rewrite N.shiftr_div_pow2 in Ea, Eb.
  split; apply N.div_small_iff; try assumption; apply N.pow_nonzero; discriminate.
Qed.

Lemma first_range b sz lo hi :
  first b = Some (sz, lo, hi) ->
  (sz = 2%nat /\ 194 <= b <= 223)%N
  \/ (sz = 3%nat /\ (224 <= b <= 239)%N /\ (b = 224%N -> lo = 160%N /\ hi = 191%N))
  \/ (sz = 4%nat /\ (240 <= b <= 244)%N /\ (b = 240%N -> lo = 144%N /\ hi = 191%N)).
Proof.
  unfold first.
  repeat match goal with
         | |- context [(?x <? ?y)%N] => destruct (N.ltb_spec x y)
         | |- context [(?x <=? ?y)%N] => destruct (N.leb_spec x y)
         | |- context [(?x =? ?y)%N] => destruct (N.eqb_spec x y)
         end;
    intros Hf; inversion Hf; subst; try lia.
  all: try (left; split; [reflexivity|lia]).
  all: try (right; left; split; [reflexivity|split; [lia|intros; try (split; reflexivity); lia]]).
  all: try (right; right; split; [reflexivity|split; [lia|intros; try (split; reflexivity); lia]]).
Qed.

Ltac modfacts x k :=
  pose proof (N.div_mod x k ltac:(discriminate));
  pose proof (N.mod_lt x k ltac:(discriminate)).

Ltac absmod :=
  repeat match goal with
         | H : context [N.modulo ?a ?b] |- _ => generalize dependent (N.modulo a b); intros
         | H : context [N.div ?a ?b] |- _ => generalize dependent (N.div a b); intros
         end.

Lemma land_low x k : N.land x (N.ones k) = (x mod 2 ^ k)%N.
Proof. apply N.land_ones. Qed.

(** A rune below 128 is decoded from one byte, which is the rune: the
    sequences of two and more bytes give runes from 128 on, and what is
    not a sequence gives [RuneError]. *)
Lemma Decode_ascii c t r w :
  DecodeRuneInString (String c t) = (r, w) -> (r < 128)%N ->
  r = byte c /\ w = 1%nat.
Proof.
  unfold DecodeRuneInString. set (s0 := byte c).
  destruct (N.ltb_spec s0 128) as [Hlow|Hhigh];
    [intros H _; inversion H; auto|].
  assert (forall n : nat, (RuneError, n) = (r, w) -> (r < 128)%N -> r = s0 /\ w = 1%nat)
    as Herr by (intros n H Hr; inversion H; subst r; unfold RuneError in Hr; lia).
  destruct (first s0) as [[[sz lo] hi]|] eqn:Ef; [|apply Herr].
  destruct t as [|c1 t1]; [apply Herr|]. set (s1 := byte c1).
  destruct (N.ltb_spec s1 lo) as [|Hlo]; [apply Herr|].
  destruct (N.ltb_spec hi s1) as [|Hhi]; [apply Herr|]. cbn [orb].
  apply first_range in Ef.
  destruct (Nat.eqb_spec sz 2) as [->|H2].
  { intros H Hr. inversion H; subst r w. exfalso.
    apply (lor_lt_inv _ _ 7) in Hr as [Ha _].
    rewrite N.shiftl_mul_pow2 in Ha. change 31%N with (N.ones 5) in Ha.
    rewrite land_low in Ha. change (2 ^ 5)%N with 32%N in Ha.
    change (2 ^ 6)%N with 64%N in Ha. change (2 ^ 7)%N with 128%N in Ha.
    modfacts s0 32%N. clear Herr H. clearbody s0 s1.
    destruct Ef as [[_ ?]|[[? _]|[? _]]]; try discriminate.
    absmod. lia. }
  destruct t1 as [|c2 t2]; [apply Herr|]. set (s2 := byte c2).
  destruct (cont s2); [|apply Herr]. cbn [negb].
  destruct (Nat.eqb_spec sz 3) as [->|H3].
  { intros H Hr. inversion H; subst r w. exfalso.
    apply (lor_lt_inv _ _ 7) in Hr as [Ha Hb].
    apply (lor_lt_inv _ _ 7) in Hb as [Hb _].
    rewrite N.shiftl_mul_pow2 in Ha, Hb.
    change 15%N with (N.ones 4) in Ha. change 63%N with (N.ones 6) in Hb.
    rewrite land_low in Ha, Hb.
    change (2 ^ 4)%N with 16%N in Ha. change (2 ^ 12)%N with 4096%N in Ha.
    change (2 ^ 6)%N with 64%N in Hb. change (2 ^ 7)%N with 128%N in Ha, Hb.
    modfacts s0 16%N. modfacts s1 64%N. clear Herr H. clearbody s0 s1 s2.
    destruct Ef as [[? _]|[(_ & Hs & Hl)|[? _]]]; try discriminate.
    absmod. assert (s0 = 224%N) as E0 by lia. destruct (Hl E0). subst lo hi. lia. }
  destruct t2 as [|c3 t3]; [apply Herr|]. set (s3 := byte c3).
  destruct (cont s3); [|apply Herr]. cbn [negb].
  intros H Hr. inversion H; subst r w. exfalso.
  apply (lor_lt_inv _ _ 7) in Hr as [Ha Hb].
  apply (lor_lt_inv _ _ 7) in Hb as [Hb _].
  rewrite N.shiftl_mul_pow2 in Ha, Hb.
  change 7%N with (N.ones 3) in Ha at 1. change 63%N with (N.ones 6) in Hb.
  rewrite land_low in Ha, Hb.
  change (2 ^ 3)%N with 8%N in Ha. change (2 ^ 18)%N with 262144%N in Ha.
  change (2 ^ 6)%N with 64%N in Hb. change (2 ^ 12)%N with 4096%N in Hb.
  change (2 ^ 7)%N with 128%N in Ha, Hb.
  modfacts s0 8%N. modfacts s1 64%N. clear Herr H. clearbody s0 s1 s2 s3.
  destruct Ef as [[? _]|[[? _]|(_ & Hs & Hl)]]; try contradiction.
  absmod. assert (s0 = 240%N) as E0 by lia. destruct (Hl E0). subst lo hi. lia.
Qed.

Lemma byte_inj_ascii c : ascii_of_N (byte c) = c.
Proof. apply ascii_N_embedding. Qed.

(** Two runes below 128 that follow each other are two bytes of the string
    that follow each other. *)
Lemma runes_pair s : forall skip pre a b post,
  runes_from skip s = pre ++ a :: b :: post -> (a < 128)%N -> (b < 128)%N ->
  exists x y, s = x +:+ String (ascii_of_N a) (String (ascii_of_N b) y).
Proof.
  induction s as [|c t IH]; intros skip pre a b post E Ha Hb.
  - destruct pre; discriminate.
  - cbn [runes_from] in E. destruct skip as [|k].
    + destruct (DecodeRuneInString (String c t)) as [r w] eqn:Ed.
      destruct pre as [|p pre].
      * inversion E as [[Er Et]]. subst r.
        destruct (Decode_ascii _ _ _ _ Ed Ha) as [-> ->].
        destruct t as [|c' t']; [discriminate|].
        cbn [Nat.sub runes_from] in Et.
        destruct (DecodeRuneInString (String c' t')) as [r' w'] eqn:Ed'.
        inversion Et as [[Er' Et']]. subst r'.
        destruct (Decode_ascii _ _ _ _ Ed' Hb) as [-> _].
        exists "", t'. rewrite !byte_inj_ascii. reflexivity.
      * inversion E as [[Er Et]].
        destruct (IH _ _ _ _ _ Et Ha Hb) as (x & y & ->).
        exists (String c x), y. reflexivity.
    + destruct (IH _ _ _ _ _ E Ha Hb) as (x & y & ->).
      exists (String c x), y. reflexivity.
Qed.

(** A rune below 128 is a byte of the string. *)
Lemma runes_single s : forall skip pre a post,
  runes_from skip s = pre ++ a :: post -> (a < 128)%N ->
  exists x y, s = x +:+ String (ascii_of_N a) y.
Proof.
  induction s as [|c t IH]; intros skip pre a post E Ha.
  - destruct pre; discriminate.
  - cbn [runes_from] in E. destruct skip as [|k].
    + destruct (DecodeRuneInString (String c t)) as [r w] eqn:Ed.
      destruct pre as [|p pre].
      * inversion E as [[Er Et]]. subst r.
        destruct (Decode_ascii _ _ _ _ Ed Ha) as [-> ->].
        exists "", t. rewrite byte_inj_ascii. reflexivity.
      * inversion E as [[Er Et]].
        destruct (IH _ _ _ _ Et Ha) as (x & y & ->).
        exists (String c x), y. reflexivity.
    + destruct (IH _ _ _ _ E Ha) as (x & y & ->).
      exists (String c x), y. reflexivity.
Qed.

Lemma HasPrefix_here a b : HasPrefix (a +:+ b) a = true.
Proof.
  induction a as [|c a IH]; [destruct b; reflexivity|].
  change (Ascii.eqb c c && HasPrefix (a +:+ b) a = true).
  rewrite Ascii.eqb_refl, IH. reflexivity.
Qed.

Lemma Contains_found x sub y : Contains (x +:+ (sub +:+ y)) sub = true.
Proof.
  unfold Contains. induction x as [|c x IH].
  - change ("" +:+ (sub +:+ y)) with (sub +:+ y).
    destruct (sub +:+ y) eqn:E; cbn [Index]; rewrite <- ?E, HasPrefix_here; reflexivity.
  - change (String c x +:+ (sub +:+ y)) with (String c (x +:+ (sub +:+ y))).
    cbn [Index]. destruct (HasPrefix _ sub); [reflexivity|].
    destruct (Index (x +:+ (sub +:+ y)) sub); [reflexivity|discriminate].
Qed.

Lemma all_bytes_found x c y : all_bytes (differs c) (x +:+ String c y) = false.
Proof.
  rewrite all_bytes_app. cbn [all_bytes]. unfold differs at 2.
  rewrite Ascii.eqb_refl. cbn. apply andb_false_r.
Qed.

(** Whatever the URL pattern of the aliyun, qiniu and azureblob normalizers
    matches holds two slashes in a row. *)
Lemma url_match_has_slashes mid :
  Matches Aliyun.urlRegexp mid -> exists a b, mid = a ++ 47%N :: 47%N :: b.
Proof.
  unfold Aliyun.urlRegexp. intros H.
  apply RegexpFacts.Matches_Cat_inv in H as (s1 & s2 & -> & _ & H).
  apply RegexpFacts.Matches_Cat_inv in H as (s3 & s4 & -> & H & _).
  cbn [lits] in H.
  apply RegexpFacts.Matches_Cat_inv in H as (s5 & s6 & -> & H5 & H6).
  inversion H5 as [|p r Hr| | | | |]; subst.
  inversion H6 as [|p' r' Hr'| | | | |]; subst.
  cbn in Hr, Hr'. apply N.eqb_eq in Hr, Hr'. subst r r'.
  exists s1, s4. rewrite <- !app_assoc. reflexivity.
Qed.

Lemma url_pattern_needs_slashes p :
  Contains p "//" = false -> MatchString Aliyun.urlRegexp p = false.
Proof.
  intros Hno. destruct (MatchString Aliyun.urlRegexp p) eqn:E; [|reflexivity].
  apply RegexpFacts.MatchString_spec in E as (pre & mid & post & Er & Hm).
  apply url_match_has_slashes in Hm as (a & b & ->).
  unfold runes in Er. rewrite <- !app_assoc in Er.
  rewrite app_assoc in Er. cbn [app] in Er.
  apply runes_pair in Er as (x & y & ->); [|reflexivity|reflexivity].
  change (String (ascii_of_N 47) (String (ascii_of_N 47) y)) with ("//" +:+ y) in Hno.
  rewrite Contains_found in Hno. discriminate.
Qed.

(** The URL branch of the aliyun, qiniu and azureblob normalizers is taken
    only for a path with two slashes in a row; every other path, whatever
    its bytes, loses its leading slash and nothing else. *)
Theorem url_branch_needs_two_slashes
    (ali : Aliyun.Client) (az : Azureblob.Client) (p : string) :
  Contains p "//" = false ->
  Aliyun.ToRelativePath ali p = TrimPrefix p "/"
  /\ Qiniu.storageKey p = TrimPrefix p "/"
  /\ Azureblob.ToRelativePath az p = TrimPrefix p "/".
Proof.
  intros H. apply url_pattern_needs_slashes in H.
  unfold Aliyun.ToRelativePath, Qiniu.storageKey, Azureblob.ToRelativePath,
    Qiniu.urlRegexp, Azureblob.urlRegexp.
  rewrite H. auto.
Qed.

Lemma url_branch_needs_two_slashes_witness :
  Aliyun.ToRelativePath Samples.aliyunPublic "/图片/a.b.com/c.txt" = "图片/a.b.com/c.txt"
  /\ Qiniu.storageKey "/图片/a.b.com/c.txt" = "图片/a.b.com/c.txt"
  /\ Azureblob.ToRelativePath Samples.azureClient "/图片/a.b.com/c.txt"
     = "图片/a.b.com/c.txt".
Proof.
  apply (url_branch_needs_two_slashes Samples.aliyunPublic Samples.azureClient
           "/图片/a.b.com/c.txt").
  vm_compute. reflexivity.
Defined.

Lemma Contains_behind_slash k :
  Contains k "//" = false -> HasPrefix k "/" = false ->
  Contains (String "/" k) "//" = false.
Proof.
  unfold Contains. intros Hc Hp. cbn [Index].
  change (HasPrefix (String "/" k) "//")
    with (Ascii.eqb "/" "/" && HasPrefix k "/").
  rewrite Hp. cbn [andb].
  destruct (Index k "//"); [discriminate|reflexivity].
Qed.

Lemma TrimPrefix_no_slash k : HasPrefix k "/" = false -> TrimPrefix k "/" = k.
Proof. unfold TrimPrefix. intros ->. reflexivity. Qed.

Lemma TrimPrefix_added_slash k : TrimPrefix (String "/" k) "/" = k.
Proof. destruct k; reflexivity. Qed.

(** A key that does not start with a slash and holds no two slashes in a
    row comes back from the normalizer as it is, and so does the path
    [List] makes of it. *)
Lemma listed_key_aliyun (client : Aliyun.Client) k :
  Contains k "//" = false -> HasPrefix k "/" = false ->
  Aliyun.ToRelativePath client k = k
  /\ Aliyun.ToRelativePath client ("/" +:+ k) = k.
Proof.
  intros Hc Hp. unfold Aliyun.ToRelativePath.
  rewrite (url_pattern_needs_slashes k Hc).
  change ("/" +:+ k) with (String "/" k).
  rewrite (url_pattern_needs_slashes _ (Contains_behind_slash k Hc Hp)).
  split; [apply TrimPrefix_no_slash; exact Hp|apply TrimPrefix_added_slash].
Qed.

(** aliyun: an object that [List] returns for a key without a leading
    slash and without two slashes in a row carries the key with a slash in
    front as its path, and that path handed back to [GetStream], [Delete]
    or [Object.Get] names the key again. *)
Theorem aliyun_listed_path_names_the_key
    (client : Aliyun.Client) (path : string)
    (results : Aliyun.ListObjectsResult) (obj : Aliyun.ObjectProperties) :
  Aliyun.ListObjects (Aliyun.bucket client) path = Ok results ->
  In obj (Aliyun.Objects results) ->
  Contains (Aliyun.Key obj) "//" = false ->
  HasPrefix (Aliyun.Key obj) "/" = false ->
  exists o,
    In o (fst (Aliyun.List client path))
    /\ Path o = "/" +:+ Aliyun.Key obj
    /\ Aliyun.GetStream client (Path o)
       = Aliyun.GetObject (Aliyun.bucket client) (Aliyun.Key obj)
    /\ Aliyun.Delete client (Path o)
       = Aliyun.DeleteObject (Aliyun.bucket client) (Aliyun.Key obj)
    /\ forall w, Object_Get Aliyun.Get o w = Aliyun.Get client (Aliyun.Key obj) w.
Proof.
  intros HL Hin Hc Hp.
  destruct (listed_key_aliyun client (Aliyun.Key obj) Hc Hp) as [E1 E2].
  exists (mkObject ("/" +:+ Aliyun.ToRelativePath client (Aliyun.Key obj))
            (filepath.Base (Aliyun.Key obj)) (Some (Aliyun.ObjLastModified obj))
            (Aliyun.ObjSize obj) client).
  split.
  { unfold Aliyun.List. rewrite HL. cbn [fst].
    apply in_map_iff. exists obj. split; [reflexivity|exact Hin]. }
  cbn [Path]. rewrite E1.
  unfold Object_Get, Aliyun.Get, Aliyun.GetStream, Aliyun.Delete.
  cbn [Path StorageInterface]. rewrite E1, E2. auto.
Qed.

Lemma aliyun_listed_path_names_the_key_witness :
  exists o,
    In o (fst (Aliyun.List Samples.aliyunStocked "docs"))
    /\ Path o = "/docs/www.example.com/b.txt"
    /\ Aliyun.GetStream Samples.aliyunStocked (Path o)
       = Aliyun.GetObject (Aliyun.bucket Samples.aliyunStocked)
           "docs/www.example.com/b.txt"
    /\ Aliyun.Delete Samples.aliyunStocked (Path o)
       = Aliyun.DeleteObject (Aliyun.bucket Samples.aliyunStocked)
           "docs/www.example.com/b.txt"
    /\ forall w, Object_Get Aliyun.Get o w
                 = Aliyun.Get Samples.aliyunStocked "docs/www.example.com/b.txt" w.
Proof.
  apply (aliyun_listed_path_names_the_key Samples.aliyunStocked "docs"
           (Aliyun.mkListObjectsResult
              [Aliyun.mkObjectProperties "docs/a.txt" 1600000000%Z 5%Z;
               Aliyun.mkObjectProperties "docs/www.example.com/b.txt"
                 1600000000%Z 3%Z] false "")
           (Aliyun.mkObjectProperties "docs/www.example.com/b.txt"
              1600000000%Z 3%Z)).
  - reflexivity.
  - right. left. reflexivity.
  - vm_compute. reflexivity.
  - reflexivity.
Defined.

(** qiniu: the path of a listed object names the object's key again. *)
Theorem qiniu_listed_path_names_the_key
    (client : Qiniu.Client) (path : string) (items : list Qiniu.ListItem)
    (prefixes : list string) (marker : string) (more : bool)
    (item : Qiniu.ListItem) :
  Qiniu.ListFiles (Qiniu.sdk client) (Qiniu.Bucket (Qiniu.config client))
    (Qiniu.storageKey path) "" "" 100 = (items, prefixes, marker, more, None) ->
  In item items ->
  Contains (Qiniu.Key item) "//" = false ->
  HasPrefix (Qiniu.Key item) "/" = false ->
  exists o,
    In o (fst (Qiniu.List client path))
    /\ Path o = "/" +:+ Qiniu.Key item
    /\ Qiniu.Delete client (Path o)
       = Qiniu.BucketDelete (Qiniu.sdk client) (Qiniu.Bucket (Qiniu.config client))
           (Qiniu.Key item)
    /\ forall w,
         Qiniu.GetURL client (Path o) w
         = (if Qiniu.PrivateURL (Qiniu.config client)
            then Qiniu.MakePrivateURL (Qiniu.sdk client)
                   (Qiniu.Endpoint (Qiniu.config client)) (Qiniu.Key item)
                   (now w + 3600)%Z
            else Qiniu.MakePublicURL (Qiniu.sdk client)
                   (Qiniu.Endpoint (Qiniu.config client)) (Qiniu.Key item),
            None).
Proof.
  intros HL Hin Hc Hp.
  assert (Qiniu.storageKey (Qiniu.Key item) = Qiniu.Key item) as K1.
  { unfold Qiniu.storageKey, Qiniu.urlRegexp.
    rewrite (url_pattern_needs_slashes _ Hc).
    apply TrimPrefix_no_slash; exact Hp. }
  assert (Qiniu.storageKey ("/" +:+ Qiniu.Key item) = Qiniu.Key item) as K2.
  { unfold Qiniu.storageKey, Qiniu.urlRegexp.
    change ("/" +:+ Qiniu.Key item) with (String "/" (Qiniu.Key item)).
    rewrite (url_pattern_needs_slashes _ (Contains_behind_slash _ Hc Hp)).
    apply TrimPrefix_added_slash. }
  exists (mkObject ("/" +:+ Qiniu.storageKey (Qiniu.Key item))
            (filepath.Base (Qiniu.Key item)) (Some (Qiniu.PutTime item)) 0%Z
            client).
  split.
  { unfold Qiniu.List. rewrite HL. cbn [fst].
    apply in_map_iff. exists item. split; [reflexivity|exact Hin]. }
  cbn [Path]. rewrite K1. split; [reflexivity|]. split.
  - unfold Qiniu.Delete. rewrite K2. reflexivity.
  - intros w. unfold Qiniu.GetURL, Qiniu.GetEndpoint. rewrite K2.
    change (String.length ("/" +:+ Qiniu.Key item))
      with (S (String.length (Qiniu.Key item))).
    cbn [Nat.eqb]. destruct (Qiniu.PrivateURL (Qiniu.config client)); reflexivity.
Qed.

Lemma qiniu_listed_path_names_the_key_witness :
  exists o,
    In o (fst (Qiniu.List Samples.qiniuPublic "dir"))
    /\ Path o = "/dir/2"
    /\ Qiniu.Delete Samples.qiniuPublic (Path o)
       = Qiniu.BucketDelete (Qiniu.sdk Samples.qiniuPublic) "bucket" "dir/2"
    /\ forall w,
         Qiniu.GetURL Samples.qiniuPublic (Path o) w
         = (Qiniu.MakePublicURL (Qiniu.sdk Samples.qiniuPublic)
              "http://cdn.example.com" "dir/2", None).
Proof.
  eapply (qiniu_listed_path_names_the_key Samples.qiniuPublic "dir" _ _ _ _
            (Qiniu.mkListItem "dir/2" 1700000000%Z)).
  - vm_compute. reflexivity.
  - do 2 right. left. reflexivity.
  - vm_compute. reflexivity.
  - reflexivity.
Defined.

Lemma tencent_match_has_backslash mid :
  Matches Tencent.urlRegexp mid -> In 92%N mid.
Proof.
  unfold Tencent.urlRegexp. intros H.
  apply RegexpFacts.Matches_Cat_inv in H as (s1 & s2 & -> & _ & H).
  apply RegexpFacts.Matches_Cat_inv in H as (s3 & s4 & -> & _ & H).
  apply RegexpFacts.Matches_Cat_inv in H as (s5 & s6 & -> & H & _).
  apply RegexpFacts.Matches_Cat_inv in H as (s7 & s8 & -> & H & _).
  apply RegexpFacts.Matches_Cat_inv in H as (s9 & s10 & -> & H & _).
  apply RegexpFacts.Matches_Cat_inv in H as (s11 & s12 & -> & H & _).
  inversion H as [|p r Hr| | | | |]; subst.
  simpl in Hr. apply N.eqb_eq in Hr. subst r.
  rewrite !in_app_iff. right. right. left. left. left. left. left. reflexivity.
Qed.

(** Whatever the tencent pattern matches holds a backslash, so a path
    without that byte has no match. *)
Lemma tencent_pattern_needs_backslash p :
  all_bytes (differs "\"%char) p = true ->
  MatchString Tencent.urlRegexp p = false.
Proof.
  intros Hno. destruct (MatchString Tencent.urlRegexp p) eqn:E; [|reflexivity].
  apply RegexpFacts.MatchString_spec in E as (pre & mid & post & Er & Hm).
  apply tencent_match_has_backslash in Hm.
  apply in_split in Hm as (m1 & m2 & ->).
  unfold runes in Er. rewrite <- !app_assoc in Er. rewrite app_assoc in Er.
  cbn [app] in Er.
  apply runes_single in Er as (x & y & ->); [|reflexivity].
  change (ascii_of_N 92) with "\"%char in Hno.
  rewrite all_bytes_found in Hno. discriminate.
Qed.

(** On a path without a backslash the tencent pattern finds nothing, so
    the URL branch of the tencent normalizer is never taken: an https URL
    at the backend's own endpoint is returned as it is. *)
Theorem tencent_url_branch_unreachable (client : Tencent.Client) (p : string) :
  all_bytes (differs "\"%char) p = true ->
  Tencent.ToRelativePath client p = TrimPrefix p "/".
Proof.
  intros Hno. unfold Tencent.ToRelativePath.
  rewrite (tencent_pattern_needs_backslash p Hno). reflexivity.
Qed.

(** The URL of [a/b.txt] at the sample client's own endpoint. *)
Lemma tencent_own_url_unchanged :
  Tencent.ToRelativePath Samples.tencentClient
    ("https://" +:+ Tencent.GetEndpoint Samples.tencentClient +:+ "/a/b.txt")
  = "https://bucket-1250000000.cos.ap-beijing.myqcloud.com/a/b.txt".
Proof.
  rewrite (tencent_url_branch_unreachable Samples.tencentClient
             ("https://" +:+ Tencent.GetEndpoint Samples.tencentClient
              +:+ "/a/b.txt"));
    vm_compute; reflexivity.
Defined.

(** tencent: the path of a listed object is the key with a slash in front,
    and when the key holds no backslash that path handed back to
    [GetStream], [Delete] or [GetURL] names the key again. *)
Theorem tencent_listed_path_names_the_key
    (client : Tencent.Client) (path : string)
    (contents : list Tencent.CosObject) (obj : Tencent.CosObject) :
  Tencent.BucketGet (Tencent.cos client) (Tencent.ToRelativePath client path)
    = Ok contents ->
  In obj contents ->
  all_bytes (differs "\"%char) (Tencent.Key obj) = true ->
  exists o,
    In o (fst (Tencent.List client path))
    /\ Path o = "/" +:+ Tencent.Key obj
    /\ Tencent.GetStream client (Path o)
       = Tencent.ObjectGet (Tencent.cos client) (Tencent.Key obj)
    /\ Tencent.Delete client (Path o)
       = Tencent.ObjectDelete (Tencent.cos client) (Tencent.Key obj)
    /\ Tencent.GetURL client (Path o)
       = Ok ("https://" +:+ Tencent.Bucket (Tencent.config client) +:+ "-"
             +:+ Tencent.AppID (Tencent.config client) +:+ ".cos."
             +:+ Tencent.Region (Tencent.config client) +:+ ".myqcloud.com/"
             +:+ Tencent.Key obj).
Proof.
  intros HL Hin Hno.
  assert (Tencent.ToRelativePath client ("/" +:+ Tencent.Key obj) = Tencent.Key obj)
    as E.
  { unfold Tencent.ToRelativePath.
    rewrite tencent_pattern_needs_backslash; [apply TrimPrefix_added_slash|].
    change ("/" +:+ Tencent.Key obj) with (String "/" (Tencent.Key obj)).
    cbn [all_bytes]. rewrite Hno. reflexivity. }
  exists (mkObject ("/" +:+ Tencent.Key obj) (filepath.Base (Tencent.Key obj))
            None (Tencent.CosSize obj) client).
  split.
  { unfold Tencent.List. rewrite HL. cbn [fst].
    apply in_map_iff. exists obj. split; [reflexivity|exact Hin]. }
  cbn [Path].
  unfold Tencent.GetStream, Tencent.Delete, Tencent.GetURL, Tencent.getUrl.
  rewrite E. auto.
Qed.

Lemma tencent_listed_path_names_the_key_witness :
  exists o,
    In o (fst (Tencent.List Samples.tencentStocked "docs"))
    /\ Path o = "/docs/a.txt"
    /\ Tencent.GetStream Samples.tencentStocked (Path o)
       = Tencent.ObjectGet (Tencent.cos Samples.tencentStocked) "docs/a.txt"
    /\ Tencent.Delete Samples.tencentStocked (Path o)
       = Tencent.ObjectDelete (Tencent.cos Samples.tencentStocked) "docs/a.txt"
    /\ Tencent.GetURL Samples.tencentStocked (Path o)
       = Ok "https://bucket-1250000000.cos.ap-beijing.myqcloud.com/docs/a.txt".
Proof.
  apply (tencent_listed_path_names_the_key Samples.tencentStocked "docs"
           [Tencent.mkCosObject "docs/a.txt" 5%Z]
           (Tencent.mkCosObject "docs/a.txt" 5%Z)).
  - reflexivity.
  - left. reflexivity.
  - reflexivity.
Defined.

(** huawei: the path of a listed object is the key with a slash in front,
    and that path handed back to [GetStream], [Delete] or [GetURL] names
    the key again, whatever the key. *)
Theorem huawei_listed_path_names_the_key
    (client : Huawei.Client) (path : string)
    (contents : list Huawei.Content) (obj : Huawei.Content) :
  Huawei.ListObjects (Huawei.OBS client) (Huawei.Bucket (Huawei.config client))
    (Huawei.ToRelativePath client path) = Ok contents ->
  In obj contents ->
  exists o,
    In o (fst (Huawei.List client path))
    /\ Path o = "/" +:+ Huawei.Key obj
    /\ Huawei.GetStream client (Path o)
       = Huawei.GetObject (Huawei.OBS client) (Huawei.Bucket (Huawei.config client))
           (Huawei.Key obj)
    /\ Huawei.Delete client (Path o)
       = Huawei.DeleteObject (Huawei.OBS client)
           (Huawei.Bucket (Huawei.config client)) (Huawei.Key obj)
    /\ Huawei.GetURL client (Path o)
       = Huawei.CreateSignedUrl (Huawei.OBS client) Huawei.HttpMethodGet
           (Huawei.Bucket (Huawei.config client)) (Huawei.Key obj) 3600.
Proof.
  intros HL Hin.
  exists (mkObject ("/" +:+ Huawei.Key obj) (filepath.Base (Huawei.Key obj))
            (Some (Huawei.ContentLastModified obj)) (Huawei.ContentSize obj)
            client).
  split.
  { unfold Huawei.List. rewrite HL. cbn [fst].
    apply in_map_iff. exists obj. split; [reflexivity|exact Hin]. }
  cbn [Path].
  unfold Huawei.GetStream, Huawei.Delete, Huawei.GetURL, Huawei.ToRelativePath.
  change ("/" +:+ Huawei.Key obj) with (String "/" (Huawei.Key obj)).
  rewrite TrimPrefix_added_slash.
  repeat split. destruct (Huawei.CreateSignedUrl _ _ _ _ _); reflexivity.
Qed.

Lemma huawei_listed_path_names_the_key_witness :
  exists o,
    In o (fst (Huawei.List Samples.huaweiStocked "docs"))
    /\ Path o = "/docs/a.txt"
    /\ Huawei.GetStream Samples.huaweiStocked (Path o)
       = Huawei.GetObject (Huawei.OBS Samples.huaweiStocked) "bucket" "docs/a.txt"
    /\ Huawei.Delete Samples.huaweiStocked (Path o)
       = Huawei.DeleteObject (Huawei.OBS Samples.huaweiStocked) "bucket"
           "docs/a.txt"
    /\ Huawei.GetURL Samples.huaweiStocked (Path o)
       = Huawei.CreateSignedUrl (Huawei.OBS Samples.huaweiStocked)
           Huawei.HttpMethodGet "bucket" "docs/a.txt" 3600.
Proof.
  apply (huawei_listed_path_names_the_key Samples.huaweiStocked "docs"
           [Huawei.mkContent "docs/a.txt" 1600000000%Z 5%Z]
           (Huawei.mkContent "docs/a.txt" 1600000000%Z 5%Z)).
  - reflexivity.
  - left. reflexivity.
Defined.
End Keys.

(** ** The constructors *)

Module Constructors.

Import GoStrings oss.
Local Open Scope list_scope.

(** aliyun: a client that [New] returns has an endpoint and an ACL, so its
    [GetEndpoint] never asks the SDK for the endpoint: it is the configured
    endpoint, or [oss-cn-hangzhou.aliyuncs.com] when none is configured,
    with the bucket in front when it ends in [aliyuncs.com]; and [GetURL]
    signs only when [private] was configured, an unset ACL counting as
    public. *)
Theorem aliyun_New_fills_the_defaults
    (aliyun_New : Aliyun.Connector) (config : Aliyun.Config)
    (options options' : list Aliyun.ClientOption) (client : Aliyun.Client) :
  Aliyun.New aliyun_New config options = Returned (client, options') ->
  Aliyun.GetEndpoint client
  = (let endpoint :=
       if String.eqb (Aliyun.Endpoint config) ""
       then "oss-cn-hangzhou.aliyuncs.com" else Aliyun.Endpoint config in
     if HasSuffix endpoint "aliyuncs.com"
     then Aliyun.ConfigBucket config +:+ "." +:+ endpoint else endpoint)
  /\ (forall p,
        Aliyun.GetURL client p
        = if String.eqb (Aliyun.ACL config) Aliyun.ACLPrivate
          then Aliyun.SignURL (Aliyun.bucket client)
                 (Aliyun.ToRelativePath client p) Aliyun.HTTPGet 3600
          else Ok p)
  /\ options'
     = (if Aliyun.UseCname config
        then options ++ [Aliyun.UseCnameOption true] else options).
Proof.
  unfold Aliyun.New.
  set (c1 := if String.eqb (Aliyun.Endpoint config) "" then _ else config).
  set (c2 := if String.eqb (Aliyun.ACL c1) "" then _ else c1).
  assert (Aliyun.Endpoint c2
          = if String.eqb (Aliyun.Endpoint config) ""
            then "oss-cn-hangzhou.aliyuncs.com" else Aliyun.Endpoint config) as He.
  { subst c2 c1. destruct (String.eqb (Aliyun.Endpoint config) "");
      cbn; destruct (String.eqb _ ""); reflexivity. }
  assert (Aliyun.ConfigBucket c2 = Aliyun.ConfigBucket config) as Hb.
  { subst c2 c1. destruct (String.eqb (Aliyun.Endpoint config) "");
      cbn; destruct (String.eqb _ ""); reflexivity. }
  assert (Aliyun.UseCname c2 = Aliyun.UseCname config) as Hu.
  { subst c2 c1. destruct (String.eqb (Aliyun.Endpoint config) "");
      cbn; destruct (String.eqb _ ""); reflexivity. }
  assert (String.eqb (Aliyun.ACL c2) Aliyun.ACLPrivate
          = String.eqb (Aliyun.ACL config) Aliyun.ACLPrivate) as Ha.
  { subst c2 c1. destruct (String.eqb (Aliyun.Endpoint config) ""); cbn;
      destruct (String.eqb_spec (Aliyun.ACL config) "") as [->|]; reflexivity. }
  assert (String.eqb (Aliyun.Endpoint c2) "" = false) as Hne.
  { rewrite He. destruct (String.eqb_spec (Aliyun.Endpoint config) "");
      [reflexivity|apply String.eqb_neq; assumption]. }
  clearbody c2. clear c1.
  destruct (aliyun_New _ _ _ _) as [Aliyun|err]; [|discriminate].
  destruct (Aliyun _) as [bucket|err]; [|discriminate].
  intros H. inversion H; subst client options'. clear H.
  unfold Aliyun.GetEndpoint, Aliyun.GetURL. cbn [Aliyun.config Aliyun.bucket].
  rewrite Hne, He, Hb, Ha, Hu. cbn [negb].
  split; [reflexivity|]. split; [reflexivity|].
  destruct (Aliyun.UseCname config); reflexivity.
Qed.

(** The bare sample configuration: the default endpoint with the bucket in
    front, and public URLs. *)
Lemma aliyun_New_fills_the_defaults_witness :
  exists client options',
    Aliyun.New Samples.aliyunConnector Samples.aliyunBare []
      = Returned (client, options')
    /\ Aliyun.GetEndpoint client = "bucket.oss-cn-hangzhou.aliyuncs.com"
    /\ (forall p, Aliyun.GetURL client p = Ok p)
    /\ options' = [].
Proof.
  eexists. eexists. split; [reflexivity|].
  eapply (aliyun_New_fills_the_defaults Samples.aliyunConnector
            Samples.aliyunBare []).
  reflexivity.
Defined.

(** qiniu: [New] returns a client exactly when the lowered region is one of
    the four zone names and the endpoint starts with [http://] or
    [https://]; the check for an empty endpoint only chooses the message.
    The client keeps the configuration, so its [GetEndpoint] carries the
    scheme. *)
Theorem qiniu_New_accepts
    (strings_ToLower : string -> string)
    (connect : Qiniu.Config -> Qiniu.Zone -> Qiniu.SDK) (config : Qiniu.Config) :
  (Qiniu.zonedata (strings_ToLower (Qiniu.Region config)) <> None
   /\ HasPrefix (Qiniu.Endpoint config) "http://"
      || HasPrefix (Qiniu.Endpoint config) "https://" = true)
  <-> exists client,
        Qiniu.New strings_ToLower connect config = Ok client
        /\ Qiniu.GetEndpoint client = Qiniu.Endpoint config.
Proof.
  unfold Qiniu.New. split.
  - intros [Hz Hp].
    destruct (Qiniu.zonedata _) as [z|]; [|contradiction].
    destruct (Qiniu.Endpoint config) as [|c e] eqn:Ee; [discriminate|].
    cbn [String.length Nat.eqb]. apply orb_true_iff in Hp.
    eexists. split.
    + destruct Hp as [-> | ->]; cbn [negb andb]; [reflexivity|].
      rewrite andb_false_r. reflexivity.
    + unfold Qiniu.GetEndpoint. cbn [Qiniu.config]. exact Ee.
  - intros (client & H & _).
    destruct (Qiniu.zonedata _) as [z|]; [|discriminate].
    split; [discriminate|].
    destruct (String.length (Qiniu.Endpoint config) =? 0)%nat; [discriminate|].
    destruct (HasPrefix (Qiniu.Endpoint config) "http://"); [reflexivity|].
    destruct (HasPrefix (Qiniu.Endpoint config) "https://"); [reflexivity|].
    discriminate.
Qed.

End Constructors.

(** ** The synology backend *)

Module Nas.
Import GoStrings oss Shapes GoStringsFacts.
Local Open Scope list_scope.

Lemma QueryEscape_cons c t :
  URL.QueryEscape (String c t)
  = URL.QueryEscape (String c "") +:+ URL.QueryEscape t.
Proof.
  cbn [URL.QueryEscape].
  destruct (Ascii.eqb c " "); [reflexivity|].
  destruct (URL.shouldEscapeQueryComponent c); reflexivity.
Qed.

Lemma QueryEscape_byte c :
  all_bytes query_byte (URL.QueryEscape (String c "")) = true.
Proof. destruct c as [[] [] [] [] [] [] [] []]; vm_compute; reflexivity. Qed.

(** An escaped query component holds letters, digits and [-_.~%+] only. *)
Lemma QueryEscape_bytes s : all_bytes query_byte (URL.QueryEscape s) = true.
Proof.
  induction s as [|c t IH]; [reflexivity|].
  rewrite QueryEscape_cons, all_bytes_app, QueryEscape_byte, IH. reflexivity.
Qed.

Lemma query_byte_differs x :
  query_byte x = false -> forall c, query_byte c = true -> differs x c = true.
Proof.
  intros Hx c Hc. unfold differs. apply negb_true_iff.
  destruct (Ascii.eqb_spec c x) as [->|]; [congruence|reflexivity].
Qed.

Lemma Count_byte_cons x c t :
  Count (String c t) (String x "")
  = (if Ascii.eqb c x then 1 else 0) + Count t (String x "").
Proof.
  unfold Count. cbn [count_from]. rewrite HasPrefix_byte.
  destruct (Ascii.eqb c x); reflexivity.
Qed.

Lemma Count_byte_app x a b :
  Count (a +:+ b) (String x "") = Count a (String x "") + Count b (String x "").
Proof.
  induction a as [|c a IH]; [reflexivity|].
  change (String c a +:+ b) with (String c (a +:+ b)).
  rewrite !Count_byte_cons, IH. lia.
Qed.

Lemma Count_QueryEscape x s :
  query_byte x = false -> Count (URL.QueryEscape s) (String x "") = 0.
Proof.
  intros Hx. apply Count_absent.
  apply (all_bytes_impl query_byte); [apply query_byte_differs; exact Hx|].
  apply QueryEscape_bytes.
Qed.


Lemma GetURL_query client path :
  path <> "" ->
  Synology.GetURL client path
  = ((Synology.Endpoint (Synology.config client) +:+ "/webapi/entry.cgi")
     +:+ "?" +:+ download_query client path, None).
Proof.
  intros Hp. unfold Synology.GetURL, filepath.ToSlash.
  destruct path as [|c p]; [contradiction|].
  change (String.eqb (String c p) "") with false. cbv iota.
  match goal with
  | |- (_ +:+ "?" +:+ ?e, None) = _ =>
      assert (e = download_query client (String c p)) as ->; [|reflexivity]
  end.
  unfold download_query.
  generalize (Synology.SharedFolder (Synology.config client) +:+ String c p).
  generalize (Synology.SynoToken client). generalize (Synology.SId client).
  intros sid tok full. vm_compute. reflexivity.
Qed.

Lemma download_query_counts client path x :
  query_byte x = false ->
  Count (download_query client path) (String x "")
  = Count "SynoToken=&_sid=&api=SYNO.FileStation.Download&method=download&mode=download&path=&version=2"
      (String x "").
Proof.
  intros Hx. unfold download_query.
  rewrite !Count_byte_app, !(Count_QueryEscape x _ Hx).
  change "SynoToken=&_sid=&api=SYNO.FileStation.Download&method=download&mode=download&path=&version=2"
    with ("SynoToken=" +:+ "&_sid="
          +:+ "&api=SYNO.FileStation.Download&method=download&mode=download&path="
          +:+ "&version=2").
  rewrite !Count_byte_app. lia.
Qed.

(** [GetURL] of a path that is not empty is the entry point of the NAS
    with a query of exactly seven parameters, in the order of their names:
    whatever bytes the path, the shared folder, the session id and the
    token hold, they are escaped, and add no [&], [=] or [#] to it. *)
Theorem GetURL_has_seven_parameters (client : Synology.Client) (path : string) :
  path <> "" ->
  Synology.GetURL client path
  = ((Synology.Endpoint (Synology.config client) +:+ "/webapi/entry.cgi")
     +:+ "?" +:+ download_query client path, None)
  /\ Count (download_query client path) "&" = 6
  /\ Count (download_query client path) "=" = 7
  /\ Count (download_query client path) "#" = 0.
Proof.
  intros Hp. split; [apply GetURL_query; exact Hp|].
  rewrite !download_query_counts by reflexivity. repeat split.
Qed.

Lemma GetURL_has_seven_parameters_witness :
  Synology.GetURL Samples.nasClient "/docs/a b.txt"
  = ("http://nas.local:5000/webapi/entry.cgi?SynoToken=T%261%3D&_sid=S+1&api=SYNO.FileStation.Download&method=download&mode=download&path=%2Fhome%2Fdocs%2Fa+b.txt&version=2",
     None)
  /\ Count (download_query Samples.nasClient "/docs/a b.txt") "&" = 6
  /\ Count (download_query Samples.nasClient "/docs/a b.txt") "=" = 7
  /\ Count (download_query Samples.nasClient "/docs/a b.txt") "#" = 0.
Proof.
  apply (GetURL_has_seven_parameters Samples.nasClient "/docs/a b.txt").
  discriminate.
Defined.

(** [GetStream] asks for the URL that [GetURL] returns.  Both refuse the
    empty path with the same error, and [GetStream] does so without a
    request; for any other path [GetStream] sends its one request to the
    URL of [GetURL], and returns the error of the transport, the body of
    an answer 200, or the status of any other answer as an error. *)
Theorem GetStream_downloads_GetURL
    (client : Synology.Client) (path : string) (w : World) :
  (path = "" ->
   Synology.GetURL client path = ("", Some "path is empty")
   /\ Synology.GetStream client path w = Returned (None, Some "path is empty"))
  /\ (path <> "" ->
      exists url,
        Synology.GetURL client path = (url, None)
        /\ (Synology.NewRequest url = None ->
            (forall r err,
               http_Get w url = (r, Some err) ->
               Synology.GetStream client path w = Returned (None, Some err))
            /\ (forall resp,
                  http_Get w url = (Some resp, None) ->
                  Synology.GetStream client path w
                  = if (StatusCode resp =? 200)%Z
                    then Returned (Some (Body resp), None)
                    else Returned
                           (None,
                            Some ("download failed, status code: "
                                  +:+ pretty (StatusCode resp)))))).
Proof.
  split.
  - intros ->. split; reflexivity.
  - intros Hp. unfold Synology.GetURL, Synology.GetStream.
    destruct (String.eqb_spec (filepath.ToSlash path) "") as [E|_];
      [contradiction|].
    eexists. split; [reflexivity|]. intros Hreq. rewrite Hreq. split.
    + intros r err ->. destruct r; reflexivity.
    + intros resp ->. unfold Synology.StatusOK.
      destruct (StatusCode resp =? 200)%Z; reflexivity.
Qed.

(** The empty path, and [/docs/a.txt] asked of a NAS that serves [hello]. *)
Lemma GetStream_downloads_GetURL_witness :
  (Synology.GetURL Samples.nasClient "" = ("", Some "path is empty")
   /\ Synology.GetStream Samples.nasClient "" (Samples.nas 200 "hello")
      = Returned (None, Some "path is empty"))
  /\ exists url,
       Synology.GetURL Samples.nasClient "/docs/a.txt" = (url, None)
       /\ (Synology.NewRequest url = None ->
           (forall r err,
              http_Get (Samples.nas 200 "hello") url = (r, Some err) ->
              Synology.GetStream Samples.nasClient "/docs/a.txt"
                (Samples.nas 200 "hello") = Returned (None, Some err))
           /\ (forall resp,
                 http_Get (Samples.nas 200 "hello") url = (Some resp, None) ->
                 Synology.GetStream Samples.nasClient "/docs/a.txt"
                   (Samples.nas 200 "hello")
                 = if (StatusCode resp =? 200)%Z
                   then Returned (Some (Body resp), None)
                   else Returned
                          (None,
                           Some ("download failed, status code: "
                                 +:+ pretty (StatusCode resp))))).
Proof.
  split.
  - exact (proj1 (GetStream_downloads_GetURL Samples.nasClient ""
                    (Samples.nas 200 "hello")) eq_refl).
  - apply (proj2 (GetStream_downloads_GetURL Samples.nasClient "/docs/a.txt"
                    (Samples.nas 200 "hello"))).
    discriminate.
Defined.

(** [Delete] reports no refusal: when the NAS answers with a status other
    than 200, or with any document that can be decoded, [Delete] returns
    nil, unless the URL of the request cannot be parsed. *)
Theorem Delete_reports_no_refusal
    (Decode : ReadCloser -> result Synology.jmap)
    (client : Synology.Client) (path : string) (w : World) (resp : Response) :
  (forall url, http_Get w url = (Some resp, None)) ->
  StatusCode resp <> 200%Z \/ (exists m, Decode (Body resp) = Ok m) ->
  Synology.Delete Decode client path w = Returned None
  \/ exists url err,
       Synology.NewRequest url = Some err
       /\ Synology.Delete Decode client path w = Returned (Some err).
Proof.
  intros Hget Hresp. unfold Synology.Delete.
  destruct (Synology.NewRequest _) as [err|] eqn:En.
  { right. eexists. exists err. split; [exact En|reflexivity]. }
  left. rewrite Hget. unfold Synology.StatusOK.
  destruct (Z.eqb_spec (StatusCode resp) 200) as [E|E]; [|reflexivity].
  destruct Hresp as [Hne|[m Hm]]; [contradiction|].
  cbn [negb]. rewrite Hm. reflexivity.
Qed.

Lemma Delete_reports_no_refusal_witness :
  Synology.Delete Samples.nasDecode Samples.nasClient "/docs/a.txt"
    (Samples.nas 403 "Forbidden") = Returned None
  /\ Synology.Delete Samples.nasDecode Samples.nasClient "/docs/a.txt"
       (Samples.nas 200 "denied") = Returned None.
Proof.
  split.
  - destruct (Delete_reports_no_refusal Samples.nasDecode Samples.nasClient
                "/docs/a.txt" (Samples.nas 403 "Forbidden")
                (mkResponse 403 (mkReadCloser "Forbidden" None)))
      as [H|(url & err & _ & H)].
    + reflexivity.
    + left. discriminate.
    + exact H.
    + vm_compute in H. discriminate.
  - destruct (Delete_reports_no_refusal Samples.nasDecode Samples.nasClient
                "/docs/a.txt" (Samples.nas 200 "denied")
                (mkResponse 200 (mkReadCloser "denied" None)))
      as [H|(url & err & _ & H)].
    + reflexivity.
    + right. eexists. reflexivity.
    + exact H.
    + vm_compute in H. discriminate.
Defined.

(** [Login] on a client that holds a session id, its session not marked
    as expired, panics: no request is made, and the error code is asked
    of a nil map. *)
Theorem Login_with_a_session_panics
    (Decode : ReadCloser -> result Synology.jmap)
    (application : string) (client : Synology.Client) (w : World) :
  Synology.SId client <> "" ->
  Synology.SessionExpire (Synology.config client) = false ->
  Synology.Login Decode application client w
  = Panic "interface conversion: interface {} is nil, not bool".
Proof.
  intros Hs He. unfold Synology.Login. rewrite He.
  apply String.eqb_neq in Hs. rewrite Hs. reflexivity.
Qed.

Lemma Login_with_a_session_panics_witness :
  Synology.Login Samples.nasDecode "FileStation" Samples.nasClient
    (Samples.nas 200 "deleted")
  = Panic "interface conversion: interface {} is nil, not bool".
Proof.
  apply (Login_with_a_session_panics Samples.nasDecode "FileStation"
           Samples.nasClient (Samples.nas 200 "deleted"));
    [discriminate|reflexivity].
Defined.

(** A login the NAS refuses is not reported: with an answer other than
    200 [Login] returns nil and leaves the client as it was, and with a
    document that says [success: false] and carries an error code other
    than 0 it returns nil and empties the session id. *)
Theorem Login_refused_is_silent
    (Decode : ReadCloser -> result Synology.jmap)
    (application : string) (client : Synology.Client) (w : World)
    (resp : Response) :
  Synology.SId client = "" \/ Synology.SessionExpire (Synology.config client) = true ->
  (forall url, http_Get w url = (Some resp, None)) ->
  (StatusCode resp <> 200%Z ->
   Synology.Login Decode application client w = Returned (None, client))
  /\ (forall m e f,
        StatusCode resp = 200%Z ->
        Decode (Body resp) = Ok m ->
        Synology.index m "success" = Some (Synology.JBool false) ->
        Synology.index m "error" = Some (Synology.JObject e) ->
        Synology.index e "code" = Some (Synology.JNumber f) ->
        Synology.to_int f <> 0%Z ->
        Synology.Login Decode application client w
        = Returned (None,
                    Synology.mkClient (Synology.config client) ""
                      (Synology.SynoToken client) (Synology.AppAPIList client)
                      (Synology.FullAPIList client))).
Proof.
  intros Hfresh Hget.
  assert (negb (Synology.SessionExpire (Synology.config client))
          && negb (String.eqb (Synology.SId client) "") = false) as Hb.
  { destruct Hfresh as [-> | ->]; [apply andb_false_r|reflexivity]. }
  unfold Synology.Login. rewrite Hb, Hget. unfold Synology.StatusOK. split.
  - intros Hne. apply Z.eqb_neq in Hne. rewrite Hne. reflexivity.
  - intros m e f Hs Hm H1 H2 H3 Hf. rewrite Hs, Hm. cbn [Z.eqb negb Pos.eqb].
    unfold Synology.getErrorCode. rewrite H1. cbn [Synology.as_bool Synology.bind].
    rewrite H2. cbn [Synology.as_map Synology.bind].
    rewrite H3. cbn [Synology.as_float64 Synology.bind].
    apply Z.eqb_neq in Hf. rewrite Hf. reflexivity.
Qed.

Lemma Login_refused_is_silent_witness :
  Synology.Login Samples.nasDecode "FileStation" Samples.nasFresh
    (Samples.nas 403 "Forbidden") = Returned (None, Samples.nasFresh)
  /\ Synology.Login Samples.nasDecode "FileStation" Samples.nasFresh
       (Samples.nas 200 "denied") = Returned (None, Samples.nasFresh).
Proof.
  split.
  - apply (proj1 (Login_refused_is_silent Samples.nasDecode "FileStation"
                    Samples.nasFresh (Samples.nas 403 "Forbidden")
                    (mkResponse 403 (mkReadCloser "Forbidden" None))
                    (or_introl eq_refl) (fun _ => eq_refl))).
    discriminate.
  - apply (proj2 (Login_refused_is_silent Samples.nasDecode "FileStation"
                    Samples.nasFresh (Samples.nas 200 "denied")
                    (mkResponse 200 (mkReadCloser "denied" None))
                    (or_introl eq_refl) (fun _ => eq_refl))
             [("success", Synology.JBool false);
              ("error", Synology.JObject
                          [("code", Synology.JNumber (Synology.mkFloat64 400))])]
             [("code", Synology.JNumber (Synology.mkFloat64 400))]
             (Synology.mkFloat64 400));
      solve [reflexivity | discriminate].
Defined.

(** [New] against a NAS that answers every request with a status other
    than 200 returns a client all the same, without a session; the
    download URLs that client hands out carry an empty token and an empty
    session id. *)
Theorem New_is_silent
    (Decode : ReadCloser -> result Synology.jmap)
    (strings_ToLower : string -> string)
    (config : Synology.Config) (w : World) (resp : Response) :
  (forall url, http_Get w url = (Some resp, None)) ->
  StatusCode resp <> 200%Z ->
  Synology.New Decode strings_ToLower config w
  = Returned (Synology.mkClient config "" "" None None)
  /\ forall path,
       path <> "" ->
       Synology.GetURL (Synology.mkClient config "" "" None None) path
       = ((Synology.Endpoint config +:+ "/webapi/entry.cgi") +:+ "?"
          +:+ "SynoToken=&_sid=&api=SYNO.FileStation.Download&method=download&mode=download&path="
          +:+ URL.QueryEscape (Synology.SharedFolder config +:+ path)
          +:+ "&version=2", None).
Proof.
  intros Hget Hne. split.
  - unfold Synology.New, Synology.Login, Synology.GetAPIList.
    cbn [Synology.SId Synology.config String.eqb negb andb].
    rewrite andb_false_r, Hget. unfold Synology.StatusOK.
    apply Z.eqb_neq in Hne. rewrite Hne.
    cbn [negb Synology.bind snd Synology.config]. rewrite Hget, Hne. reflexivity.
  - intros path Hp. rewrite (GetURL_query _ path Hp). reflexivity.
Qed.

Lemma New_is_silent_witness :
  Synology.New Samples.nasDecode ToLower Samples.nasConfig
    (Samples.nas 403 "Forbidden") = Returned Samples.nasFresh
  /\ forall path,
       path <> "" ->
       Synology.GetURL Samples.nasFresh path
       = (("http://nas.local:5000" +:+ "/webapi/entry.cgi") +:+ "?"
          +:+ "SynoToken=&_sid=&api=SYNO.FileStation.Download&method=download&mode=download&path="
          +:+ URL.QueryEscape ("/home" +:+ path) +:+ "&version=2", None).
Proof.
  apply (New_is_silent Samples.nasDecode ToLower Samples.nasConfig
           (Samples.nas 403 "Forbidden")
           (mkResponse 403 (mkReadCloser "Forbidden" None)));
    [reflexivity|discriminate].
Defined.
End Nas.

(** ** Uploads through the SDKs *)

Module Uploads.
Import GoStrings oss Shapes GoStringsFacts.
Local Open Scope list_scope.

(** azureblob: [Put] uploads what could be read.  When [Seek] works (or
    the reader is no seeker) and the upload succeeds, [Put] returns the
    object and no error even if the reader broke off with an error: the
    blob then holds the bytes read before it.  When [Seek] fails, [Put]
    returns that error and no object. *)
Theorem azureblob_Put_uploads_what_was_read
    (UploadBlob : string -> string -> string -> option error)
    (TypeByExtension DetectContentType : string -> string)
    (client : Azureblob.Client) (urlPath : string) (reader : io.Reader)
    (w : World) :
  (forall blobType,
     UploadBlob (Azureblob.ToRelativePath client urlPath) blobType
       (drop (if io.rewinds reader then 0 else io.position reader)
          (io.bytes reader)) = None) ->
  match (if io.seekable reader then io.seek_err reader else None) with
  | Some err =>
      Azureblob.Put UploadBlob TypeByExtension DetectContentType client urlPath
        reader w = (None, Some err, reader)
  | None =>
      Azureblob.Put UploadBlob TypeByExtension DetectContentType client urlPath
        reader w
      = (Some (mkObject (Azureblob.ToRelativePath client urlPath)
                 (filepath.Base (Azureblob.ToRelativePath client urlPath))
                 (Some (now w)) 0%Z client),
         None, io.drained (io.rewind reader))
  end.
Proof.
  intros Hup. unfold Azureblob.Put.
  destruct (if io.seekable reader then io.seek_err reader else None) eqn:Es;
    [reflexivity|].
  unfold io.remaining. cbn [data].
  rewrite LocalFiles.rewind_position, LocalFiles.rewind_bytes, Hup. reflexivity.
Qed.

Lemma azureblob_Put_uploads_what_was_read_witness :
  Azureblob.Put Samples.uploadOk Samples.noType Samples.noType
    Samples.azureClient "/docs/a.txt" Samples.brokenReader Samples.offline
  = (Some (mkObject "docs/a.txt" "a.txt" (Some 1700000000%Z) 0%Z
             Samples.azureClient),
     None, io.mkReader "hel" 3 false None (Some "unexpected EOF"))
  /\ Azureblob.Put Samples.uploadOk Samples.noType Samples.noType
       Samples.azureClient "/docs/a.txt" Samples.stuckReader Samples.offline
     = (None, Some "seek: illegal seek", Samples.stuckReader).
Proof.
  split.
  - apply (azureblob_Put_uploads_what_was_read Samples.uploadOk Samples.noType
             Samples.noType Samples.azureClient "/docs/a.txt"
             Samples.brokenReader Samples.offline).
    reflexivity.
  - apply (azureblob_Put_uploads_what_was_read Samples.uploadOk Samples.noType
             Samples.noType Samples.azureClient "/docs/a.txt"
             Samples.stuckReader Samples.offline).
    reflexivity.
Defined.

Lemma trimmed_key p :
  Contains p "//" = false ->
  Contains (TrimPrefix p "/") "//" = false
  /\ HasPrefix (TrimPrefix p "/") "/" = false.
Proof.
  intros Hc. destruct p as [|c t]; [split; reflexivity|].
  unfold TrimPrefix. rewrite HasPrefix_byte.
  destruct (Ascii.eqb_spec c "/") as [->|Hne].
  - change (drop (String.length "/") (String "/" t)) with t.
    unfold Contains in *. cbn [Index] in Hc.
    change (HasPrefix (String "/" t) "//")
      with (Ascii.eqb "/" "/" && HasPrefix t "/") in Hc.
    cbn [Ascii.eqb Bool.eqb andb] in Hc.
    destruct (HasPrefix t "/"); [discriminate|].
    destruct (Index t "//"); [discriminate|]. split; reflexivity.
  - split; [exact Hc|]. rewrite HasPrefix_byte.
    apply Ascii.eqb_neq. exact Hne.
Qed.

(** azureblob: the object of a [Put] names the blob that was written.  For
    a path without two slashes in a row, the path of the returned object is
    the path without its leading slash; that is the name the blob was
    uploaded under, the normalizer leaves it as it is, and [Delete] and
    [Object.Get] of the object address that blob. *)
Theorem azureblob_Put_names_the_blob
    (UploadBlob : string -> string -> string -> option error)
    (TypeByExtension DetectContentType : string -> string)
    (client : Azureblob.Client) (urlPath : string) (reader : io.Reader)
    (w : World) (obj : Object Azureblob.Client) (r' : io.Reader) :
  Contains urlPath "//" = false ->
  Azureblob.Put UploadBlob TypeByExtension DetectContentType client urlPath
    reader w = (Some obj, None, r') ->
  Path obj = TrimPrefix urlPath "/"
  /\ (exists blobType data, UploadBlob (Path obj) blobType data = None)
  /\ Azureblob.ToRelativePath client (Path obj) = Path obj
  /\ Azureblob.Delete client (Path obj)
     = Azureblob.BlobDelete (Azureblob.containerURL client) (Path obj)
  /\ forall w', Object_Get Azureblob.Get obj w' = Azureblob.Get client urlPath w'.
Proof.
  intros Hc. destruct (trimmed_key urlPath Hc) as [Hk1 Hk2].
  assert (Azureblob.ToRelativePath client urlPath = TrimPrefix urlPath "/") as E1.
  { unfold Azureblob.ToRelativePath, Azureblob.urlRegexp.
    rewrite (Keys.url_pattern_needs_slashes _ Hc). reflexivity. }
  assert (Azureblob.ToRelativePath client (TrimPrefix urlPath "/")
          = TrimPrefix urlPath "/") as E2.
  { unfold Azureblob.ToRelativePath, Azureblob.urlRegexp.
    rewrite (Keys.url_pattern_needs_slashes _ Hk1).
    apply Keys.TrimPrefix_no_slash. exact Hk2. }
  unfold Azureblob.Put.
  destruct (if io.seekable reader then io.seek_err reader else None);
    [discriminate|].
  rewrite E1.
  destruct (UploadBlob _ _ _) as [err|] eqn:Eu; [discriminate|].
  intros H. inversion H as [[Ho Hr]]. cbn [Path].
  split; [reflexivity|]. split; [eauto|]. split; [exact E2|]. split.
  - unfold Azureblob.Delete. rewrite E2. reflexivity.
  - intros w'. unfold Object_Get, Azureblob.Get. cbn [Path StorageInterface].
    rewrite E2, E1. reflexivity.
Qed.

Lemma azureblob_Put_names_the_blob_witness :
  "docs/a.txt" = TrimPrefix "/docs/a.txt" "/"
  /\ (exists blobType data, Samples.uploadOk "docs/a.txt" blobType data = None)
  /\ Azureblob.ToRelativePath Samples.azureClient "docs/a.txt" = "docs/a.txt"
  /\ Azureblob.Delete Samples.azureClient "docs/a.txt"
     = Azureblob.BlobDelete (Azureblob.containerURL Samples.azureClient)
         "docs/a.txt"
  /\ forall w',
       Object_Get Azureblob.Get
         (mkObject "docs/a.txt" "a.txt" (Some 1700000000%Z) 0%Z
            Samples.azureClient) w'
       = Azureblob.Get Samples.azureClient "/docs/a.txt" w'.
Proof.
  apply (azureblob_Put_names_the_blob Samples.uploadOk Samples.noType
           Samples.noType Samples.azureClient "/docs/a.txt"
           Samples.helloReader Samples.offline
           (mkObject "docs/a.txt" "a.txt" (Some 1700000000%Z) 0%Z
              Samples.azureClient)
           (io.mkReader "hello" 5 true None None));
    vm_compute; reflexivity.
Defined.

(** qiniu: [Put] uploads whole readers only, and its object names the key.
    A reader that breaks off with an error makes [Put] return that error
    and no object, whatever the uploader.  When [Put] succeeds for a path
    without two slashes in a row, and the service answers with the key it
    was given, the path of the object is the path without its leading
    slash, and [Delete] and [GetURL] of that path address that key. *)
Theorem qiniu_Put_names_the_key
    (UploadToken : string -> string)
    (FormPut : string -> string -> string -> result string)
    (client : Qiniu.Client) (urlPath : string) (reader : io.Reader) (w : World) :
  (forall upToken key data ret, FormPut upToken key data = Ok ret -> ret = key) ->
  Contains urlPath "//" = false ->
  (forall err,
     io.fails reader = Some err ->
     Qiniu.Put UploadToken FormPut client urlPath reader w
     = (None, Some err, io.drained (io.rewind reader)))
  /\ (forall obj r',
        Qiniu.Put UploadToken FormPut client urlPath reader w
          = (Some obj, None, r') ->
        io.fails reader = None
        /\ Path obj = TrimPrefix urlPath "/"
        /\ FormPut
             (UploadToken (Qiniu.Bucket (Qiniu.config client) +:+ ":"
                           +:+ Path obj))
             (Path obj)
             (drop (if io.rewinds reader then 0 else io.position reader)
                (io.bytes reader)) = Ok (Path obj)
        /\ Qiniu.Delete client (Path obj)
           = Qiniu.BucketDelete (Qiniu.sdk client)
               (Qiniu.Bucket (Qiniu.config client)) (Path obj)
        /\ (Path obj <> "" ->
            forall w', Qiniu.GetURL client (Path obj) w'
                       = Qiniu.GetURL client urlPath w')).
Proof.
  intros Hecho Hc. destruct (trimmed_key urlPath Hc) as [Hk1 Hk2].
  assert (Qiniu.storageKey urlPath = TrimPrefix urlPath "/") as E1.
  { unfold Qiniu.storageKey, Qiniu.urlRegexp.
    rewrite (Keys.url_pattern_needs_slashes _ Hc). reflexivity. }
  assert (Qiniu.storageKey (TrimPrefix urlPath "/") = TrimPrefix urlPath "/") as E2.
  { unfold Qiniu.storageKey, Qiniu.urlRegexp.
    rewrite (Keys.url_pattern_needs_slashes _ Hk1).
    apply Keys.TrimPrefix_no_slash. exact Hk2. }
  unfold Qiniu.Put. rewrite LocalFiles.rewind_fails, E1. split.
  - intros err ->. reflexivity.
  - intros obj r'. destruct (io.fails reader); [discriminate|].
    unfold io.remaining. cbn [data].
    rewrite LocalFiles.rewind_position, LocalFiles.rewind_bytes.
    destruct (FormPut _ _ _) as [retKey|err] eqn:Ef; [|discriminate].
    pose proof (Hecho _ _ _ _ Ef) as ->.
    intros H. inversion H as [[Ho Hr]]. cbn [Path].
    split; [reflexivity|]. split; [reflexivity|]. split; [exact Ef|]. split.
    + unfold Qiniu.Delete. rewrite E2. reflexivity.
    + intros Hne w'. unfold Qiniu.GetURL. rewrite E2, E1.
      destruct urlPath as [|c t]; [contradiction Hne; reflexivity|].
      destruct (TrimPrefix (String c t) "/") as [|c' t'] eqn:Et;
        [contradiction Hne; reflexivity|].
      reflexivity.
Qed.

Lemma qiniu_Put_names_the_key_witness :
  (forall err,
     io.fails Samples.brokenReader = Some err ->
     Qiniu.Put Samples.tokenOf Samples.formPutOk Samples.qiniuPublic
       "/docs/a.txt" Samples.brokenReader Samples.offline
     = (None, Some err, io.drained (io.rewind Samples.brokenReader)))
  /\ (io.fails Samples.helloReader = None
      /\ "docs/a.txt" = TrimPrefix "/docs/a.txt" "/"
      /\ Samples.formPutOk (Samples.tokenOf ("bucket" +:+ ":" +:+ "docs/a.txt"))
           "docs/a.txt" "hello" = Ok "docs/a.txt"
      /\ Qiniu.Delete Samples.qiniuPublic "docs/a.txt"
         = Qiniu.BucketDelete (Qiniu.sdk Samples.qiniuPublic) "bucket" "docs/a.txt"
      /\ ("docs/a.txt" <> "" ->
          forall w', Qiniu.GetURL Samples.qiniuPublic "docs/a.txt" w'
                     = Qiniu.GetURL Samples.qiniuPublic "/docs/a.txt" w')).
Proof.
  split.
  - apply (proj1 (qiniu_Put_names_the_key Samples.tokenOf Samples.formPutOk
                    Samples.qiniuPublic "/docs/a.txt" Samples.brokenReader
                    Samples.offline
                    ltac:(intros t k d r H; inversion H; reflexivity)
                    eq_refl)).
  - apply (proj2 (qiniu_Put_names_the_key Samples.tokenOf Samples.formPutOk
                    Samples.qiniuPublic "/docs/a.txt" Samples.helloReader
                    Samples.offline
                    ltac:(intros t k d r H; inversion H; reflexivity)
                    eq_refl)
             (mkObject "docs/a.txt" "a.txt" (Some 1700000000%Z) 0%Z
                Samples.qiniuPublic)
             (io.mkReader "hello" 5 true None None)).
    reflexivity.
Defined.
End Uploads.

(** ** The base directory of the filesystem backend *)

Module Bases.
Import GoStrings oss Shapes GoStringsFacts.
Local Open Scope list_scope.

(** The base directory [New] gives a file system.  An absolute base of
    elements is kept; a relative one is put under the working directory;
    and when the working directory cannot be read, a relative base becomes
    the empty string, under which [GetFullPath] returns every path as it
    is. *)
Theorem filesystem_New_base (B C : list string) (w : World) :
  B <> [] -> forallb elem B = true ->
  Filesystem.New (rooted B) w = Filesystem.mkFileSystem (rooted B)
  /\ (C <> [] -> forallb elem C = true -> cwd w = Some (rooted C) ->
      Filesystem.New (filepath.join_slash B) w
      = Filesystem.mkFileSystem (rooted (C ++ B)))
  /\ (cwd w = None ->
      Filesystem.New (filepath.join_slash B) w = Filesystem.mkFileSystem ""
      /\ forall path w',
           Filesystem.GetFullPath (Filesystem.New (filepath.join_slash B) w)
             path w' = path).
Proof.
  intros HB HBe.
  assert (filepath.IsAbs (filepath.join_slash B) = false) as Hrel.
  { unfold filepath.IsAbs.
    destruct B as [|e B]; [contradiction|].
    cbn [forallb] in HBe. apply andb_prop in HBe as [He _].
    pose proof (CleanPaths.elem_slashfree e He) as Hs.
    destruct (CleanPaths.elem_tests e He) as (H0 & _).
    destruct e as [|c e]; [discriminate|].
    apply andb_prop in Hs as [Hc _]. unfold differs in Hc.
    apply negb_true_iff in Hc.
    assert (exists u, filepath.join_slash (String c e :: B) = String c u) as [u ->]
      by (destruct B; eexists; reflexivity).
    rewrite HasPrefix_byte. exact Hc. }
  split; [|split].
  - unfold Filesystem.New.
    pose proof (CleanPaths.Abs_rooted (cwd w) B HB HBe) as E.
    destruct (filepath.Abs (cwd w) (rooted B)) as [absbase err].
    cbn [fst] in E. rewrite E. reflexivity.
  - intros HC HCe Hw. unfold Filesystem.New, filepath.Abs.
    rewrite Hrel, Hw.
    rewrite (CleanPaths.Join_rooted C B HC HCe HB (CleanPaths.elems_parts B HBe)).
    rewrite (CleanPaths.filter_elems B HBe). reflexivity.
  - intros Hw.
    assert (Filesystem.New (filepath.join_slash B) w = Filesystem.mkFileSystem "")
      as E by (unfold Filesystem.New, filepath.Abs; rewrite Hrel, Hw; reflexivity).
    split; [exact E|]. intros path w'. rewrite E.
    unfold Filesystem.GetFullPath. cbn [Filesystem.Base].
    destruct path; reflexivity.
Qed.

(** [New] of [/tmp], of [data/files] where the working directory is
    [/srv/app], and of [data/files] where it cannot be read. *)
Lemma filesystem_New_base_witness :
  Filesystem.New "/tmp" Samples.offline = Samples.tmpFileSystem
  /\ Filesystem.New "data/files"
       Samples.appHost
     = Filesystem.mkFileSystem "/srv/app/data/files"
  /\ forall path w',
       Filesystem.GetFullPath
         (Filesystem.New "data/files"
            Samples.lostHost)
         path w' = path.
Proof.
  split; [|split].
  - exact (proj1 (filesystem_New_base ["tmp"] [] Samples.offline
                    ltac:(discriminate) eq_refl)).
  - exact (proj1 (proj2 (filesystem_New_base ["data"; "files"] ["srv"; "app"]
                           Samples.appHost
                           ltac:(discriminate) eq_refl))
             ltac:(discriminate) eq_refl eq_refl).
  - exact (proj2 (proj2 (proj2 (filesystem_New_base ["data"; "files"] []
                                  Samples.lostHost
                                  ltac:(discriminate) eq_refl))
                    eq_refl)).
Defined.
End Bases.

(** ** Uploads to the NAS *)

Module NasUploads.
Import GoStrings oss Shapes GoStringsFacts.
Local Open Scope list_scope.

Lemma plain_elems_elems E : forallb plain_elem E = true -> forallb elem E = true.
Proof.
  induction E as [|e E IH]; [reflexivity|]. cbn [forallb]. intros H.
  apply andb_prop in H as [He HE]. apply andb_prop in He as [He _].
  rewrite He, (IH HE). reflexivity.
Qed.

Lemma all_bytes_join P E :
  P "/"%char = true -> forallb (all_bytes P) E = true ->
  all_bytes P (filepath.join_slash E) = true.
Proof.
  intros HP. induction E as [|e E IH]; [reflexivity|]. cbn [forallb]. intros H.
  apply andb_prop in H as [He HE]. destruct E as [|e' E]; [exact He|].
  change (filepath.join_slash (e :: e' :: E))
    with (e +:+ "/" +:+ filepath.join_slash (e' :: E)).
  rewrite !all_bytes_app, He, (IH HE). cbn [all_bytes]. rewrite HP. reflexivity.
Qed.

Lemma path_bytes_rooted E :
  forallb plain_elem E = true -> all_bytes path_byte (rooted E) = true.
Proof.
  intros H. unfold rooted. apply all_bytes_join; [reflexivity|].
  cbn [forallb all_bytes]. clear -H.
  induction E as [|e E IH]; [reflexivity|]. cbn [forallb] in *.
  apply andb_prop in H as [He HE]. apply andb_prop in He as [_ He].
  rewrite He, (IH HE). reflexivity.
Qed.

Lemma unescape_path s :
  all_bytes (differs "%"%char) s = true -> URL.unescape s URL.encodePath = Some s.
Proof.
  induction s as [|c s IH]; [reflexivity|]. intros H.
  apply andb_prop in H as [Hc Hs]. unfold differs in Hc. apply negb_true_iff in Hc.
  cbn [URL.unescape]. rewrite Hc. cbn [URL.host_mode andb].
  rewrite (IH Hs). reflexivity.
Qed.

(** [url.Parse] of a path [/e1/.../en] of plain elements is that path. *)
Lemma Parse_rooted E :
  E <> [] -> forallb plain_elem E = true ->
  URL.Parse (rooted E) = Some (URL.mkURL "" "" "" (rooted E) "" "").
Proof.
  intros Hne HE. pose proof (path_bytes_rooted E HE) as Hb.
  assert (forall P, (forall c, path_byte c = true -> P c = true) ->
                    all_bytes P (rooted E) = true) as Hall
    by (intros P HP; exact (all_bytes_impl path_byte P _ HP Hb)).
  assert (all_bytes (differs "#"%char) (rooted E) = true) as Hhash.
  { apply Hall. intros c Hc. unfold path_byte in Hc.
    apply andb_prop in Hc as [_ Hc]. exact Hc. }
  assert (all_bytes (differs "?"%char) (rooted E) = true) as Hq.
  { apply Hall. intros c Hc. unfold path_byte in Hc.
    apply andb_prop in Hc as [Hc _]. apply andb_prop in Hc as [_ Hc]. exact Hc. }
  assert (all_bytes (differs "%"%char) (rooted E) = true) as Hp.
  { apply Hall. intros c Hc. unfold path_byte in Hc.
    apply andb_prop in Hc as [Hc _]. apply andb_prop in Hc as [Hc _].
    apply andb_prop in Hc as [_ Hc]. exact Hc. }
  assert (URL.stringContainsCTLByte (rooted E) = false) as Hctl.
  { apply ThreeShapes.CTL_absent. apply Hall. intros c Hc. unfold path_byte in Hc.
    apply andb_prop in Hc as [Hc _]. apply andb_prop in Hc as [Hc _].
    apply andb_prop in Hc as [Hc _]. exact Hc. }
  assert (HasPrefix (rooted E) "//" = false) as H2.
  { destruct E as [|e E]; [contradiction|]. cbn [forallb] in HE.
    apply andb_prop in HE as [He _]. apply andb_prop in He as [He _].
    pose proof (CleanPaths.elem_slashfree e He) as Hs.
    destruct (CleanPaths.elem_tests e He) as (H0 & _).
    destruct e as [|c e]; [discriminate|].
    apply andb_prop in Hs as [Hc _]. unfold differs in Hc.
    apply negb_true_iff in Hc.
    assert (exists u, rooted (String c e :: E) = String "/" (String c u)) as [u ->]
      by (destruct E; eexists; reflexivity).
    change (Ascii.eqb "/" "/" && (Ascii.eqb c "/" && true) = false).
    rewrite Hc. reflexivity. }
  destruct (CleanPaths.rooted_starts E Hne) as [t Et].
  unfold URL.Parse. rewrite (Cut_absent "#" _ Hhash).
  unfold URL.parse. rewrite Hctl.
  assert (String.eqb (rooted E) "*" = false) as -> by (rewrite Et; reflexivity).
  assert (URL.getScheme (rooted E) = Some ("", rooted E)) as ->
    by (rewrite Et; reflexivity).
  change (ToLower "") with "".
  rewrite (Count_absent "?" _ Hq). cbn [Nat.eqb]. rewrite andb_false_r.
  rewrite (Cut_absent "?" _ Hq).
  assert (HasPrefix (rooted E) "/" = true) as H1 by (rewrite Et; reflexivity).
  rewrite H1, H2. cbn [negb andb orb String.eqb].
  rewrite andb_false_r.
  rewrite (unescape_path _ Hp). reflexivity.
Qed.

Lemma Put_query (tok : string) :
  URL.Values_Encode
    (Synology.params_of
       [("api", "SYNO.FileStation.Upload"); ("version", "2");
        ("method", "upload"); ("SynoToken", tok)])
  = "SynoToken=" +:+ URL.QueryEscape tok
    +:+ "&api=SYNO.FileStation.Upload&method=upload&version=2".
Proof. vm_compute. reflexivity. Qed.



(** [Put] of a path [/d1/.../dn/x] of plain elements sends one request:
    the file [x] with the bytes the reader has left (it is not rewound),
    for the folder [SharedFolder/d1/.../dn], which is where [GetStream] and
    [GetURL] of the same path look for it; and its result is read off the
    answer. *)
Theorem Put_sends_the_file_where_GetURL_looks
    (Do : Synology.Upload -> option Response * option error)
    (client : Synology.Client) (D : list string) (x : string)
    (reader : io.Reader) (w : World) :
  D <> [] -> forallb plain_elem (D ++ [x]) = true -> io.fails reader = None ->
  exists u,
    Synology.upload_fields u
    = [("path", Synology.SharedFolder (Synology.config client) +:+ rooted D);
       ("overwrite", "true"); ("create_parents", "true")]
    /\ Synology.upload_filename u = x
    /\ Synology.upload_content u = drop (io.position reader) (io.bytes reader)
    /\ Synology.upload_url u
       = (Synology.Endpoint (Synology.config client) +:+ "/webapi/")
         +:+ "entry.cgi" +:+ "?" +:+ upload_query client
    /\ (Synology.SharedFolder (Synology.config client) +:+ rooted D)
       +:+ "/" +:+ x
       = Synology.SharedFolder (Synology.config client) +:+ rooted (D ++ [x])
    /\ fst (Synology.GetURL client (rooted (D ++ [x])))
       = (Synology.Endpoint (Synology.config client) +:+ "/webapi/entry.cgi")
         +:+ "?" +:+ download_query client (rooted (D ++ [x]))
    /\ (Synology.NewRequest (Synology.upload_url u) = None ->
        Synology.Put Do client (rooted (D ++ [x])) reader w
        = match Do u with
          | (_, Some err) => Returned (None, Some err, io.drained reader)
          | (None, None) => Panic nil_dereference
          | (Some resp, None) =>
              if (StatusCode resp =? 200)%Z
              then Returned
                     (Some (mkObject (rooted (D ++ [x])) x (Some (now w)) 0%Z
                              client),
                      None, io.drained reader)
              else Returned
                     (None,
                      Some ("upload failed, status code: "
                            +:+ pretty (StatusCode resp)),
                      io.drained reader)
          end).
Proof.
  intros HD HE Hf.
  pose proof (plain_elems_elems _ HE) as Hel.
  assert (forallb elem D = true /\ elem x = true) as [HDe Hx].
  { rewrite forallb_app in Hel. apply andb_prop in Hel as [H1 H2].
    cbn [forallb] in H2. rewrite andb_true_r in H2. auto. }
  assert (D ++ [x] <> []) as Hne by (destruct D; discriminate).
  eexists (Synology.mkUpload _ ("stay_login=1; id=" +:+ Synology.SId client)
             _ _ _). cbn [Synology.upload_fields
    Synology.upload_filename Synology.upload_content Synology.upload_url].
  split; [reflexivity|]. split; [reflexivity|]. split; [reflexivity|].
  split; [reflexivity|]. split.
  { rewrite (CleanPaths.rooted_snoc D x HD).
    rewrite !CleanPaths.string_append_assoc. reflexivity. }
  split.
  { rewrite Nas.GetURL_query; [reflexivity|].
    destruct (CleanPaths.rooted_starts _ Hne) as [t ->]. discriminate. }
  intros Hreq. unfold Synology.Put.
  rewrite (Parse_rooted _ Hne HE). cbn [URL.Path]. unfold filepath.ToSlash.
  rewrite (CleanPaths.Dir_rooted_snoc D x HDe HD Hx).
  rewrite (CleanPaths.Base_rooted_snoc D x HD Hx), Hf, Put_query.
  fold (upload_query client).
  change (Synology.Endpoint (Synology.config client) +:+ "/webapi/" +:+ "entry.cgi"
          +:+ "?" +:+ upload_query client)
    with ((Synology.Endpoint (Synology.config client) +:+ "/webapi/")
          +:+ "entry.cgi" +:+ "?" +:+ upload_query client) in *.
  rewrite Hreq. unfold io.remaining. cbn [data].
  destruct (Do _) as [[resp|] [err|]]; try reflexivity.
  unfold Synology.StatusOK. destruct (StatusCode resp =? 200)%Z; reflexivity.
Qed.

(** The sample reader, two bytes of it read, put under [/docs/a.txt]. *)
Lemma Put_sends_the_file_where_GetURL_looks_witness :
  exists u,
    Synology.upload_fields u
    = [("path", "/home/docs"); ("overwrite", "true"); ("create_parents", "true")]
    /\ Synology.upload_filename u = "a.txt"
    /\ Synology.upload_content u = "llo"
    /\ Synology.upload_url u
       = "http://nas.local:5000/webapi/entry.cgi?SynoToken=T%261%3D&api=SYNO.FileStation.Upload&method=upload&version=2"
    /\ "/home/docs/a.txt" = "/home/docs/a.txt"
    /\ fst (Synology.GetURL Samples.nasClient "/docs/a.txt")
       = "http://nas.local:5000/webapi/entry.cgi?SynoToken=T%261%3D&_sid=S+1&api=SYNO.FileStation.Download&method=download&mode=download&path=%2Fhome%2Fdocs%2Fa.txt&version=2"
    /\ (Synology.NewRequest (Synology.upload_url u) = None ->
        Synology.Put Samples.takesAll Samples.nasClient "/docs/a.txt"
          Samples.helloReader Samples.offline
        = Returned
            (Some (mkObject "/docs/a.txt" "a.txt" (Some 1700000000%Z) 0%Z
                     Samples.nasClient),
             None, io.mkReader "hello" 5 true None None)).
Proof.
  apply (Put_sends_the_file_where_GetURL_looks Samples.takesAll
           Samples.nasClient ["docs"] "a.txt" Samples.helloReader
           Samples.offline);
    [discriminate|reflexivity|reflexivity].
Defined.
End NasUploads.

(** ** Downloads from the NAS *)

Module NasDownloads.
Import GoStrings oss Shapes GoStringsFacts.
Local Open Scope list_scope.

Lemma temp_name_form tries dir prefix m : forall r name r',
  temp_name tries dir prefix r m = Some (name, r') ->
  exists k : nat, name = dir +:+ "/" +:+ prefix +:+ pretty k.
Proof.
  induction tries as [|n IH]; intros r name r'; [discriminate|].
  cbn [temp_name].
  destruct (m !! (dir +:+ "/" +:+ prefix +:+ pretty r)) eqn:E.
  - apply IH.
  - intros H. inversion H; subst. eauto.
Qed.

(** [Get] downloads the URL of [GetURL] into a fresh temporary file.  When
    the NAS answers that URL with a status other than 200, [Get] returns
    the error and leaves the disk alone; when it answers 200, either the
    temporary file cannot be created and the disk is left alone, or a file
    [/tmp/synology...] that was not there holds the body, and is returned
    together with the error that ended the body, if any. *)
Theorem Get_downloads_to_a_fresh_file
    (client : Synology.Client) (path : string) (w : World) (resp : Response) :
  path <> "" ->
  Synology.NewRequest (fst (Synology.GetURL client path)) = None ->
  http_Get w (fst (Synology.GetURL client path)) = (Some resp, None) ->
  (StatusCode resp <> 200%Z ->
   Synology.Get client path w
   = Returned (None,
               Some ("download failed, status code: " +:+ pretty (StatusCode resp)),
               w))
  /\ (StatusCode resp = 200%Z ->
      (exists e, Synology.Get client path w = Returned (None, Some e, w))
      \/ exists name w2,
           Synology.Get client path w
           = Returned (Some (mkFile name O), read_err (Body resp), w2)
           /\ HasPrefix name "/tmp/synology" = true
           /\ fs w !! name = None
           /\ fs w2 !! name = Some (RegularFile (data (Body resp)))).
Proof.
  intros Hp Hreq Hget. unfold Synology.GetURL in Hreq, Hget.
  unfold Synology.Get, Synology.GetStream.
  destruct (String.eqb_spec (filepath.ToSlash path) "") as [E|_];
    [contradiction|].
  cbn [fst] in Hreq, Hget. rewrite Hreq, Hget. unfold Synology.StatusOK. split.
  - intros Hne. apply Z.eqb_neq in Hne. rewrite Hne. reflexivity.
  - intros ->. cbn [Z.eqb Pos.eqb negb Synology.bind].
    unfold TempFile.
    destruct (fs w !! "/tmp") as [[c|]|]; [left; eauto| |left; eauto].
    destruct (temp_name (100 * 100) "/tmp" "synology" (random w) (fs w))
      as [[name r]|] eqn:E; [|left; eauto].
    right. unfold Copy. cbn [file_name offset take fs set_fs set_random].
    eexists. eexists. split; [reflexivity|]. cbn [fs set_fs set_random].
    split; [|split].
    + destruct (temp_name_form _ _ _ _ _ _ _ E) as [k ->].
      change ("/tmp" +:+ "/" +:+ "synology" +:+ pretty k)
        with ("/tmp/synology" +:+ pretty k).
      apply CleanPaths.HasPrefix_append.
    + eapply Operations.temp_name_fresh; exact E.
    + rewrite lookup_insert_eq. reflexivity.
Qed.

(** [/docs/a.txt] asked of a NAS that answers 403, and of one that serves
    [hello]. *)
Lemma Get_downloads_to_a_fresh_file_witness :
  Synology.Get Samples.nasClient "/docs/a.txt" (Samples.nas 403 "Forbidden")
  = Returned (None, Some "download failed, status code: 403",
              Samples.nas 403 "Forbidden")
  /\ ((exists e,
         Synology.Get Samples.nasClient "/docs/a.txt" (Samples.nas 200 "hello")
         = Returned (None, Some e, Samples.nas 200 "hello"))
      \/ exists name w2,
           Synology.Get Samples.nasClient "/docs/a.txt" (Samples.nas 200 "hello")
           = Returned (Some (mkFile name O), None, w2)
           /\ HasPrefix name "/tmp/synology" = true
           /\ fs (Samples.nas 200 "hello") !! name = None
           /\ fs w2 !! name = Some (RegularFile "hello")).
Proof.
  split.
  - apply (proj1 (Get_downloads_to_a_fresh_file Samples.nasClient "/docs/a.txt"
                    (Samples.nas 403 "Forbidden")
                    (mkResponse 403 (mkReadCloser "Forbidden" None))
                    ltac:(discriminate) ltac:(vm_compute; reflexivity)
                    eq_refl)).
    discriminate.
  - apply (proj2 (Get_downloads_to_a_fresh_file Samples.nasClient "/docs/a.txt"
                    (Samples.nas 200 "hello")
                    (mkResponse 200 (mkReadCloser "hello" None))
                    ltac:(discriminate) ltac:(vm_compute; reflexivity)
                    eq_refl)).
    reflexivity.
Defined.
End NasDownloads.
